(** * path_craft: status lifecycle, subtask cache and calendar view model

    A shallow embedding of the logic of the pages of the frontend
    (Tasks.js, the Goals page and the Calendar page, and the loading of the
    data of Dashboard.js and Analytics.js) together with the properties
    claimed about them and further properties of the same code.

    - [JSDate] models the part of the platform's [Date] object the Calendar
      page uses.
    - [Async] models [async] functions: a handler is a tree of synchronous
      effects and suspension points ([await] on a backend request), and a
      mounted component is its state, the handlers suspended on their
      requests, and the log of what has been observed.  The user's clicks
      and the backend's answers come one at a time, in any order.
    - [Goals], [Tasks] and [Calendar] embed the handlers of the pages.
    - [CalendarView] and [TasksView] embed what a render of these pages
      computes from the state: day cells and the side panel, the rows of a
      goal's card, badges, chevrons and subtask panels.
    - [AsyncAll] extends the model of [async] functions to
      [await Promise.all([...])]; [Dashboard], [Analytics] and [GoalDetails]
      embed the functions that use it.
    - [JSNumber] models the platform's Numbers (IEEE 754 binary64) where a
      page computes with them: the progress percentage of a goal's card.

    What the model takes for granted:
    - a handler reads the state of the render it was created in, and the
      page has re-rendered between two events, so that a handler is
      triggered on the current state; state setters apply in program order;
    - the states that statements start from are states the page has
      rendered: the render sorts the tasks of each goal in place, which
      leaves such a state as it is;
    - [response.data] has the shape the page expects of the endpoint;
    - identifiers are strings, the form in which they key the objects
      [tasks], [subtasks] and [loadingStates]. *)

From Stdlib Require Import ZArith Lia Bool Ascii DecimalString DecimalN Sorted.
From Stdlib Require PrimFloat FloatOps SpecFloat Uint63.
From stdpp Require Import gmap strings list fin_maps.

(* ===================================================================== *)
(** ** The platform's Date object *)
(* ===================================================================== *)

Module JSDate.
Local Open Scope Z_scope.

(** A [Date] holds a time value, or NaN ("Invalid Date").  Every operation
    the pages use reads or writes the local-time fields, so the time value
    is kept as local time: milliseconds since 1970-01-01T00:00 local.  The
    two places where an instant enters ([new Date()] and
    [new Date(string)]) are inputs of the model.

    Two things of the platform are left out of the operations below, and
    are conditions of the statements that need them.  A [Date] reaches
    10^8 days to either side of the epoch and is NaN beyond: see
    [year_in_range].  And local time is taken to run without gaps: where a
    daylight-saving change skips an hour, the platform moves a time of day
    that falls in it by the length of the gap, so of a date that the
    constructor or [setMonth] makes only the calendar day is stated, never
    the time of day. *)
Definition Date : Type := option Z.

(** A number that may be NaN. *)
Definition Number : Type := option Z.

Definition msPerDay : Z := 86400000.

Definition Day (t : Z) : Z := t / msPerDay.
Definition TimeWithinDay (t : Z) : Z := t mod msPerDay.

Definition DaysInYear (y : Z) : Z :=
  if negb (y mod 4 =? 0) then 365
  else if negb (y mod 100 =? 0) then 366
  else if negb (y mod 400 =? 0) then 365
  else 366.

Definition DayFromYear (y : Z) : Z :=
  365 * (y - 1970) + (y - 1969) / 4 - (y - 1901) / 100 + (y - 1601) / 400.

(** The year of a day number: the largest [y] with [DayFromYear y <= d].
    The quotient by the mean year length is off by at most one. *)
Definition YearFromDay (d : Z) : Z :=
  let y := 1970 + (400 * d) / 146097 in
  if DayFromYear (y + 1) <=? d then y + 1
  else if DayFromYear y <=? d then y
  else y - 1.

Definition leapDay (y : Z) : Z := if DaysInYear y =? 366 then 1 else 0.

Definition InLeapYear (d : Z) : Z := leapDay (YearFromDay d).
Definition DayWithinYear (d : Z) : Z := d - DayFromYear (YearFromDay d).

Definition MonthFromDay (d : Z) : Z :=
  let dw := DayWithinYear d in
  let lp := InLeapYear d in
  if dw <? 31 then 0
  else if dw <? 59 + lp then 1
  else if dw <? 90 + lp then 2
  else if dw <? 120 + lp then 3
  else if dw <? 151 + lp then 4
  else if dw <? 181 + lp then 5
  else if dw <? 212 + lp then 6
  else if dw <? 243 + lp then 7
  else if dw <? 273 + lp then 8
  else if dw <? 304 + lp then 9
  else if dw <? 334 + lp then 10
  else 11.

Definition DateFromDay (d : Z) : Z :=
  let dw := DayWithinYear d in
  let lp := InLeapYear d in
  match MonthFromDay d with
  | 0 => dw + 1
  | 1 => dw - 30
  | 2 => dw - 58 - lp
  | 3 => dw - 89 - lp
  | 4 => dw - 119 - lp
  | 5 => dw - 150 - lp
  | 6 => dw - 180 - lp
  | 7 => dw - 211 - lp
  | 8 => dw - 242 - lp
  | 9 => dw - 272 - lp
  | 10 => dw - 303 - lp
  | _ => dw - 333 - lp
  end.

(** Sunday is 0; 1970-01-01 was a Thursday. *)
Definition WeekDay (d : Z) : Z := (d + 4) mod 7.

(** Day within the year of the first of month [mn]. *)
Definition monthStart (mn lp : Z) : Z :=
  match mn with
  | 0 => 0
  | 1 => 31
  | 2 => 59 + lp
  | 3 => 90 + lp
  | 4 => 120 + lp
  | 5 => 151 + lp
  | 6 => 181 + lp
  | 7 => 212 + lp
  | 8 => 243 + lp
  | 9 => 273 + lp
  | 10 => 304 + lp
  | _ => 334 + lp
  end.

(** [MakeDay]: months outside 0..11 carry into the year, and a day of the
    month outside the month carries into the neighbouring months. *)
Definition MakeDay (year month date : Z) : Z :=
  let ym := year + month / 12 in
  let mn := month mod 12 in
  DayFromYear ym + monthStart mn (leapDay ym) + date - 1.

(** Length of month [m] (0..11) of year [y]. *)
Definition DaysInMonth (y m : Z) : Z :=
  match m with
  | 1 => 28 + leapDay y
  | 3 | 5 | 8 | 10 => 30
  | _ => 31
  end.

(** [new Date(year, month, date)]: the remaining fields default to 0.  A
    year in 0..99 is read as 1900 + year. *)
Definition newDate (year month date : Number) : Date :=
  y ← year; m ← month; dt ← date;
  let yr := if (0 <=? y) && (y <=? 99) then 1900 + y else y in
  Some (MakeDay yr m dt * msPerDay).

Definition getFullYear (d : Date) : Number := (λ t, YearFromDay (Day t)) <$> d.
Definition getMonth (d : Date) : Number := (λ t, MonthFromDay (Day t)) <$> d.
Definition getDate (d : Date) : Number := (λ t, DateFromDay (Day t)) <$> d.
Definition getDay (d : Date) : Number := (λ t, WeekDay (Day t)) <$> d.

(** [d.setMonth(month)]: the day of the month and the time of day are
    kept, and [MakeDay] normalises the result. *)
Definition setMonth (d : Date) (month : Number) : Date :=
  t ← d; m ← month;
  Some (MakeDay (YearFromDay (Day t)) m (DateFromDay (Day t)) * msPerDay
        + TimeWithinDay t).

Definition weekdayName (w : Z) : string :=
  match w with
  | 0 => "Sun" | 1 => "Mon" | 2 => "Tue" | 3 => "Wed"
  | 4 => "Thu" | 5 => "Fri" | _ => "Sat"
  end.

Definition monthName (m : Z) : string :=
  match m with
  | 0 => "Jan" | 1 => "Feb" | 2 => "Mar" | 3 => "Apr"
  | 4 => "May" | 5 => "Jun" | 6 => "Jul" | 7 => "Aug"
  | 8 => "Sep" | 9 => "Oct" | 10 => "Nov" | _ => "Dec"
  end.

Fixpoint zeros (k : nat) : string :=
  match k with
  | O => EmptyString
  | S k => String "0"%char (zeros k)
  end.

Definition decimal (n : N) : string := NilEmpty.string_of_uint (N.to_uint n).

Definition ToZeroPaddedDecimalString (n : N) (minLength : nat) : string :=
  let s := decimal n in
  zeros (minLength - String.length s) +:+ s.

(** The year of a date string: a sign for the years before 0, then at
    least four digits. *)
Definition yearString (yv : Z) : string :=
  (if yv <? 0 then "-" else "") +:+ ToZeroPaddedDecimalString (Z.abs_N yv) 4.

(** The range of [Date], in days from the epoch to either side. *)
Definition daysOfRange : Z := 100000000.

(** The years that lie within the range of [Date] with a day to spare on
    either side, so that every local date of the year is a valid [Date]
    whatever the time zone: the years -271820 to 275759. *)
Definition year_in_range (y : Z) : Prop :=
  - daysOfRange < DayFromYear y ∧ DayFromYear (y + 1) < daysOfRange.

(** [d.toDateString()], e.g. "Wed Apr 01 2026". *)
Definition toDateString (d : Date) : string :=
  match d with
  | None => "Invalid Date"
  | Some t =>
      let dn := Day t in
      weekdayName (WeekDay dn) +:+ " " +:+ monthName (MonthFromDay dn) +:+ " "
      +:+ ToZeroPaddedDecimalString (Z.to_N (DateFromDay dn)) 2 +:+ " "
      +:+ yearString (YearFromDay dn)
  end.

End JSDate.

(* ===================================================================== *)
(** ** The backend, seen from the pages *)
(* ===================================================================== *)

(** Identifiers are kept in the form in which they key an object and are
    spliced into a URL or a flag name: as strings. *)

Module Goal.
Record t : Type := mk {
  id : string;
  goal_name : string;
  description : string;
  weeks : Z;
  status : string
}.
End Goal.

Module Task.
Record t : Type := mk {
  id : string;
  title : string;
  week_number : Z;
  scheduled_date : string;
  status : string
}.
End Task.

Module Subtask.
Record t : Type := mk {
  id : string;
  description : string;
  scheduled_date : string;
  status : string
}.
End Subtask.

Module FormData.
Record t : Type := mk {
  goal_name : string;
  description : string;
  weeks : Z
}.
End FormData.

(** The requests the pages send; paths are relative to [BACKEND_URL]. *)
Inductive Request : Type :=
  | GET_goals                                    (* GET    /api/goals *)
  | POST_goals (formData : FormData.t)           (* POST   /api/goals *)
  | DELETE_goal (goalId : string)                (* DELETE /api/goals/:id *)
  | GET_goal_tasks (goalId : string)             (* GET    /api/goals/:id/tasks *)
  | PUT_task (taskId newStatus : string)         (* PUT    /api/tasks/:id *)
  | GET_task_subtasks (taskId : string)          (* GET    /api/tasks/:id/subtasks *)
  | PUT_subtask (subtaskId newStatus : string).  (* PUT    /api/subtasks/:id *)

(** What [response.data] is on success. *)
Definition response_data (req : Request) : Type :=
  match req with
  | GET_goals => list Goal.t
  | GET_goal_tasks _ => list Task.t
  | GET_task_subtasks _ => list Subtask.t
  | POST_goals _ | DELETE_goal _ | PUT_task _ _ | PUT_subtask _ _ => unit
  end.

(** A settled promise: fulfilled with a value or rejected with an error. *)
Inductive Settled (A : Type) : Type :=
  | Fulfilled (a : A)
  | Rejected (error : string).
Arguments Fulfilled {A} a.
Arguments Rejected {A} error.

(* ===================================================================== *)
(** ** Async functions over a component's state *)
(* ===================================================================== *)

Module Async.

Section Prog.
Context {S : Type}.

(** The body of an [async] function of a component whose state is [S].
    State setters take the update as a function of the latest state;
    everything a handler reads comes from the render it closes over. *)
Inductive Prog : Type :=
  | Done
  | Throw (error : string)
  | SetState (f : S → S) (k : Prog)
  | ConsoleError (msg error : string) (k : Prog)
  | Alert (msg : string) (k : Prog)
  | Await (req : Request) (k : Settled (response_data req) → Prog)
  | Call (p : Prog) (k : Prog).

(** [await axios...]: a rejection is thrown at the suspension point. *)
Definition await (req : Request) (k : response_data req → Prog) : Prog :=
  Await req (λ r, match r with
                  | Fulfilled a => k a
                  | Rejected error => Throw error
                  end).

(** [p; q] *)
Fixpoint andThen (p q : Prog) : Prog :=
  match p with
  | Done => q
  | Throw error => Throw error
  | SetState f k => SetState f (andThen k q)
  | ConsoleError msg error k => ConsoleError msg error (andThen k q)
  | Alert msg k => Alert msg (andThen k q)
  | Await req k => Await req (λ r, andThen (k r) q)
  | Call p' k => Call p' (andThen k q)
  end.

(** [try { p } catch (error) { h error }] *)
Fixpoint try_catch (p : Prog) (h : string → Prog) : Prog :=
  match p with
  | Done => Done
  | Throw error => h error
  | SetState f k => SetState f (try_catch k h)
  | ConsoleError msg error k => ConsoleError msg error (try_catch k h)
  | Alert msg k => Alert msg (try_catch k h)
  | Await req k => Await req (λ r, try_catch (k r) h)
  | Call p' k => Call p' (try_catch k h)
  end.

(** [try { p } finally { f }] *)
Fixpoint try_finally (p f : Prog) : Prog :=
  match p with
  | Done => f
  | Throw error => andThen f (Throw error)
  | SetState g k => SetState g (try_finally k f)
  | ConsoleError msg error k => ConsoleError msg error (try_finally k f)
  | Alert msg k => Alert msg (try_finally k f)
  | Await req k => Await req (λ r, try_finally (k r) f)
  | Call p' k => Call p' (try_finally k f)
  end.

(** What can be observed of a run; each event is recorded with the state
    at the moment it happens. *)
Inductive Event : Type :=
  | EvRequest (req : Request)
  | EvConsoleError (msg error : string)
  | EvAlert (msg : string).

(** A handler suspended on a request. *)
Record Suspended : Type := suspend {
  request : Request;
  resume : Settled (response_data request) → Prog
}.

Record Outcome : Type := outcome {
  state : S;
  events : list (Event * S);
  suspended : list Suspended
}.

(** Run a body until every branch of it is suspended or finished.  A
    called async function runs up to its first suspension point and then
    the caller goes on; a rejection nobody catches ends the body. *)
Fixpoint sync (p : Prog) (s : S) : Outcome :=
  match p with
  | Done => outcome s [] []
  | Throw _ => outcome s [] []
  | SetState f k => sync k (f s)
  | ConsoleError msg error k =>
      let o := sync k s in
      outcome (state o) ((EvConsoleError msg error, s) :: events o) (suspended o)
  | Alert msg k =>
      let o := sync k s in
      outcome (state o) ((EvAlert msg, s) :: events o) (suspended o)
  | Await req k => outcome s [(EvRequest req, s)] [suspend req k]
  | Call p' k =>
      let o1 := sync p' s in
      let o2 := sync k (state o1) in
      outcome (state o2) (events o1 ++ events o2) (suspended o1 ++ suspended o2)
  end.

(** How the backend settles a request. *)
Definition Backend : Type := ∀ req : Request, Settled (response_data req).

(** What happens to a mounted component: the user triggers a handler of the
    current render, or the backend settles the [i]-th outstanding
    request. *)
Inductive Input : Type :=
  | Trigger (handler : S → Prog)
  | Settle (i : nat) (backend : Backend).

Record Component : Type := component {
  current : S;
  outstanding : list Suspended;
  log : list (Event * S)
}.

Definition mounted (s : S) : Component := component s [] [].

Definition absorb (c : Component) (rest : list Suspended) (o : Outcome) : Component :=
  component (state o) (rest ++ suspended o) (log c ++ events o).

Definition step (c : Component) (i : Input) : Component :=
  match i with
  | Trigger handler => absorb c (outstanding c) (sync (handler (current c)) (current c))
  | Settle n backend =>
      match outstanding c !! n with
      | None => c
      | Some t =>
          absorb c (delete n (outstanding c))
                 (sync (resume t (backend (request t))) (current c))
      end
  end.

Definition run (c : Component) (inputs : list Input) : Component :=
  foldl step c inputs.

(** What other handlers do to the state between two steps of the one under
    study. *)
Definition Meanwhile (f : S → S) : Input := Trigger (λ _, SetState f Done).

Definition requests (l : list (Event * S)) : list Request :=
  omap (λ e, match e.1 with EvRequest req => Some req | _ => None end) l.

Definition alerts (l : list (Event * S)) : list string :=
  omap (λ e, match e.1 with EvAlert msg => Some msg | _ => None end) l.

Definition console_errors (l : list (Event * S)) : list string :=
  omap (λ e, match e.1 with EvConsoleError msg _ => Some msg | _ => None end) l.

End Prog.

Arguments Prog S : clear implicits.
Arguments Suspended S : clear implicits.
Arguments Outcome S : clear implicits.
Arguments Component S : clear implicits.
Arguments Input S : clear implicits.
Arguments Event : clear implicits.

Declare Scope prog_scope.
Delimit Scope prog_scope with prog.
Bind Scope prog_scope with Prog.
Notation "p ;; q" := (andThen p q)
  (at level 100, q at level 200, right associativity) : prog_scope.
Notation "'let*' x ':=' 'await' req 'in' k" := (await req (λ x, k))
  (at level 10, x name, req at level 9, k at level 200) : prog_scope.

(** Backends that answer every request alike. *)
Definition failing (error : string) : Backend := λ req, Rejected error.

End Async.

(** JavaScript objects used as maps.  [Object.keys] and [Object.values]
    enumerate the map; the platform's enumeration order is not modelled,
    and nothing proved below depends on it. *)
Definition Object_keys {V} (o : gmap string V) : list string := (map_to_list o).*1.
Definition Object_values {V} (o : gmap string V) : list V := (map_to_list o).*2.

(** The names of the members every plain object inherits from
    [Object.prototype].  [o[key]] finds one of them when [o] has no entry of
    its own under [key]; each is a function or an object, hence truthy, and
    none is an array. *)
Definition Object_prototype : list string :=
  ["constructor"; "hasOwnProperty"; "isPrototypeOf"; "propertyIsEnumerable";
   "toLocaleString"; "toString"; "valueOf"; "__proto__";
   "__defineGetter__"; "__defineSetter__"; "__lookupGetter__"; "__lookupSetter__"].

(* ===================================================================== *)
(** ** The Goals page (src/unnamed/part_001) *)
(* ===================================================================== *)

Module Goals.
Import Async.
Local Open Scope prog_scope.

Record State : Type := mkState {
  goals : list Goal.t;
  loading : bool;
  showCreateForm : bool;
  selectedGoal : option (Goal.t * list Task.t);
  formData : FormData.t;
  formLoading : bool
}.

Definition emptyForm : FormData.t := FormData.mk "" "" 4.

Definition initial : State := mkState [] true false None emptyForm false.

Definition setGoals (v : list Goal.t) : Prog State :=
  SetState (λ s, mkState v (loading s) (showCreateForm s) (selectedGoal s)
                         (formData s) (formLoading s)) Done.
Definition setLoading (v : bool) : Prog State :=
  SetState (λ s, mkState (goals s) v (showCreateForm s) (selectedGoal s)
                         (formData s) (formLoading s)) Done.
Definition setShowCreateForm (v : bool) : Prog State :=
  SetState (λ s, mkState (goals s) (loading s) v (selectedGoal s)
                         (formData s) (formLoading s)) Done.
Definition setFormData (v : FormData.t) : Prog State :=
  SetState (λ s, mkState (goals s) (loading s) (showCreateForm s) (selectedGoal s)
                         v (formLoading s)) Done.
Definition setFormLoading (v : bool) : Prog State :=
  SetState (λ s, mkState (goals s) (loading s) (showCreateForm s) (selectedGoal s)
                         (formData s) v) Done.

Definition fetchGoals : Prog State :=
  try_finally
    (try_catch
       (let* response := await GET_goals in
        setGoals response)
       (λ error, ConsoleError "Error fetching goals:" error Done))
    (setLoading false).

(** The handler closes over the render [snap], whose [formData] it posts. *)
Definition handleCreateGoal (snap : State) : Prog State :=
  setFormLoading true ;;
  try_finally
    (try_catch
       (let* _ := await (POST_goals (formData snap)) in
        setFormData emptyForm ;;
        setShowCreateForm false ;;
        Call fetchGoals Done)
       (λ error,
          ConsoleError "Error creating goal:" error
            (Alert "Failed to create goal. Please try again." Done)))
    (setFormLoading false).

(** [confirmed] is the user's answer to [window.confirm]. *)
Definition handleDeleteGoal (confirmed : bool) (goalId : string) : Prog State :=
  if negb confirmed then Done
  else
    try_catch
      (let* _ := await (DELETE_goal goalId) in
       Call fetchGoals Done)
      (λ error,
         ConsoleError "Error deleting goal:" error
           (Alert "Failed to delete goal. Please try again." Done)).

End Goals.

(* ===================================================================== *)
(** ** The Tasks page (src/frontend/src/pages/Tasks.js) *)
(* ===================================================================== *)

Module Tasks.
Import Async.
Local Open Scope prog_scope.

Record State : Type := mkState {
  goals : list Goal.t;
  tasks : gmap string (list Task.t);
  subtasks : gmap string (list Subtask.t);
  loading : bool;
  expandedTasks : gset string;
  loadingStates : gmap string bool
}.

Definition initial : State := mkState [] ∅ ∅ true ∅ ∅.

Definition setGoals (v : list Goal.t) : Prog State :=
  SetState (λ s, mkState v (tasks s) (subtasks s) (loading s)
                         (expandedTasks s) (loadingStates s)) Done.
Definition setTasks (v : gmap string (list Task.t)) : Prog State :=
  SetState (λ s, mkState (goals s) v (subtasks s) (loading s)
                         (expandedTasks s) (loadingStates s)) Done.
Definition setSubtasks
    (f : gmap string (list Subtask.t) → gmap string (list Subtask.t)) : Prog State :=
  SetState (λ s, mkState (goals s) (tasks s) (f (subtasks s)) (loading s)
                         (expandedTasks s) (loadingStates s)) Done.
Definition setLoading (v : bool) : Prog State :=
  SetState (λ s, mkState (goals s) (tasks s) (subtasks s) v
                         (expandedTasks s) (loadingStates s)) Done.
Definition setExpandedTasks (v : gset string) : Prog State :=
  SetState (λ s, mkState (goals s) (tasks s) (subtasks s) (loading s)
                         v (loadingStates s)) Done.
Definition setLoadingStates (f : gmap string bool → gmap string bool) : Prog State :=
  SetState (λ s, mkState (goals s) (tasks s) (subtasks s) (loading s)
                         (expandedTasks s) (f (loadingStates s))) Done.

(** The loop of [fetchTasksData]: one request per goal, each awaited before
    the next is sent; [k] is what follows the loop. *)
Fixpoint fetchTasksLoop (goalsData : list Goal.t) (tasksData : gmap string (list Task.t))
    (k : gmap string (list Task.t) → Prog State) : Prog State :=
  match goalsData with
  | [] => k tasksData
  | goal :: rest =>
      let* tasksResponse := await (GET_goal_tasks (Goal.id goal)) in
      fetchTasksLoop rest (<[Goal.id goal := tasksResponse]> tasksData) k
  end.

Definition fetchTasksData : Prog State :=
  try_finally
    (try_catch
       (let* goalsData := await GET_goals in
        setGoals goalsData ;;
        (* Fetch tasks for each goal *)
        fetchTasksLoop goalsData ∅ (λ tasksData, setTasks tasksData))
       (λ error, ConsoleError "Error fetching tasks data:" error Done))
    (setLoading false).

(** [if (subtasks[taskId]) return;] is taken for an entry of the cache and
    for a name that the object inherits alike. *)
Definition fetchSubtasks (snap : State) (taskId : string) : Prog State :=
  match subtasks snap !! taskId with
  | Some _ => Done (* Already loaded *)
  | None =>
      if bool_decide (taskId ∈ Object_prototype) then Done
      else
        try_catch
          (let* response := await (GET_task_subtasks taskId) in
           setSubtasks (λ prev, <[taskId := response]> prev))
          (λ error, ConsoleError "Error fetching subtasks:" error Done)
  end.

Definition toggleTaskExpansion (snap : State) (taskId : string) : Prog State :=
  let newExpanded := expandedTasks snap in
  if decide (taskId ∈ newExpanded) then
    let newExpanded := newExpanded ∖ {[taskId]} in
    setExpandedTasks newExpanded
  else
    let newExpanded := newExpanded ∪ {[taskId]} in
    fetchSubtasks snap taskId ;;
    setExpandedTasks newExpanded.

Definition task_key (taskId : string) : string := "task_" +:+ taskId.
Definition subtask_key (subtaskId : string) : string := "subtask_" +:+ subtaskId.

Definition updateTaskStatus (taskId newStatus : string) : Prog State :=
  setLoadingStates (λ prev, <[task_key taskId := true]> prev) ;;
  try_finally
    (try_catch
       (let* _ := await (PUT_task taskId newStatus) in
        (* Refresh tasks data *)
        Call fetchTasksData Done)
       (λ error,
          ConsoleError "Error updating task status:" error
            (Alert "Failed to update task status. Please try again." Done)))
    (setLoadingStates (λ prev, <[task_key taskId := false]> prev)).

(** [subtasks[taskId]?.some(st => st.id === subtaskId)] *)
Definition holds_subtask (cache : gmap string (list Subtask.t))
    (subtaskId taskId : string) : bool :=
  match cache !! taskId with
  | Some l => existsb (λ st, bool_decide (Subtask.id st = subtaskId)) l
  | None => false
  end.

(** The search for the parent runs over the cache of the render [snap];
    an empty key counts as not found. *)
Definition updateSubtaskStatus (snap : State) (subtaskId newStatus : string)
    : Prog State :=
  setLoadingStates (λ prev, <[subtask_key subtaskId := true]> prev) ;;
  try_finally
    (try_catch
       (let* _ := await (PUT_subtask subtaskId newStatus) in
        (* Refresh subtasks for the parent task *)
        match find (holds_subtask (subtasks snap) subtaskId)
                   (Object_keys (subtasks snap)) with
        | Some parentTaskId =>
            if bool_decide (parentTaskId = "") then Done
            else
              let* response := await (GET_task_subtasks parentTaskId) in
              setSubtasks (λ prev, <[parentTaskId := response]> prev)
        | None => Done
        end)
       (λ error,
          ConsoleError "Error updating subtask status:" error
            (Alert "Failed to update subtask status. Please try again." Done)))
    (setLoadingStates (λ prev, <[subtask_key subtaskId := false]> prev)).

(** One button of the action row: its React key, what a click runs, and
    whether it is disabled. *)
Record Button (H : Type) : Type := mkButton {
  key : string;
  onClick : H;
  disabled : bool
}.
Arguments mkButton {H} key onClick disabled.
Arguments key {H} b.
Arguments onClick {H} b.
Arguments disabled {H} b.

(** [isLoading] is [loadingStates[...]]: absent, [false] or [true]. *)
Definition getStatusActions {H} (currentStatus : string) (onUpdate : string → H)
    (isLoading : option bool) : list (Button H) :=
  let actions := [] in
  let actions :=
    if decide (currentStatus ≠ "completed")
    then actions ++ [mkButton "complete" (onUpdate "completed") (default false isLoading)]
    else actions in
  let actions :=
    if decide (currentStatus = "pending")
    then actions ++ [mkButton "start" (onUpdate "in_progress") (default false isLoading)]
    else actions in
  let actions :=
    if decide (currentStatus = "in_progress")
    then actions ++ [mkButton "pause" (onUpdate "pending") (default false isLoading)]
    else actions in
  actions.

(** The action rows as the page renders them for a task and a subtask. *)
Definition taskActions (s : State) (task : Task.t) : list (Button (Prog State)) :=
  getStatusActions (Task.status task)
    (λ newStatus, updateTaskStatus (Task.id task) newStatus)
    (loadingStates s !! task_key (Task.id task)).

Definition subtaskActions (s : State) (subtask : Subtask.t) : list (Button (Prog State)) :=
  getStatusActions (Subtask.status subtask)
    (λ newStatus, updateSubtaskStatus s (Subtask.id subtask) newStatus)
    (loadingStates s !! subtask_key (Subtask.id subtask)).

End Tasks.

(* ===================================================================== *)
(** ** The Calendar page (src/unnamed/part_002) *)
(* ===================================================================== *)

Module Calendar.
Import JSDate Async.
Local Open Scope Z_scope.

Record State : Type := mkState {
  currentDate : Date;
  goals : list Goal.t;
  tasks : gmap string (list Task.t);
  selectedDate : option Date;
  loading : bool
}.

Definition setCurrentDate (v : Date) : Prog State :=
  SetState (λ s, mkState v (goals s) (tasks s) (selectedDate s) (loading s)) Done.
Definition setGoals (v : list Goal.t) : Prog State :=
  SetState (λ s, mkState (currentDate s) v (tasks s) (selectedDate s) (loading s)) Done.
Definition setTasks (v : gmap string (list Task.t)) : Prog State :=
  SetState (λ s, mkState (currentDate s) (goals s) v (selectedDate s) (loading s)) Done.
Definition setLoading (v : bool) : Prog State :=
  SetState (λ s, mkState (currentDate s) (goals s) (tasks s) (selectedDate s) v) Done.

(** The loop of [fetchCalendarData], the one of the Tasks page again. *)
Fixpoint fetchTasksLoop (goalsData : list Goal.t) (tasksData : gmap string (list Task.t))
    (k : gmap string (list Task.t) → Prog State) : Prog State :=
  match goalsData with
  | [] => k tasksData
  | goal :: rest =>
      (let* tasksResponse := await (GET_goal_tasks (Goal.id goal)) in
       fetchTasksLoop rest (<[Goal.id goal := tasksResponse]> tasksData) k)%prog
  end.

Definition fetchCalendarData : Prog State :=
  try_finally
    (try_catch
       (let* goalsData := await GET_goals in
        setGoals goalsData ;;
        (* Fetch tasks for each goal *)
        fetchTasksLoop goalsData ∅ (λ tasksData, setTasks tasksData))%prog
       (λ error, ConsoleError "Error fetching calendar data:" error Done))
    (setLoading false).

(* Calendar utility functions *)
Definition getDaysInMonth (date : Date) : Number :=
  getDate (newDate (getFullYear date) ((λ m, m + 1) <$> getMonth date) (Some 0)).

Definition getFirstDayOfMonth (date : Date) : Number :=
  getDay (newDate (getFullYear date) (getMonth date) (Some 1)).

Definition isSameDate (date1 date2 : Date) : bool :=
  bool_decide (toDateString date1 = toDateString date2).

Section Page.
(** [new Date(string)], the platform's parser of the backend's timestamps *)
Variable parseDate : string → Date.

Definition getTasksForDate (s : State) (date : Date) : list Task.t :=
  let allTasks := [] in
  foldl (λ allTasks task,
           let taskDate := parseDate (Task.scheduled_date task) in
           if isSameDate taskDate date then allTasks ++ [task] else allTasks)
        allTasks (concat (Object_values (tasks s))).

End Page.

Definition navigateMonth (snap : State) (direction : Z) : Prog State :=
  let newDate := currentDate snap in
  let newDate := setMonth newDate ((λ m, m + direction) <$> getMonth (currentDate snap)) in
  setCurrentDate newDate.

(** The "Today" button; [now] is what [new Date()] returns at the click. *)
Definition todayClick (now : Date) : Prog State :=
  setCurrentDate now.

(** A cell of the grid: [None] is the [null] placeholder. *)
Definition Cell : Type := option Z.

(** A counted loop whose bound may be NaN, in which case the guard fails at
    once. *)
Definition iterations (bound : Number) : nat := from_option Z.to_nat 0%nat bound.

(* Generate calendar days *)
Definition calendarDays (currentDate : Date) : list Cell :=
  let daysInMonth := getDaysInMonth currentDate in
  let firstDay := getFirstDayOfMonth currentDate in
  let calendarDays := [] in
  (* Add empty cells for days before the first day of the month *)
  let calendarDays :=
    Nat.iter (iterations firstDay) (λ cells, cells ++ [None]) calendarDays in
  (* Add days of the month *)
  foldl (λ cells day, cells ++ [Some day]) calendarDays
        (seqZ 1 (Z.of_nat (iterations daysInMonth))).

End Calendar.

(* ===================================================================== *)
(** ** Vocabulary of the statements *)
(* ===================================================================== *)

(** The action table of the specification, as the claim about it reads it:
    [pending] offers start and complete, [in_progress] offers pause and
    complete, [completed] and [cancelled] offer nothing. *)
Definition spec_action_table (status : string) : gset string :=
  if decide (status = "pending") then {["start"; "complete"]}
  else if decide (status = "in_progress") then {["pause"; "complete"]}
  else ∅.

Module TasksRuns.
Import Async Tasks.

(** One of the two ways the page loads the subtasks of [taskId]. *)
Definition loads (taskId : string) (i : Input State) : Prop :=
  i = Trigger (λ snap, fetchSubtasks snap taskId)
  ∨ i = Trigger (λ snap, toggleTaskExpansion snap taskId).

(** [fetchTasksData] from its loop on: the goals not yet asked for and the
    tasks collected so far. *)
Definition fetchTasksRest (goalsData : list Goal.t)
    (tasksData : gmap string (list Task.t)) : Prog State :=
  try_finally
    (try_catch
       (fetchTasksLoop goalsData tasksData (λ tasksData, setTasks tasksData))
       (λ error, ConsoleError "Error fetching tasks data:" error Done))
    (setLoading false).

(** The page while the loop runs and nothing else does. *)
Definition looping (st : State) (lg : list (Event * State))
    (goalsData : list Goal.t) (tasksData : gmap string (list Task.t)) : Component State :=
  absorb (component st [] lg) [] (sync (fetchTasksRest goalsData tasksData) st).

(** What can happen to the page showing the state [s]: the data is fetched
    (on mount), a task is expanded or collapsed, a button of an action row
    that is not disabled is clicked, or a response arrives. *)
Inductive possible (s : State) : Input State → Prop :=
  | possible_fetch :
      possible s (Trigger (λ _, fetchTasksData))
  | possible_toggle taskId :
      possible s (Trigger (λ snap, toggleTaskExpansion snap taskId))
  | possible_task_action task b :
      b ∈ taskActions s task → disabled b = false →
      possible s (Trigger (λ _, onClick b))
  | possible_subtask_action subtask b :
      b ∈ subtaskActions s subtask → disabled b = false →
      possible s (Trigger (λ _, onClick b))
  | possible_settle n backend :
      possible s (Settle n backend).

Inductive reachable : Component State → Prop :=
  | reachable_mounted : reachable (mounted initial)
  | reachable_step c i :
      reachable c → possible (current c) i → reachable (step c i).

(** The flag a request is sent under. *)
Definition flag_key (req : Request) : option string :=
  match req with
  | PUT_task taskId _ => Some (task_key taskId)
  | PUT_subtask subtaskId _ => Some (subtask_key subtaskId)
  | _ => None
  end.

Definition is_read (req : Request) : bool :=
  match req with
  | GET_goals | GET_goal_tasks _ | GET_task_subtasks _ => true
  | _ => false
  end.

(** A body that sends reads only and leaves every flag alone. *)
Fixpoint quiet (p : Prog State) : Prop :=
  match p with
  | Done | Throw _ => True
  | SetState f k => (∀ s, loadingStates (f s) = loadingStates s) ∧ quiet k
  | ConsoleError _ _ k | Alert _ k => quiet k
  | Await req k => is_read req = true ∧ ∀ r, quiet (k r)
  | Call p' k => quiet p' ∧ quiet k
  end.

(** A body that holds the flag [key]: until it clears that flag it sends
    reads only and leaves every flag alone, and it does clear it before it
    ends. *)
Fixpoint holds (key : string) (p : Prog State) : Prop :=
  match p with
  | Done | Throw _ => False
  | SetState f k =>
      ((∀ s, loadingStates (f s) = loadingStates s) ∧ holds key k)
      ∨ ((∀ s, loadingStates (f s) = <[key := false]> (loadingStates s)) ∧ quiet k)
  | ConsoleError _ _ k | Alert _ k => holds key k
  | Await req k => is_read req = true ∧ ∀ r, holds key (k r)
  | Call p' k => quiet p' ∧ holds key k
  end.

(** The outstanding requests, each with the flag its handler holds. *)
Definition labelled (ts : list (Suspended State)) (held : list (option string)) : Prop :=
  Forall2 (λ t h,
             match h with
             | None => is_read (request t) = true ∧ ∀ r, quiet (resume t r)
             | Some key =>
                 (is_read (request t) = true ∨ flag_key (request t) = Some key)
                 ∧ ∀ r, holds key (resume t r)
             end) ts held.

(** Every held flag is set and has one holder. *)
Definition flags_held (c : Component State) : Prop :=
  ∃ held, labelled (outstanding c) held
          ∧ NoDup (omap id held)
          ∧ ∀ key, key ∈ omap id held → loadingStates (current c) !! key = Some true.

End TasksRuns.

(* ===================================================================== *)
(** ** The Calendar page: what a render shows *)
(* ===================================================================== *)

Module CalendarView.
Import JSDate Async Calendar.
Local Open Scope Z_scope.

Definition setSelectedDate (v : option Date) : Prog State :=
  SetState (λ s, mkState (currentDate s) (goals s) (tasks s) v (loading s)) Done.

(** What the page renders for a cell that holds a day. *)
Record DayCell : Type := mkDayCell {
  day : Z;
  date : Date;
  dayTasks : list Task.t;
  isToday : bool;
  isSelected : bool;
  onClick : Prog State;
  shown : list Task.t;       (* dayTasks.slice(0, 2) *)
  more : option Z            (* "+n more", when dayTasks.length > 2 *)
}.

Section Page.
(** [new Date(string)], the platform's parser of the backend's timestamps *)
Variable parseDate : string → Date.
(** [new Date()] at the time of the render *)
Variable now : Date.

(** The body of [calendarDays.map((day, index) => ...)]: [None] is the
    empty placeholder the page renders when [!day]. *)
Definition renderCell (s : State) (cell : Cell) : option DayCell :=
  match cell with
  | None | Some 0 => None
  | Some day =>
      let date := newDate (getFullYear (currentDate s)) (getMonth (currentDate s))
                          (Some day) in
      let dayTasks := getTasksForDate parseDate s date in
      let isToday := isSameDate date now in
      let isSelected :=
        match selectedDate s with
        | Some selected => isSameDate date selected
        | None => false
        end in
      Some (mkDayCell day date dayTasks isToday isSelected
              (setSelectedDate (Some date))
              (take 2 dayTasks)
              (if 2 <? Z.of_nat (length dayTasks)
               then Some (Z.of_nat (length dayTasks) - 2) else None))
  end.

(** The side panel: the tasks of the selected date, when there is one. *)
Definition sidePanel (s : State) : option (list Task.t) :=
  match selectedDate s with
  | Some selected => Some (getTasksForDate parseDate s selected)
  | None => None
  end.

End Page.

(** The time value [navigateMonth] makes of the view date [t] on a move by
    [n] months: [setMonth(getMonth() + n)] on a copy of it. *)
Definition moved (t n : Z) : Z :=
  MakeDay (YearFromDay (Day t)) (MonthFromDay (Day t) + n) (DateFromDay (Day t))
  * msPerDay + TimeWithinDay t.

End CalendarView.

(* ===================================================================== *)
(** ** The Tasks page: what a render shows *)
(* ===================================================================== *)

Module TasksView.
Import Async Tasks.
Local Open Scope Z_scope.

(** [goalTasks = tasks[goal.id] || []] *)
Definition goalTasks (s : State) (goal : Goal.t) : list Task.t :=
  default [] (tasks s !! Goal.id goal).

Definition totalTasks (s : State) (goal : Goal.t) : nat := length (goalTasks s goal).

Definition completedTasks (s : State) (goal : Goal.t) : nat :=
  length (filter (λ t, Task.status t = "completed") (goalTasks s goal)).

(** [goalTasks.sort((a, b) => a.week_number - b.week_number)].  The
    platform's sort is stable; with this comparator its result is the
    stable arrangement by ascending week number, built here by insertion
    from the right.  The platform sorts the array in place, and the array
    is the one the state holds: this is the rows, the state is left to the
    statements, which say nothing of the order of a list the page has just
    received. *)
Fixpoint insert_by_week (task : Task.t) (sorted : list Task.t) : list Task.t :=
  match sorted with
  | [] => [task]
  | b :: rest =>
      if Task.week_number task - Task.week_number b <=? 0
      then task :: b :: rest
      else b :: insert_by_week task rest
  end.

(** The order of the rows. *)
Definition ascending_weeks (a b : Task.t) : Prop :=
  Task.week_number a <= Task.week_number b.

Definition sort_by_week (goalTasks : list Task.t) : list Task.t :=
  foldr insert_by_week [] goalTasks.

(** The rows of a goal's card, in the order shown. *)
Definition taskRows (s : State) (goal : Goal.t) : list Task.t :=
  sort_by_week (goalTasks s goal).

(** [expandedTasks.has(task.id)]: which chevron the row shows. *)
Definition chevronDown (s : State) (taskId : string) : bool :=
  bool_decide (taskId ∈ expandedTasks s).

(** What the render makes of the panel under a row. *)
Inductive Panel : Type :=
  | NoPanel
  | Lists (subtasks : list Subtask.t)
  | RenderThrows.   (* TypeError: subtasks[task.id].map is not a function *)

(** [expandedTasks.has(task.id) && subtasks[task.id] && (...)], whose body
    maps over [subtasks[task.id]]: an entry of the cache is listed; an
    inherited member passes the test and has no [map]. *)
Definition subtasksPanel (s : State) (taskId : string) : Panel :=
  if bool_decide (taskId ∈ expandedTasks s) then
    match subtasks s !! taskId with
    | Some l => Lists l
    | None => if bool_decide (taskId ∈ Object_prototype) then RenderThrows else NoPanel
    end
  else NoPanel.

(** [s.replace(pattern, replacement)] for a pattern and a replacement of
    one character: the first occurrence is replaced. *)
Fixpoint replace (pattern replacement : ascii) (s : string) : string :=
  match s with
  | EmptyString => EmptyString
  | String c rest =>
      if Ascii.eqb c pattern then String replacement rest
      else String c (replace pattern replacement rest)
  end.

(** [status.replace('_', ' ')], the text of a status badge *)
Definition statusText (status : string) : string := replace "_" " " status.

(** The status a click on one of the buttons offered for [status] asks the
    backend to set. *)
Definition offers (status target : string) : Prop :=
  ∃ b, b ∈ getStatusActions status (λ newStatus : string, newStatus) None
       ∧ onClick b = target.

End TasksView.

(* ===================================================================== *)
(** ** Async functions that wait for several requests at once *)
(* ===================================================================== *)

(** The aggregated statistics of [/api/dashboard], with the fields the pages
    read; the pages show them and compute nothing from them here. *)
Module Stats.
Record t : Type := mk {
  total_goals : Z;
  active_goals : Z;
  completed_goals : Z;
  total_tasks : Z;
  completed_tasks : Z;
  pending_tasks : Z;
  in_progress_tasks : Z;
  completion_rate : Z
}.
End Stats.

Module AsyncAll.

(** The requests of the handlers that use [Promise.all]. *)
Inductive Endpoint : Type :=
  | GET_dashboard                 (* GET /api/dashboard *)
  | GET_tasks_today               (* GET /api/tasks/today *)
  | GET_goal (goalId : string)    (* GET /api/goals/:id *)
  | Sent (req : Request).         (* a request the other handlers send too *)

Definition endpoint_data (e : Endpoint) : Type :=
  match e with
  | GET_dashboard => Stats.t
  | GET_tasks_today => list Task.t
  | GET_goal _ => Goal.t
  | Sent req => response_data req
  end.

(** What [Promise.all] of the requests [es] is fulfilled with: the answers,
    in the order of the requests. *)
Fixpoint all_data (es : list Endpoint) : Type :=
  match es with
  | [] => unit
  | e :: es => (endpoint_data e * all_data es)%type
  end.

(** The answers that have arrived so far. *)
Fixpoint slots (es : list Endpoint) : Type :=
  match es with
  | [] => unit
  | e :: es => (option (endpoint_data e) * slots es)%type
  end.

Fixpoint no_answers (es : list Endpoint) : slots es :=
  match es with
  | [] => tt
  | e :: es => (None, no_answers es)
  end.

(** All the answers, once every one has arrived. *)
Fixpoint collect (es : list Endpoint) : slots es → option (all_data es) :=
  match es with
  | [] => λ _, Some tt
  | e :: es => λ sl, a ← sl.1; rest ← collect es sl.2; Some (a, rest)
  end.

Definition Backend : Type := ∀ e : Endpoint, Settled (endpoint_data e).

(** The [i]-th request settles as [backend] says: the answers with the new
    one, or the rejection.  [None] when there is no such request or it has
    settled before. *)
Fixpoint arrive (es : list Endpoint) (i : nat) (backend : Backend)
    : slots es → option (Settled (slots es)) :=
  match es with
  | [] => λ _, None
  | e :: es => λ sl,
      match i with
      | O =>
          match sl.1 with
          | Some _ => None
          | None =>
              Some (match backend e with
                    | Fulfilled a => Fulfilled (Some a, sl.2)
                    | Rejected error => Rejected error
                    end)
          end
      | S i =>
          match arrive es i backend sl.2 with
          | Some (Fulfilled rest) => Some (Fulfilled (sl.1, rest))
          | Some (Rejected error) => Some (Rejected error)
          | None => None
          end
      end
  end.

Section Prog.
Context {S : Type}.

(** The body of an [async] function whose only suspension points are
    [await Promise.all([...])]. *)
Inductive Prog : Type :=
  | Done
  | Throw (error : string)
  | SetState (f : S → S) (k : Prog)
  | ConsoleError (msg error : string) (k : Prog)
  | AwaitAll (es : list Endpoint) (k : Settled (all_data es) → Prog).

(** [await Promise.all(es)]: the first rejection is thrown at the
    suspension point. *)
Definition await_all (es : list Endpoint) (k : all_data es → Prog) : Prog :=
  AwaitAll es (λ r, match r with
                    | Fulfilled a => k a
                    | Rejected error => Throw error
                    end).

Fixpoint andThen (p q : Prog) : Prog :=
  match p with
  | Done => q
  | Throw error => Throw error
  | SetState f k => SetState f (andThen k q)
  | ConsoleError msg error k => ConsoleError msg error (andThen k q)
  | AwaitAll es k => AwaitAll es (λ r, andThen (k r) q)
  end.

Fixpoint try_catch (p : Prog) (h : string → Prog) : Prog :=
  match p with
  | Done => Done
  | Throw error => h error
  | SetState f k => SetState f (try_catch k h)
  | ConsoleError msg error k => ConsoleError msg error (try_catch k h)
  | AwaitAll es k => AwaitAll es (λ r, try_catch (k r) h)
  end.

Fixpoint try_finally (p f : Prog) : Prog :=
  match p with
  | Done => f
  | Throw error => andThen f (Throw error)
  | SetState g k => SetState g (try_finally k f)
  | ConsoleError msg error k => ConsoleError msg error (try_finally k f)
  | AwaitAll es k => AwaitAll es (λ r, try_finally (k r) f)
  end.

Inductive Event : Type :=
  | EvRequest (e : Endpoint)
  | EvConsoleError (msg error : string).

(** A handler suspended on [Promise.all], with the answers it has. *)
Record Joined : Type := joined {
  endpoints : list Endpoint;
  arrived : slots endpoints;
  resume : Settled (all_data endpoints) → Prog
}.

Record Outcome : Type := outcome {
  state : S;
  events : list (Event * S);
  suspended : list Joined
}.

(** Run a body up to its suspension point: the requests of a
    [Promise.all] are all sent at the call, in the order of the array. *)
Fixpoint sync (p : Prog) (s : S) : Outcome :=
  match p with
  | Done => outcome s [] []
  | Throw _ => outcome s [] []
  | SetState f k => sync k (f s)
  | ConsoleError msg error k =>
      let o := sync k s in
      outcome (state o) ((EvConsoleError msg error, s) :: events o) (suspended o)
  | AwaitAll es k =>
      outcome s ((λ e, (EvRequest e, s)) <$> es) [joined es (no_answers es) k]
  end.

(** The user triggers a handler, or the [i]-th request of the [j]-th
    suspended handler settles. *)
Inductive Input : Type :=
  | Trigger (handler : S → Prog)
  | Settle (j i : nat) (backend : Backend).

Record Component : Type := component {
  current : S;
  outstanding : list Joined;
  log : list (Event * S)
}.

Definition mounted (s : S) : Component := component s [] [].

Definition absorb (c : Component) (rest : list Joined) (o : Outcome) : Component :=
  component (state o) (rest ++ suspended o) (log c ++ events o).

(** [Promise.all] is rejected by the first rejection, and then the answers
    still to come are ignored; it is fulfilled when the last answer
    arrives. *)
Definition step (c : Component) (i : Input) : Component :=
  match i with
  | Trigger handler => absorb c (outstanding c) (sync (handler (current c)) (current c))
  | Settle j n backend =>
      match outstanding c !! j with
      | None => c
      | Some t =>
          match arrive (endpoints t) n backend (arrived t) with
          | None => c
          | Some (Rejected error) =>
              absorb c (delete j (outstanding c))
                     (sync (resume t (Rejected error)) (current c))
          | Some (Fulfilled answers) =>
              match collect (endpoints t) answers with
              | Some all =>
                  absorb c (delete j (outstanding c))
                         (sync (resume t (Fulfilled all)) (current c))
              | None =>
                  component (current c)
                    (<[j := joined (endpoints t) answers (resume t)]> (outstanding c))
                    (log c)
              end
          end
      end
  end.

Definition run (c : Component) (inputs : list Input) : Component :=
  foldl step c inputs.

Definition requests (l : list (Event * S)) : list Endpoint :=
  omap (λ e, match e.1 with EvRequest e => Some e | _ => None end) l.

Definition console_errors (l : list (Event * S)) : list string :=
  omap (λ e, match e.1 with EvConsoleError msg _ => Some msg | _ => None end) l.

End Prog.

Arguments Prog S : clear implicits.
Arguments Joined S : clear implicits.
Arguments Outcome S : clear implicits.
Arguments Component S : clear implicits.
Arguments Input S : clear implicits.

End AsyncAll.

(* ===================================================================== *)
(** ** The Dashboard page (src/frontend/src/pages/Dashboard.js) *)
(* ===================================================================== *)

Module Dashboard.
Import AsyncAll.

Record State : Type := mkState {
  stats : option Stats.t;
  loading : bool;
  recentGoals : list Goal.t;
  todayTasks : list Task.t
}.

Definition initial : State := mkState None true [] [].

Definition setStats (v : option Stats.t) : Prog State :=
  SetState (λ s, mkState v (loading s) (recentGoals s) (todayTasks s)) Done.
Definition setLoading (v : bool) : Prog State :=
  SetState (λ s, mkState (stats s) v (recentGoals s) (todayTasks s)) Done.
Definition setRecentGoals (v : list Goal.t) : Prog State :=
  SetState (λ s, mkState (stats s) (loading s) v (todayTasks s)) Done.
Definition setTodayTasks (v : list Task.t) : Prog State :=
  SetState (λ s, mkState (stats s) (loading s) (recentGoals s) v) Done.

Definition fetchDashboardData : Prog State :=
  try_finally
    (try_catch
       (await_all [GET_dashboard; Sent GET_goals; GET_tasks_today]
          (λ '(statsResponse, (goalsResponse, (tasksResponse, _))),
             andThen (setStats (Some statsResponse))
               (andThen (setRecentGoals (take 5 goalsResponse)) (* Show latest 5 goals *)
                  (setTodayTasks tasksResponse))))
       (λ error, ConsoleError "Error fetching dashboard data:" error Done))
    (setLoading false).

End Dashboard.

(* ===================================================================== *)
(** ** The Analytics page (src/frontend/src/pages/Analytics.js) *)
(* ===================================================================== *)

Module Analytics.
Import AsyncAll.

Record State : Type := mkState {
  stats : option Stats.t;
  goals : list Goal.t;
  loading : bool
}.

Definition initial : State := mkState None [] true.

Definition setStats (v : option Stats.t) : Prog State :=
  SetState (λ s, mkState v (goals s) (loading s)) Done.
Definition setGoals (v : list Goal.t) : Prog State :=
  SetState (λ s, mkState (stats s) v (loading s)) Done.
Definition setLoading (v : bool) : Prog State :=
  SetState (λ s, mkState (stats s) (goals s) v) Done.

Definition fetchAnalyticsData : Prog State :=
  try_finally
    (try_catch
       (await_all [GET_dashboard; Sent GET_goals]
          (λ '(statsResponse, (goalsResponse, _)),
             andThen (setStats (Some statsResponse)) (setGoals goalsResponse)))
       (λ error, ConsoleError "Error fetching analytics data:" error Done))
    (setLoading false).

End Analytics.

(* ===================================================================== *)
(** ** The Goals page: the details of a goal (src/unnamed/part_001) *)
(* ===================================================================== *)

Module GoalDetails.
Import AsyncAll.

(** The page is the Goals page; [selectedGoal] is the goal of the modal
    with its tasks, [{...goalResponse.data, tasks: tasksResponse.data}]. *)
Definition setSelectedGoal (v : option (Goal.t * list Task.t)) : Prog Goals.State :=
  SetState (λ s, Goals.mkState (Goals.goals s) (Goals.loading s) (Goals.showCreateForm s)
                   v (Goals.formData s) (Goals.formLoading s)) Done.

Definition viewGoalDetails (goalId : string) : Prog Goals.State :=
  try_catch
    (await_all [GET_goal goalId; Sent (GET_goal_tasks goalId)]
       (λ '(goalResponse, (tasksResponse, _)),
          setSelectedGoal (Some (goalResponse, tasksResponse))))
    (λ error, ConsoleError "Error fetching goal details:" error Done).

(** The close button of the modal. *)
Definition closeDetails : Prog Goals.State := setSelectedGoal None.

End GoalDetails.

(* ===================================================================== *)
(** ** The Calendar page while its data is fetched *)
(* ===================================================================== *)

Module CalendarRuns.
Import Async Calendar.

(** [fetchCalendarData] from the loop on, with the tasks collected so far. *)
Definition fetchCalendarRest (goalsData : list Goal.t)
    (tasksData : gmap string (list Task.t)) : Prog State :=
  try_finally
    (try_catch
       (fetchTasksLoop goalsData tasksData (λ tasksData, setTasks tasksData))
       (λ error, ConsoleError "Error fetching calendar data:" error Done))
    (setLoading false).

(** The page while the loop runs and nothing else does. *)
Definition looping (st : State) (lg : list (Event * State))
    (goalsData : list Goal.t) (tasksData : gmap string (list Task.t)) : Component State :=
  absorb (component st [] lg) [] (sync (fetchCalendarRest goalsData tasksData) st).

End CalendarRuns.

(* ===================================================================== *)
(** ** The platform's Numbers, where the pages compute with them *)
(* ===================================================================== *)

Module JSNumber.
Local Open Scope Z_scope.

(** A Number is an IEEE 754 binary64 value; [/] and [*] are the operations
    of that format, rounding to nearest, ties to even. *)
Definition Number : Type := PrimFloat.float.

(** The Number of an integer; exact from 0 up to 2^53, which covers the
    length of every array. *)
Definition ofZ (n : Z) : Number := PrimFloat.of_uint63 (Uint63.of_Z n).

(** [Math.round(x)]: the integer closest to [x], the larger one when two
    are equally close; that is the floor of [x + 1/2], taken exactly, not in
    the format.  [None] stands for NaN and the infinities, which
    [Math.round] returns unchanged; a zero of either sign reads 0. *)
Definition Math_round (x : Number) : option Z :=
  match FloatOps.Prim2SF x with
  | SpecFloat.S754_zero _ => Some 0
  | SpecFloat.S754_finite sign m e =>
      let n := if sign then Z.neg m else Z.pos m in
      if 0 <=? e then Some (n * 2 ^ e)
      else Some ((2 * n + 2 ^ (- e)) / 2 ^ (- e + 1))
  | _ => None
  end.

End JSNumber.

Module TasksProgress.
Import Async Tasks TasksView JSNumber.

(** [totalTasks > 0 ? Math.round((completedTasks / totalTasks) * 100) : 0],
    of the two counts of a goal's card. *)
Definition percentage (completedTasks totalTasks : nat) : option Z :=
  if bool_decide (0 < totalTasks)%nat
  then Math_round (PrimFloat.mul
         (PrimFloat.div (ofZ (Z.of_nat completedTasks)) (ofZ (Z.of_nat totalTasks)))
         (ofZ 100))
  else Some 0%Z.

Definition progressPercentage (s : State) (goal : Goal.t) : option Z :=
  percentage (completedTasks s goal) (totalTasks s goal).

End TasksProgress.

(* ===================================================================== *)
(** ** Strings built by concatenation *)
(* ===================================================================== *)

Module StringFacts.

Lemma append_nil (s : string) : "" +:+ s = s.
Proof. reflexivity. Qed.

Lemma append_cons a (p s : string) : String a p +:+ s = String a (p +:+ s).
Proof. reflexivity. Qed.

Lemma append_inj_r (p s1 s2 : string) : p +:+ s1 = p +:+ s2 → s1 = s2.
Proof.
  induction p as [|a p IH]; [done|].
  rewrite !append_cons. intros [= H]. by apply IH.
Qed.

End StringFacts.

(* ===================================================================== *)
(** ** Facts about the calendar arithmetic *)
(* ===================================================================== *)

Module JSDateFacts.
Import JSDate StringFacts.
Local Open Scope Z_scope.

Ltac year_cases :=
  repeat match goal with
         | |- context [if negb (?a =? ?b) then _ else _] =>
             destruct (Z.eqb_spec a b); cbn [negb]
         end.

Lemma DaysInYear_cases y : DaysInYear y = 365 ∨ DaysInYear y = 366.
Proof. unfold DaysInYear. year_cases; lia. Qed.

Lemma leapDay_cases y :
  (DaysInYear y = 365 ∧ leapDay y = 0) ∨ (DaysInYear y = 366 ∧ leapDay y = 1).
Proof.
  unfold leapDay. destruct (DaysInYear_cases y) as [E|E]; rewrite E; cbn; lia.
Qed.

Lemma DayFromYear_succ y : DayFromYear (y + 1) = DayFromYear y + DaysInYear y.
Proof.
  unfold DayFromYear, DaysInYear. year_cases; Z.div_mod_to_equations; lia.
Qed.

Lemma DayFromYear_lt y1 y2 : y1 < y2 → DayFromYear y1 < DayFromYear y2.
Proof. intros H. unfold DayFromYear. Z.div_mod_to_equations. lia. Qed.

(** [YearFromDay d] is the year whose days include [d]. *)
Lemma YearFromDay_spec d :
  DayFromYear (YearFromDay d) <= d < DayFromYear (YearFromDay d + 1).
Proof.
  unfold YearFromDay.
  set (y := 1970 + (400 * d) / 146097).
  assert (Hy : 146097 * (y - 1970) <= 400 * d < 146097 * (y - 1970) + 146097)
    by (subst y; Z.div_mod_to_equations; lia).
  clearbody y.
  destruct (Z.leb_spec (DayFromYear (y + 1)) d) as [H1|H1].
  - split; [exact H1|].
    unfold DayFromYear in *. Z.div_mod_to_equations. lia.
  - destruct (Z.leb_spec (DayFromYear y) d) as [H2|H2]; [lia|].
    replace (y - 1 + 1) with y by lia. split; [|exact H2].
    unfold DayFromYear in *. Z.div_mod_to_equations. lia.
Qed.

Lemma YearFromDay_unique d y :
  DayFromYear y <= d < DayFromYear (y + 1) → YearFromDay d = y.
Proof.
  intros Hy. pose proof (YearFromDay_spec d) as Hs.
  destruct (Z.lt_trichotomy (YearFromDay d) y) as [Hlt|[Heq|Hgt]]; [|exact Heq|].
  - assert (DayFromYear (YearFromDay d + 1) <= DayFromYear y); [|lia].
    destruct (Z.eq_dec (YearFromDay d + 1) y) as [->|Hne]; [lia|].
    apply Z.lt_le_incl, DayFromYear_lt. lia.
  - assert (DayFromYear (y + 1) <= DayFromYear (YearFromDay d)); [|lia].
    destruct (Z.eq_dec (y + 1) (YearFromDay d)) as [->|Hne]; [lia|].
    apply Z.lt_le_incl, DayFromYear_lt. lia.
Qed.

Ltac month_cases m :=
  let Hc := fresh "Hc" in
  assert (Hc : m = 0 ∨ m = 1 ∨ m = 2 ∨ m = 3 ∨ m = 4 ∨ m = 5 ∨ m = 6
               ∨ m = 7 ∨ m = 8 ∨ m = 9 ∨ m = 10 ∨ m = 11) by lia;
  decompose [or] Hc; clear Hc; subst m.

Ltac ltb_cases :=
  repeat match goal with
         | |- context [?a <? ?b] => destruct (Z.ltb_spec a b); try lia
         end.

Lemma MakeDay_small y m dt :
  0 <= m <= 11 →
  MakeDay y m dt = DayFromYear y + monthStart m (leapDay y) + dt - 1.
Proof.
  intros Hm. unfold MakeDay.
  by rewrite (Z.div_small m 12), (Z.mod_small m 12), Z.add_0_r by lia.
Qed.

(** The fields of the day [MakeDay] builds from a month in 0..11 and a day
    of that month are the ones it was built from. *)
Lemma MakeDay_fields y m dt :
  0 <= m <= 11 → 1 <= dt <= DaysInMonth y m →
  YearFromDay (MakeDay y m dt) = y ∧
  MonthFromDay (MakeDay y m dt) = m ∧
  DateFromDay (MakeDay y m dt) = dt.
Proof.
  intros Hm Hd. rewrite MakeDay_small by done.
  set (n := DayFromYear y + monthStart m (leapDay y) + dt - 1).
  assert (HY : YearFromDay n = y).
  { apply YearFromDay_unique. rewrite DayFromYear_succ. subst n.
    unfold DaysInMonth in Hd.
    destruct (leapDay_cases y) as [[E L]|[E L]]; rewrite E, L in *.
    all: month_cases m; cbn [monthStart] in *; lia. }
  split; [exact HY|].
  unfold DateFromDay, MonthFromDay, DayWithinYear, InLeapYear. rewrite HY.
  subst n. unfold DaysInMonth in Hd.
  destruct (leapDay_cases y) as [[E L]|[E L]]; rewrite L in *.
  all: month_cases m; cbn [monthStart] in *.
  all: ltb_cases.
  all: split; lia.
Qed.

(** Every day number is some day of some month, and [MakeDay] rebuilds it
    from its fields. *)
Lemma fields_MakeDay d :
  0 <= MonthFromDay d <= 11 ∧
  1 <= DateFromDay d <= DaysInMonth (YearFromDay d) (MonthFromDay d) ∧
  MakeDay (YearFromDay d) (MonthFromDay d) (DateFromDay d) = d.
Proof.
  assert (Hm : 0 <= MonthFromDay d <= 11) by (unfold MonthFromDay; ltb_cases).
  split; [exact Hm|]. rewrite MakeDay_small by done. clear Hm.
  pose proof (YearFromDay_spec d) as Hs. rewrite DayFromYear_succ in Hs.
  unfold DateFromDay, MonthFromDay, DayWithinYear, InLeapYear, DaysInMonth.
  set (y := YearFromDay d) in *. clearbody y.
  destruct (leapDay_cases y) as [[E L]|[E L]]; rewrite E in Hs; rewrite L.
  all: ltb_cases.
  all: cbn [monthStart]; lia.
Qed.

(** Two days with the same year, month and day of month are the same day. *)
Lemma fields_inj d1 d2 :
  YearFromDay d1 = YearFromDay d2 → MonthFromDay d1 = MonthFromDay d2 →
  DateFromDay d1 = DateFromDay d2 → d1 = d2.
Proof.
  intros Hy Hm Hd.
  destruct (fields_MakeDay d1) as (_ & _ & <-).
  destruct (fields_MakeDay d2) as (_ & _ & <-).
  by rewrite Hy, Hm, Hd.
Qed.

Lemma WeekDay_range d : 0 <= WeekDay d <= 6.
Proof. unfold WeekDay. pose proof (Z.mod_pos_bound (d + 4) 7). lia. Qed.

Lemma DaysInMonth_range y m : 28 <= DaysInMonth y m <= 31.
Proof.
  unfold DaysInMonth. destruct (leapDay_cases y) as [[_ L]|[_ L]]; rewrite L.
  all: destruct m as [|[[[|[]|]|[[]|[]|]|]|[[|[]|]|[[]|[]|]|]|]|]; lia.
Qed.

(** A month outside 0..11 carries into the year. *)
Lemma MakeDay_carry y m dt :
  MakeDay y m dt = MakeDay (y + m / 12) (m mod 12) dt.
Proof.
  unfold MakeDay.
  assert (H : 0 <= m mod 12 < 12) by (apply Z.mod_pos_bound; lia).
  rewrite (Z.div_small (m mod 12) 12), (Z.mod_small (m mod 12) 12) by lia.
  by rewrite Z.add_0_r.
Qed.

Lemma Day_of_day d : Day (d * msPerDay) = d.
Proof. unfold Day, msPerDay. by rewrite Z.div_mul. Qed.

Lemma Day_add_time d t : Day (d * msPerDay + TimeWithinDay t) = d.
Proof.
  unfold Day, TimeWithinDay, msPerDay.
  pose proof (Z.mod_pos_bound t 86400000).
  rewrite Z.add_comm, Z.div_add by lia. rewrite Z.div_small; lia.
Qed.

(** *** [toDateString] determines the day *)

Lemma append_same_length (p1 p2 s1 s2 : string) :
  String.length p1 = String.length p2 →
  p1 +:+ s1 = p2 +:+ s2 → p1 = p2 ∧ s1 = s2.
Proof.
  revert p2. induction p1 as [|a p1 IH]; intros [|b p2] Hl H; try discriminate.
  - done.
  - injection H as -> H. injection Hl as Hl.
    destruct (IH _ Hl H) as [-> ->]. done.
Qed.

Lemma weekdayName_length w : String.length (weekdayName w) = 3%nat.
Proof. by destruct w as [|[[[]|[]|]|[[]|[]|]|]|]. Qed.

Lemma monthName_length m : String.length (monthName m) = 3%nat.
Proof. by destruct m as [|[[[[]|[]|]|[[]|[]|]|]|[[[]|[]|]|[[]|[]|]|]|]|]. Qed.

Lemma monthName_inj m1 m2 :
  0 <= m1 <= 11 → 0 <= m2 <= 11 → monthName m1 = monthName m2 → m1 = m2.
Proof.
  intros H1 H2. month_cases m1; month_cases m2; cbn; by (discriminate || reflexivity).
Qed.

Lemma uint_of_string_zeros j s :
  NilEmpty.uint_of_string (zeros j +:+ s)
  = Nat.iter j Decimal.D0 <$> NilEmpty.uint_of_string s.
Proof.
  induction j as [|j IH]; cbn [zeros Nat.iter].
  - rewrite append_nil. by destruct (NilEmpty.uint_of_string s).
  - rewrite append_cons. cbn [NilEmpty.uint_of_string]. rewrite IH.
    by destruct (NilEmpty.uint_of_string s).
Qed.

Lemma of_uint_zeros j u : N.of_uint (Nat.iter j Decimal.D0 u) = N.of_uint u.
Proof. induction j as [|j IH]; [done|]. cbn [Nat.iter]. exact IH. Qed.

Lemma padded_value n k :
  N.of_uint <$> NilEmpty.uint_of_string (ToZeroPaddedDecimalString n k) = Some n.
Proof.
  unfold ToZeroPaddedDecimalString, decimal.
  rewrite uint_of_string_zeros, NilEmpty.usu. cbn.
  by rewrite of_uint_zeros, DecimalN.Unsigned.of_to.
Qed.

Lemma padded_inj n1 n2 k1 k2 :
  ToZeroPaddedDecimalString n1 k1 = ToZeroPaddedDecimalString n2 k2 → n1 = n2.
Proof.
  intros H. pose proof (padded_value n1 k1) as H1. rewrite H, padded_value in H1.
  by injection H1.
Qed.

(** A padded decimal starts with a digit, so never with the sign. *)
Lemma padded_no_sign n k s : ToZeroPaddedDecimalString n k ≠ String "-" s.
Proof.
  unfold ToZeroPaddedDecimalString, decimal.
  destruct (k - String.length _)%nat; cbn [zeros];
    rewrite ?append_nil, ?append_cons; [|discriminate].
  destruct (N.to_uint n); cbn; discriminate.
Qed.

Lemma yearString_inj y1 y2 : yearString y1 = yearString y2 → y1 = y2.
Proof.
  unfold yearString.
  destruct (Z.ltb_spec y1 0), (Z.ltb_spec y2 0);
    rewrite ?append_nil, ?append_cons; intros Heq.
  - injection Heq as Heq. apply padded_inj in Heq. lia.
  - symmetry in Heq. by apply padded_no_sign in Heq.
  - by apply padded_no_sign in Heq.
  - apply padded_inj in Heq. lia.
Qed.

Lemma day_string_length n :
  1 <= n <= 31 → String.length (ToZeroPaddedDecimalString (Z.to_N n) 2) = 2%nat.
Proof.
  intros H.
  assert (Hn : ∃ k : nat, (k < 32)%nat ∧ n = Z.of_nat k)
    by (exists (Z.to_nat n); lia).
  destruct Hn as (k & Hk & ->).
  do 32 (destruct k as [|k]; [by vm_compute|]). lia.
Qed.

Lemma toDateString_unfold t :
  toDateString (Some t)
  = weekdayName (WeekDay (Day t)) +:+ " " +:+ monthName (MonthFromDay (Day t)) +:+ " "
    +:+ ToZeroPaddedDecimalString (Z.to_N (DateFromDay (Day t))) 2 +:+ " "
    +:+ yearString (YearFromDay (Day t)).
Proof. reflexivity. Qed.

(** Two valid dates print alike exactly when they fall on the same day. *)
Lemma toDateString_same_day t1 t2 :
  toDateString (Some t1) = toDateString (Some t2) ↔ Day t1 = Day t2.
Proof.
  split; [|by intros H; rewrite !toDateString_unfold, H].
  rewrite !toDateString_unfold. intros H.
  destruct (fields_MakeDay (Day t1)) as (Hm1 & Hd1 & _).
  destruct (fields_MakeDay (Day t2)) as (Hm2 & Hd2 & _).
  pose proof (DaysInMonth_range (YearFromDay (Day t1)) (MonthFromDay (Day t1))).
  pose proof (DaysInMonth_range (YearFromDay (Day t2)) (MonthFromDay (Day t2))).
  apply append_same_length in H as [_ H]; [|by rewrite !weekdayName_length].
  rewrite !append_cons, !append_nil in H. injection H as H.
  apply append_same_length in H as [Hm H]; [|by rewrite !monthName_length].
  injection H as H.
  apply append_same_length in H as [Hd H]; [|by rewrite !day_string_length by lia].
  injection H as H.
  apply fields_inj.
  - by apply yearString_inj.
  - by apply monthName_inj.
  - apply padded_inj in Hd. lia.
Qed.

Lemma toDateString_valid t : toDateString (Some t) ≠ toDateString None.
Proof.
  rewrite toDateString_unfold. cbn [toDateString].
  destruct (WeekDay (Day t)) as [|[[[]|[]|]|[[]|[]|]|]|]; cbn; discriminate.
Qed.

End JSDateFacts.

(* ===================================================================== *)
(** ** The Calendar page: grid, day buckets, navigation *)
(* ===================================================================== *)

Module CalendarFacts.
Import JSDate JSDateFacts Async Calendar.
Local Open Scope Z_scope.

Lemma push_blanks n (cells : list Cell) :
  Nat.iter n (λ cells, cells ++ [None]) cells = cells ++ replicate n None.
Proof.
  induction n as [|n IH].
  - cbn. by rewrite app_nil_r.
  - rewrite Nat.iter_succ, IH, <- app_assoc. f_equal.
    clear IH. induction n as [|n IH]; [done|]. cbn. by rewrite IH.
Qed.

Lemma push_days (days : list Z) (cells : list Cell) :
  foldl (λ cells day, cells ++ [Some day]) cells days = cells ++ (Some <$> days).
Proof.
  revert cells. induction days as [|d days IH]; intros cells; cbn.
  - by rewrite app_nil_r.
  - by rewrite IH, <- app_assoc.
Qed.

(** The grid is the blanks followed by the days, whatever the two counts. *)
Lemma calendarDays_shape (currentDate : Date) :
  calendarDays currentDate
  = replicate (iterations (getFirstDayOfMonth currentDate)) None
    ++ (Some <$> seqZ 1 (Z.of_nat (iterations (getDaysInMonth currentDate)))).
Proof. unfold calendarDays. by rewrite push_days, push_blanks. Qed.

(** Day 0 of the next month is the last day of the month. *)
Lemma MakeDay_last y m :
  0 <= m <= 11 → MakeDay y (m + 1) 0 = MakeDay y m (DaysInMonth y m).
Proof.
  intros Hm. rewrite (MakeDay_small y m) by done.
  destruct (Z.eq_dec m 11) as [->|Hne].
  - unfold MakeDay. change ((11 + 1) / 12) with 1. change ((11 + 1) mod 12) with 0.
    rewrite DayFromYear_succ.
    destruct (leapDay_cases y) as [[E L]|[E L]]; rewrite E, L; cbn; lia.
  - rewrite MakeDay_small by lia. unfold DaysInMonth.
    remember (m + 1) as m' eqn:Hm'.
    destruct (leapDay_cases y) as [[E L]|[E L]]; rewrite L.
    all: month_cases m; vm_compute in Hm'; subst m'; cbn [monthStart]; lia.
Qed.

Section ViewDate.
(** A view date whose year is outside 0..99, where the [Date] constructor
    takes the year as given. *)
Variable t : Z.
Let y := YearFromDay (Day t).
Let m := MonthFromDay (Day t).
Hypothesis four_digit_year : ¬ (0 <= y <= 99).

Lemma newDate_year mo dt :
  newDate (Some y) (Some mo) (Some dt) = Some (MakeDay y mo dt * msPerDay).
Proof.
  cbn. destruct (Z.leb_spec 0 y), (Z.leb_spec y 99); cbn; try done. lia.
Qed.

Lemma getFirstDayOfMonth_weekday :
  getFirstDayOfMonth (Some t) = Some (WeekDay (MakeDay y m 1)).
Proof.
  unfold getFirstDayOfMonth. cbn [getFullYear getMonth fmap option_fmap option_map].
  fold y m. rewrite newDate_year. cbn. by rewrite Day_of_day.
Qed.

Lemma getDaysInMonth_length :
  getDaysInMonth (Some t) = Some (DaysInMonth y m).
Proof.
  unfold getDaysInMonth. cbn [getFullYear getMonth fmap option_fmap option_map].
  fold y m. rewrite newDate_year. cbn. rewrite Day_of_day.
  destruct (fields_MakeDay (Day t)) as (Hm & _ & _). fold m in Hm.
  rewrite MakeDay_last by done.
  pose proof (DaysInMonth_range y m).
  by destruct (MakeDay_fields y m (DaysInMonth y m)) as (_ & _ & ->); [|lia|].
Qed.

End ViewDate.

Lemma tasks_loop (p : Task.t → bool) (P : Task.t → Prop) `{∀ x, Decision (P x)}
    (l acc : list Task.t) :
  (∀ x, p x = true ↔ P x) →
  foldl (λ allTasks task, if p task then allTasks ++ [task] else allTasks) acc l
  = acc ++ filter P l.
Proof.
  intros Hp. revert acc. induction l as [|x l IH]; intros acc; cbn [foldl].
  - by rewrite filter_nil, app_nil_r.
  - rewrite IH. destruct (p x) eqn:E.
    + rewrite filter_cons_True by by apply Hp. by rewrite <- app_assoc.
    + rewrite filter_cons_False; [done|]. rewrite <- Hp, E. done.
Qed.

(** [isSameDate] against a valid date compares day numbers. *)
Lemma isSameDate_Day (d : Date) (t : Z) :
  isSameDate d (Some t) = true ↔ Day <$> d = Some (Day t).
Proof.
  unfold isSameDate. rewrite bool_decide_eq_true. destruct d as [t'|].
  - rewrite toDateString_same_day. cbn. split; [by intros ->|by intros [=]].
  - split; [|done]. intros H. symmetry in H. by apply toDateString_valid in H.
Qed.

Lemma same_day_fields t1 t2 :
  Day t1 = Day t2 ↔
  getFullYear (Some t1) = getFullYear (Some t2)
  ∧ getMonth (Some t1) = getMonth (Some t2)
  ∧ getDate (Some t1) = getDate (Some t2).
Proof.
  cbn. split; [by intros ->|].
  intros ([= Hy] & [= Hm] & [= Hd]). by apply fields_inj.
Qed.

(** Navigation by [n] months when the day of the month exists in the target
    month: the month index is moved and carried into the year. *)
Lemma setMonth_rollover (t n : Z) :
  let y := YearFromDay (Day t) in
  let m := MonthFromDay (Day t) in
  let d := setMonth (Some t) (Some (m + n)) in
  DateFromDay (Day t) <= DaysInMonth (y + (m + n) / 12) ((m + n) mod 12) →
  getFullYear d = Some (y + (m + n) / 12)
  ∧ getMonth d = Some ((m + n) mod 12)
  ∧ getDate d = Some (DateFromDay (Day t)).
Proof.
  intros y m d Hd. subst d. cbn. fold y m. rewrite Day_add_time, MakeDay_carry.
  destruct (fields_MakeDay (Day t)) as (_ & Hdt & _).
  pose proof (Z.mod_pos_bound (m + n) 12).
  destruct (MakeDay_fields (y + (m + n) / 12) ((m + n) mod 12) (DateFromDay (Day t)))
    as (-> & -> & ->); [lia|lia|done].
Qed.

End CalendarFacts.

(** The grid of every view date whose year is outside 0..99: it is
    [leadingBlanks] placeholders followed by the days 1..[daysInMonth] and
    nothing else, where [leadingBlanks] is the Sunday-first weekday index
    of the first of the month and [daysInMonth] the length of the month; a
    30-day month that starts on a Wednesday gives 3 + 30 = 33 cells. *)
Lemma calendar_cells (t : Z) :
  let y := JSDate.YearFromDay (JSDate.Day t) in
  let m := JSDate.MonthFromDay (JSDate.Day t) in
  let leadingBlanks := JSDate.WeekDay (JSDate.MakeDay y m 1) in
  let daysInMonth := JSDate.DaysInMonth y m in
  ¬ (0 ≤ y ≤ 99)%Z →
  Calendar.getFirstDayOfMonth (Some t) = Some leadingBlanks
  ∧ Calendar.getDaysInMonth (Some t) = Some daysInMonth
  ∧ Calendar.calendarDays (Some t)
    = replicate (Z.to_nat leadingBlanks) None ++ (Some <$> seqZ 1 daysInMonth)
  ∧ Z.of_nat (length (Calendar.calendarDays (Some t))) = (leadingBlanks + daysInMonth)%Z
  ∧ (leadingBlanks = 3%Z → daysInMonth = 30%Z →
     Calendar.calendarDays (Some t) = replicate 3 None ++ (Some <$> seqZ 1 30)
     ∧ length (Calendar.calendarDays (Some t)) = 33).
Proof.
  intros y m leadingBlanks daysInMonth Hy.
  pose proof (CalendarFacts.getFirstDayOfMonth_weekday t Hy) as Hf.
  pose proof (CalendarFacts.getDaysInMonth_length t Hy) as Hd.
  fold y m in Hf, Hd. fold leadingBlanks in Hf. fold daysInMonth in Hd.
  pose proof (JSDateFacts.WeekDay_range (JSDate.MakeDay y m 1)) as Hw.
  pose proof (JSDateFacts.DaysInMonth_range y m) as Hl.
  fold leadingBlanks in Hw. fold daysInMonth in Hl.
  assert (Hshape : Calendar.calendarDays (Some t)
    = replicate (Z.to_nat leadingBlanks) None ++ (Some <$> seqZ 1 daysInMonth)).
  { rewrite CalendarFacts.calendarDays_shape, Hf, Hd. cbn [Calendar.iterations from_option].
    by rewrite Z2Nat.id by lia. }
  split_and!; try done.
  - rewrite Hshape, length_app, length_replicate, length_fmap, length_seqZ. lia.
  - intros H3 H30. rewrite Hshape, H3, H30. done.
Qed.

(** April 2026 starts on a Wednesday and has 30 days: 33 cells. *)
Lemma calendar_cells_april_2026 :
  let t := (20560 * 86400000 + 36000000)%Z in
  JSDate.toDateString (Some t) = "Fri Apr 17 2026"
  ∧ Calendar.getFirstDayOfMonth (Some t) = Some 3%Z
  ∧ Calendar.getDaysInMonth (Some t) = Some 30%Z
  ∧ Calendar.calendarDays (Some t) = replicate 3 None ++ (Some <$> seqZ 1 30)
  ∧ length (Calendar.calendarDays (Some t)) = 33.
Proof.
  intros t.
  assert (Hy : ¬ (0 ≤ JSDate.YearFromDay (JSDate.Day t) ≤ 99)%Z)
    by (vm_compute; intros [_ H]; by apply H).
  destruct (calendar_cells t Hy) as (Hf & Hd & _ & _ & H33).
  destruct H33 as [Hcells Hlen]; [by vm_compute|by vm_compute|].
  split_and!; [by vm_compute|exact Hf|exact Hd|exact Hcells|exact Hlen].
Qed.

(** C5, at a view date in February of the year 50.  That month starts on a
    Tuesday and has 28 days, so its grid is 2 placeholders and 28 days; the
    page builds 3 placeholders and 28 days.  [new Date(year, month, 1)]
    reads a year in 0..99 as 1900 + year, and February 1950 started on a
    Wednesday.  In February of the year 0, a leap year, the number of days
    is wrong as well: 4 placeholders and 28 days for 2 and 29. *)
Theorem C5_calendar_cells_of_the_year_50 :
  let february50 := Some (-60585408000000)%Z in
  let february0 := Some (-62163331200000)%Z in
  (JSDate.toDateString february50 = "Tue Feb 15 0050"
   ∧ JSDate.WeekDay (JSDate.MakeDay 50 1 1) = 2%Z
   ∧ JSDate.DaysInMonth 50 1 = 28%Z
   ∧ Calendar.getFirstDayOfMonth february50 = Some 3%Z
   ∧ Calendar.calendarDays february50 = replicate 3 None ++ (Some <$> seqZ 1 28)
   ∧ length (Calendar.calendarDays february50) = 31)
  ∧ (JSDate.toDateString february0 = "Tue Feb 15 0000"
     ∧ JSDate.WeekDay (JSDate.MakeDay 0 1 1) = 2%Z
     ∧ JSDate.DaysInMonth 0 1 = 29%Z
     ∧ Calendar.getFirstDayOfMonth february0 = Some 4%Z
     ∧ Calendar.getDaysInMonth february0 = Some 28%Z
     ∧ length (Calendar.calendarDays february0) = 32).
Proof. by vm_compute. Qed.

(** C6. For a valid [date], [getTasksForDate] returns, in order, exactly the
    tasks of the flattened collection whose parsed [scheduled_date] falls on
    the local calendar day of [date]: it depends on nothing but the
    collection and [date], it compares days (that is, year, month and day
    of the month) and not times of day, and it leaves out the tasks of the
    day before and the day after. *)
Theorem C6_tasks_for_date (parseDate : string → JSDate.Date) (s : Calendar.State)
    (date : JSDate.Date) (t : Z) :
  date = Some t →
  Calendar.getTasksForDate parseDate s date
  = filter (λ task, JSDate.Day <$> parseDate (Task.scheduled_date task)
                    = Some (JSDate.Day t))
           (concat (Object_values (Calendar.tasks s)))
  ∧ (∀ t1 t2 : Z,
       JSDate.Day t1 = JSDate.Day t2 ↔
       JSDate.getFullYear (Some t1) = JSDate.getFullYear (Some t2)
       ∧ JSDate.getMonth (Some t1) = JSDate.getMonth (Some t2)
       ∧ JSDate.getDate (Some t1) = JSDate.getDate (Some t2))
  ∧ (∀ task t',
       parseDate (Task.scheduled_date task) = Some t' →
       (JSDate.Day t' = JSDate.Day t + 1 ∨ JSDate.Day t' = JSDate.Day t - 1)%Z →
       task ∉ Calendar.getTasksForDate parseDate s date).
Proof.
  intros ->.
  assert (Hfilter : Calendar.getTasksForDate parseDate s (Some t)
    = filter (λ task, JSDate.Day <$> parseDate (Task.scheduled_date task)
                      = Some (JSDate.Day t))
             (concat (Object_values (Calendar.tasks s)))).
  { unfold Calendar.getTasksForDate.
    rewrite (CalendarFacts.tasks_loop _
      (λ task, JSDate.Day <$> parseDate (Task.scheduled_date task) = Some (JSDate.Day t))).
    - done.
    - intros task. apply CalendarFacts.isSameDate_Day. }
  split_and!.
  - exact Hfilter.
  - apply CalendarFacts.same_day_fields.
  - intros task t' Hp Hadj. rewrite Hfilter, list_elem_of_filter, Hp. cbn.
    intros [[= Heq] _]. lia.
Qed.

(** A task late in the evening of 1 April 2026 and one at its noon are in
    the bucket of that day; the task of 2 April at 00:00 is not. *)
Lemma C6_tasks_for_date_april_1 :
  let parseDate := λ s : string,
    if decide (s = "2026-04-01T23:30") then Some (20544 * 86400000 + 84600000)%Z
    else if decide (s = "2026-04-01T12:00") then Some (20544 * 86400000 + 43200000)%Z
    else if decide (s = "2026-04-02T00:00") then Some (20545 * 86400000)%Z
    else None in
  let evening := Task.mk "t1" "Read" 1 "2026-04-01T23:30" "pending" in
  let noon := Task.mk "t2" "Write" 1 "2026-04-01T12:00" "completed" in
  let next := Task.mk "t3" "Review" 1 "2026-04-02T00:00" "pending" in
  let s := Calendar.mkState (Some 0%Z) [] {["g1" := [evening; noon; next]]} None false in
  let date := JSDate.newDate (Some 2026%Z) (Some 3%Z) (Some 1%Z) in
  date = Some (20544 * 86400000)%Z
  ∧ Calendar.getTasksForDate parseDate s date = [evening; noon].
Proof.
  intros parseDate evening noon next s date.
  assert (Hd : date = Some (20544 * 86400000)%Z) by by vm_compute.
  split; [exact Hd|].
  destruct (C6_tasks_for_date parseDate s date _ Hd) as (-> & _ & _).
  by vm_compute.
Defined.

(** C7, at the view date 31 January 2026: one step forward lands in March
    (on the 3rd), not in February.  [setMonth] keeps the day of the month,
    and day 31 of February overflows into the next month. *)
Theorem C7_navigate_from_january_31 :
  let january31 := JSDate.newDate (Some 2026%Z) (Some 0%Z) (Some 31%Z) in
  let s := Calendar.mkState january31 [] ∅ None false in
  let c := Async.run (Async.mounted s)
             [Async.Trigger (λ snap, Calendar.navigateMonth snap 1)] in
  JSDate.toDateString january31 = "Sat Jan 31 2026"
  ∧ JSDate.toDateString (Calendar.currentDate (Async.current c)) = "Tue Mar 03 2026"
  ∧ JSDate.getFullYear (Calendar.currentDate (Async.current c)) = Some 2026%Z
  ∧ JSDate.getMonth (Calendar.currentDate (Async.current c)) = Some 2%Z
  ∧ JSDate.getMonth (Calendar.currentDate (Async.current c)) ≠ Some 1%Z.
Proof. by vm_compute. Qed.

(** What does hold of the navigation: when the day of the month of the view
    date exists in the target month, a move by [n] months shifts the month
    index and carries it into the year. *)
Lemma navigateMonth_rollover (s : Calendar.State) (t n : Z) :
  let y := JSDate.YearFromDay (JSDate.Day t) in
  let m := JSDate.MonthFromDay (JSDate.Day t) in
  let c := Async.run (Async.mounted s)
             [Async.Trigger (λ snap, Calendar.navigateMonth snap n)] in
  Calendar.currentDate s = Some t →
  (JSDate.DateFromDay (JSDate.Day t)
   ≤ JSDate.DaysInMonth (y + (m + n) / 12) ((m + n) `mod` 12))%Z →
  JSDate.getFullYear (Calendar.currentDate (Async.current c)) = Some (y + (m + n) / 12)%Z
  ∧ JSDate.getMonth (Calendar.currentDate (Async.current c)) = Some ((m + n) `mod` 12)%Z.
Proof.
  intros y m c Hs Hd. subst c. cbn. rewrite Hs.
  destruct (CalendarFacts.setMonth_rollover t n Hd) as (Hy & Hm & _).
  done.
Qed.

(** X7.  December plus one month is January of the next year and January
    minus one month is December of the year before, from every day of the
    month. *)
Lemma navigateMonth_year_boundary (s : Calendar.State) (t : Z) :
  let y := JSDate.YearFromDay (JSDate.Day t) in
  let m := JSDate.MonthFromDay (JSDate.Day t) in
  let after n := Calendar.currentDate (Async.current (Async.run (Async.mounted s)
                   [Async.Trigger (λ snap, Calendar.navigateMonth snap n)])) in
  Calendar.currentDate s = Some t →
  (m = 11%Z → JSDate.getFullYear (after 1%Z) = Some (y + 1)%Z
              ∧ JSDate.getMonth (after 1%Z) = Some 0%Z)
  ∧ (m = 0%Z → JSDate.getFullYear (after (-1)%Z) = Some (y - 1)%Z
             ∧ JSDate.getMonth (after (-1)%Z) = Some 11%Z).
Proof.
  intros y m after Hs.
  destruct (JSDateFacts.fields_MakeDay (JSDate.Day t)) as (_ & Hd & _).
  fold y m in Hd.
  split; intros Hm; rewrite Hm in Hd; cbn [JSDate.DaysInMonth] in Hd.
  - destruct (navigateMonth_rollover s t 1 Hs) as [Hy' Hm'].
    + fold y m. rewrite Hm. change ((11 + 1) `mod` 12)%Z with 0%Z.
      cbn [JSDate.DaysInMonth]. lia.
    + fold y m in Hy', Hm'. rewrite Hm in Hy', Hm'. subst after. cbv beta.
      by rewrite Hy', Hm'.
  - destruct (navigateMonth_rollover s t (-1) Hs) as [Hy' Hm'].
    + fold y m. rewrite Hm. change ((0 + -1) `mod` 12)%Z with 11%Z.
      cbn [JSDate.DaysInMonth]. lia.
    + fold y m in Hy', Hm'. rewrite Hm in Hy', Hm'. subst after. cbv beta.
      by rewrite Hy', Hm'.
Qed.

(** The "Today" button shows the date of the click, wherever the view was. *)
Lemma todayClick_resets (s : Calendar.State) (now : JSDate.Date) :
  Calendar.currentDate (Async.current (Async.run (Async.mounted s)
    [Async.Trigger (λ _, Calendar.todayClick now)])) = now.
Proof. reflexivity. Qed.

(* ===================================================================== *)
(** ** The Tasks page: actions, flags, cache *)
(* ===================================================================== *)

Module TasksFacts.
Import Async Tasks StringFacts.

Lemma task_key_inj a b : task_key a = task_key b → a = b.
Proof. apply append_inj_r. Qed.

Lemma subtask_key_inj a b : subtask_key a = subtask_key b → a = b.
Proof. apply append_inj_r. Qed.

Lemma task_key_subtask_key a b : task_key a ≠ subtask_key b.
Proof. unfold task_key, subtask_key. rewrite !append_cons. discriminate. Qed.

End TasksFacts.

(** C1, as stated, fails at [cancelled]: the row offers "complete". *)
Lemma C1_cancelled_offers_complete :
  Tasks.key <$> Tasks.getStatusActions "cancelled" (λ newStatus, newStatus) None
  = ["complete"]
  ∧ list_to_set (Tasks.key <$> Tasks.getStatusActions "cancelled" (λ newStatus, newStatus) None)
    ≠ spec_action_table "cancelled".
Proof.
  split; [reflexivity|].
  intros H. assert (Hin : "complete" ∈ spec_action_table "cancelled").
  { rewrite <- H. cbn. set_solver. }
  by apply not_elem_of_empty in Hin.
Qed.

(** C1, amended.  [pending] offers complete and start, [in_progress] offers
    complete and pause, [completed] offers nothing, and [cancelled], like
    every status other than [completed], offers complete; each action hands
    the status of its table row to the update.  For the first three the set
    of actions is the one of the table. *)
Theorem C1_status_actions {H} (onUpdate : string → H) (isLoading : option bool) :
  let actions status :=
    (λ b, (Tasks.key b, Tasks.onClick b))
      <$> Tasks.getStatusActions status onUpdate isLoading in
  actions "pending"
    = [("complete", onUpdate "completed"); ("start", onUpdate "in_progress")]
  ∧ actions "in_progress"
    = [("complete", onUpdate "completed"); ("pause", onUpdate "pending")]
  ∧ actions "completed" = []
  ∧ actions "cancelled" = [("complete", onUpdate "completed")]
  ∧ (∀ status, status ∉ ["pending"; "in_progress"; "completed"] →
       actions status = [("complete", onUpdate "completed")])
  ∧ (∀ status, status ∈ ["pending"; "in_progress"; "completed"] →
       list_to_set ((actions status).*1) = spec_action_table status).
Proof.
  intros actions. split_and!; try reflexivity.
  - intros status Hs. subst actions. unfold Tasks.getStatusActions.
    rewrite !not_elem_of_cons in Hs. destruct Hs as (? & ? & ? & _).
    by repeat case_decide.
  - intros status Hs. subst actions.
    repeat (apply elem_of_cons in Hs as [->|Hs]); [| | |by apply elem_of_nil in Hs].
    all: cbn; unfold spec_action_table; cbn; set_solver.
Qed.

(* ===================================================================== *)
(** ** The Tasks page: who holds which flag *)
(* ===================================================================== *)

Module FlagFacts.
Import Async Tasks TasksRuns.

Lemma quiet_andThen p q : quiet p → quiet q → quiet (andThen p q).
Proof.
  intros Hp Hq. induction p as [| | g k IH|m e k IH|m k IH|req k IH|p' IH' k IH];
    cbn in *; try done.
  - destruct Hp. auto.
  - auto.
  - auto.
  - destruct Hp. auto.
  - destruct Hp. auto.
Qed.

Lemma quiet_fetchTasksRest goalsData tasksData : quiet (fetchTasksRest goalsData tasksData).
Proof.
  revert tasksData. induction goalsData as [|goal rest IH]; intros tasksData.
  - by cbn.
  - cbn. split; [done|]. intros [a|e]; [apply IH|by cbn].
Qed.

Lemma quiet_fetchTasksData : quiet fetchTasksData.
Proof.
  cbn. split; [done|]. intros [a|e]; cbn; [|done].
  split; [done|]. apply quiet_fetchTasksRest.
Qed.

Lemma quiet_fetchSubtasks snap taskId : quiet (fetchSubtasks snap taskId).
Proof.
  unfold fetchSubtasks. destruct (subtasks snap !! taskId); cbn; [done|].
  case_bool_decide; cbn; [done|]. split; [done|]. by intros [a|e].
Qed.

Lemma quiet_toggleTaskExpansion snap taskId : quiet (toggleTaskExpansion snap taskId).
Proof.
  unfold toggleTaskExpansion. case_decide; [by cbn|].
  apply quiet_andThen; [apply quiet_fetchSubtasks|by cbn].
Qed.

Lemma holds_updateTaskStatus taskId (r : Settled ()) :
  holds (task_key taskId)
    (try_finally
       (try_catch
          (match r with
           | Fulfilled _ => Call fetchTasksData Done
           | Rejected error => Throw error
           end)
          (λ error,
             ConsoleError "Error updating task status:" error
               (Alert "Failed to update task status. Please try again." Done)))
       (setLoadingStates (λ prev, <[task_key taskId := false]> prev))).
Proof.
  destruct r as [[]|e].
  - split; [apply quiet_fetchTasksData|]. by right.
  - by right.
Qed.

Lemma labelled_nil : labelled [] [].
Proof. unfold labelled. constructor. Qed.

Lemma labelled_quiet t :
  is_read (request t) = true → (∀ r, quiet (resume t r)) → labelled [t] [None].
Proof. intros. unfold labelled. constructor; [by split|constructor]. Qed.

Lemma labelled_holds key t :
  is_read (request t) = true ∨ flag_key (request t) = Some key →
  (∀ r, holds key (resume t r)) → labelled [t] [Some key].
Proof. intros. unfold labelled. constructor; [by split|constructor]. Qed.

(** What running a quiet body adds to the page. *)
Lemma sync_quiet p s :
  quiet p →
  loadingStates (state (sync p s)) = loadingStates s
  ∧ ∃ held, labelled (suspended (sync p s)) held ∧ omap id held = [].
Proof.
  revert s. induction p as [| | g k IH|m e k IH|m k IH|req k IH|p' IH' k IH];
    intros s Hq; cbn in *.
  - split; [done|]. exists []. split; [apply labelled_nil|done].
  - split; [done|]. exists []. split; [apply labelled_nil|done].
  - destruct Hq as [Hg Hk]. destruct (IH (g s) Hk) as [-> Hheld]. by rewrite Hg.
  - by apply IH.
  - by apply IH.
  - split; [done|]. exists [None]. split; [|done].
    destruct Hq. by apply (labelled_quiet (suspend req k)).
  - destruct Hq as [Hp' Hk].
    destruct (IH' s Hp') as (Hs1 & held1 & Hl1 & Ho1).
    destruct (IH (state (sync p' s)) Hk) as (Hs2 & held2 & Hl2 & Ho2).
    split; [by rewrite Hs2|]. exists (held1 ++ held2).
    split; [by apply Forall2_app|]. by rewrite omap_app, Ho1, Ho2.
Qed.

(** What running a body that holds [key] adds: either it is suspended again,
    still holding [key], or it has cleared the flag. *)
Lemma sync_holds key p s :
  holds key p →
  ∃ held, labelled (suspended (sync p s)) held
    ∧ ((omap id held = [key]
        ∧ loadingStates (state (sync p s)) = loadingStates s)
       ∨ (omap id held = []
          ∧ loadingStates (state (sync p s)) = <[key := false]> (loadingStates s))).
Proof.
  revert s. induction p as [| | g k IH|m e k IH|m k IH|req k IH|p' IH' k IH];
    intros s Hh; cbn in *; try done.
  - destruct Hh as [[Hg Hk]|[Hg Hk]].
    + destruct (IH (g s) Hk) as (held & Hl & H). exists held. by rewrite !Hg in H.
    + destruct (sync_quiet k (g s) Hk) as (Hs & held & Hl & Ho).
      exists held. split; [done|]. right. by rewrite Hs, Hg.
  - by apply IH.
  - by apply IH.
  - destruct Hh as [Hr Hk]. exists [Some key]. split; [|by left].
    apply (labelled_holds key (suspend req k)); [by left|done].
  - destruct Hh as [Hp' Hk].
    destruct (sync_quiet p' s Hp') as (Hs1 & held1 & Hl1 & Ho1).
    destruct (IH (state (sync p' s)) Hk) as (held2 & Hl2 & H).
    exists (held1 ++ held2). split; [by apply Forall2_app|].
    rewrite omap_app, Ho1, <- Hs1. done.
Qed.

Lemma held_delete (held : list (option string)) n h :
  held !! n = Some h → NoDup (omap id held) →
  NoDup (omap id (delete n held))
  ∧ (∀ k, k ∈ omap id (delete n held) → k ∈ omap id held)
  ∧ (∀ key, h = Some key → key ∈ omap id held ∧ key ∉ omap id (delete n held)).
Proof.
  intros Hn. rewrite delete_take_drop.
  pose proof (take_drop_middle held n h Hn) as Hheld.
  remember (take n held) as before eqn:Hb. remember (drop (S n) held) as after eqn:Ha.
  clear Hb Ha Hn. subst held.
  rewrite !omap_app. cbn [omap list_omap]. intros Hnd. split_and!.
  - destruct h as [key|]; cbn in Hnd; [|done].
    apply NoDup_app in Hnd as (H1 & H2 & H3). apply NoDup_cons in H3 as [_ H3].
    apply NoDup_app. split_and!; [done| |done].
    intros x Hx Hx'. apply (H2 x Hx). by right.
  - intros k. rewrite !elem_of_app. intros [?|?]; [by left|right].
    destruct h; cbn; [by right|done].
  - intros key ->. cbn in *. split; [apply elem_of_app; right; by left|].
    apply NoDup_app in Hnd as (H1 & H2 & H3). apply NoDup_cons in H3 as [H3 _].
    rewrite elem_of_app. intros [Hx|Hx]; [|done]. apply (H2 key Hx). by left.
Qed.

Lemma flags_held_absorb (c : Component State) rest held o labels :
  labelled rest held → NoDup (omap id held) →
  labelled (suspended o) labels →
  (omap id labels = []
   ∨ ∃ key, omap id labels = [key] ∧ (key ∉ omap id held)
            ∧ loadingStates (state o) !! key = Some true) →
  (∀ k, k ∈ omap id held → loadingStates (state o) !! k = Some true) →
  flags_held (absorb c rest o).
Proof.
  intros Hl Hnd Hl' Hnew Hflags. exists (held ++ labels). cbn. split_and!.
  - by apply Forall2_app.
  - rewrite omap_app. destruct Hnew as [->|(key & -> & Hkey & _)].
    + by rewrite app_nil_r.
    + apply NoDup_app. split_and!; [done| |apply NoDup_singleton].
      intros x Hx Hx'. apply list_elem_of_singleton in Hx' as ->. done.
  - intros k. rewrite omap_app, elem_of_app. intros [Hk|Hk]; [by apply Hflags|].
    destruct Hnew as [Hn|(key & Hn & _ & Hkey)]; rewrite Hn in Hk.
    + by apply elem_of_nil in Hk.
    + by apply list_elem_of_singleton in Hk as ->.
Qed.

Lemma getStatusActions_button {H} status (onUpdate : string → H) isLoading b :
  b ∈ getStatusActions status onUpdate isLoading →
  disabled b = default false isLoading ∧ ∃ newStatus, onClick b = onUpdate newStatus.
Proof.
  unfold getStatusActions. repeat case_decide; cbn; intros Hb.
  all: repeat (apply elem_of_cons in Hb as [->|Hb]); try by apply elem_of_nil in Hb.
  all: split; [done|by eexists].
Qed.

(** A click on a button that is not disabled takes a flag nobody holds. *)
Lemma flags_held_update (c : Component State) key p req :
  flags_held c →
  default false (loadingStates (current c) !! key) = false →
  flag_key req = Some key →
  (∀ s, ∃ k, sync p s = outcome
       (mkState (goals s) (tasks s) (subtasks s) (loading s) (expandedTasks s)
                (<[key := true]> (loadingStates s)))
       [(EvRequest req,
         mkState (goals s) (tasks s) (subtasks s) (loading s) (expandedTasks s)
                 (<[key := true]> (loadingStates s)))]
       [suspend req k]
     ∧ ∀ r, holds key (k r)) →
  flags_held (absorb c (outstanding c) (sync p (current c))).
Proof.
  intros (held & Hl & Hnd & Hflags) Hfree Hreq Hp.
  destruct (Hp (current c)) as (k & -> & Hk).
  apply (flags_held_absorb c _ held _ [Some key]); try done.
  - apply (labelled_holds key (suspend req k)); [by right|done].
  - right. exists key. split_and!; [done| |apply lookup_insert_eq].
    intros Hin. apply Hflags in Hin. by rewrite Hin in Hfree.
  - intros k' Hk'. cbn. destruct (decide (key = k')) as [->|Hne].
    + apply lookup_insert_eq.
    + rewrite lookup_insert_ne by done. by apply Hflags.
Qed.

Lemma flags_held_step c i :
  flags_held c → possible (current c) i → flags_held (step c i).
Proof.
  intros Hc Hi. destruct Hi as [|taskId|task b Hb Hen|subtask b Hb Hen|n backend].
  - destruct Hc as (held & Hl & Hnd & Hflags). cbn [step].
    destruct (sync_quiet fetchTasksData (current c) quiet_fetchTasksData)
      as (Hs & labels & Hl' & Ho).
    eapply flags_held_absorb; [exact Hl|exact Hnd|exact Hl'|by left|].
    intros k Hk. rewrite Hs. by apply Hflags.
  - destruct Hc as (held & Hl & Hnd & Hflags). cbn [step].
    destruct (sync_quiet _ (current c) (quiet_toggleTaskExpansion (current c) taskId))
      as (Hs & labels & Hl' & Ho).
    eapply flags_held_absorb; [exact Hl|exact Hnd|exact Hl'|by left|].
    intros k Hk. rewrite Hs. by apply Hflags.
  - apply getStatusActions_button in Hb as [Hd [newStatus ->]].
    rewrite Hd in Hen. cbn [step].
    apply (flags_held_update c (task_key (Task.id task)) _
             (PUT_task (Task.id task) newStatus)); [done|done|done|].
    intros s. eexists. split; [reflexivity|]. cbv beta.
    apply holds_updateTaskStatus.
  - apply getStatusActions_button in Hb as [Hd [newStatus ->]].
    rewrite Hd in Hen. cbn [step].
    apply (flags_held_update c (subtask_key (Subtask.id subtask)) _
             (PUT_subtask (Subtask.id subtask) newStatus)); [done|done|done|].
    intros s. eexists. split; [reflexivity|]. cbv beta.
    intros [[]|e]; cbn.
    + destruct (find _ _) as [parentTaskId|]; cbn; [|by right].
      case_bool_decide; cbn; [by right|].
      split; [done|]. intros [a|e]; cbn; [left; split; [done|]|]; by right.
    + by right.
  - cbn [step]. destruct (outstanding c !! n) as [t|] eqn:Ht; [|done].
    destruct Hc as (held & Hl & Hnd & Hflags).
    destruct (Forall2_lookup_l _ _ _ _ _ Hl Ht) as (h & Hh & Hth).
    destruct (held_delete held n h Hh Hnd) as (Hnd' & Hsub & Hkey).
    pose proof (Forall2_delete _ _ _ n Hl) as Hl'.
    destruct h as [key|].
    + destruct Hth as [_ Hholds]. destruct (Hkey key eq_refl) as [Hin Hnotin].
      destruct (sync_holds key _ (current c) (Hholds (backend (request t))))
        as (labels & Hlab & [[Ho Hs]|[Ho Hs]]).
      * eapply flags_held_absorb; [exact Hl'|exact Hnd'|exact Hlab| |].
        -- right. exists key. split_and!; [done|done|]. rewrite Hs. by apply Hflags.
        -- intros k Hk. rewrite Hs. by apply Hflags, Hsub.
      * eapply flags_held_absorb; [exact Hl'|exact Hnd'|exact Hlab|by left|].
        intros k Hk. rewrite Hs. rewrite lookup_insert_ne; [by apply Hflags, Hsub|].
        intros ->. done.
    + destruct Hth as [_ Hquiet].
      destruct (sync_quiet _ (current c) (Hquiet (backend (request t))))
        as (Hs & labels & Hlab & Ho).
      eapply flags_held_absorb; [exact Hl'|exact Hnd'|exact Hlab|by left|].
      intros k Hk. rewrite Hs. by apply Hflags, Hsub.
Qed.

Lemma reachable_flags_held c : reachable c → flags_held c.
Proof.
  induction 1 as [|c i _ IH Hi].
  - exists []. split_and!; [apply labelled_nil|apply NoDup_nil_2|].
    intros k Hk. by apply elem_of_nil in Hk.
  - by apply flags_held_step.
Qed.

(** On the Tasks page, whenever an update request of a task or a subtask
    is outstanding, the flag of that entity is set. *)
Lemma flag_set_while_outstanding c t key :
  reachable c → t ∈ outstanding c → flag_key (request t) = Some key →
  loadingStates (current c) !! key = Some true.
Proof.
  intros (held & Hl & Hnd & Hflags)%reachable_flags_held Ht Hkey.
  apply list_elem_of_lookup in Ht as [n Ht].
  destruct (Forall2_lookup_l _ _ _ _ _ Hl Ht) as (h & Hh & Hth).
  destruct h as [k|].
  - destruct Hth as [[Hread|Hk] _].
    + destruct (request t); cbn in *; done.
    + assert (k = key) as -> by congruence.
      apply Hflags, list_elem_of_omap. exists (Some key).
      split; [|done]. apply list_elem_of_lookup. by exists n.
  - destruct Hth as [Hread _]. destruct (request t); cbn in *; done.
Qed.

End FlagFacts.

(** C2, as stated, fails for delete goal: once the user has confirmed, the
    request is sent and the state of the page, its one flag included, is
    what it was. *)
Lemma C2_delete_goal_sets_no_flag :
  let s := Goals.mkState [Goal.mk "g1" "Rocq" "" 4 "active"] false false None
                         Goals.emptyForm false in
  let c := Async.run (Async.mounted s)
             [Async.Trigger (λ _, Goals.handleDeleteGoal true "g1")] in
  Async.log c = [(Async.EvRequest (DELETE_goal "g1"), s)]
  ∧ Async.request <$> Async.outstanding c = [DELETE_goal "g1"]
  ∧ Async.current c = s
  ∧ Goals.formLoading (Async.current c) = false.
Proof. by split_and!. Qed.

(** C2, amended.  An update of a task or subtask status first sets the flag
    keyed by the kind and the identifier of the entity and then sends its
    request: the flag is set in the state in which the request goes out,
    and no other key changes.  Distinct entities have distinct keys.  In
    every state the Tasks page can reach through fetches, toggles, clicks
    on buttons that are not disabled and responses, an outstanding update
    request of an entity has the flag of that entity set.  Create goal sets
    the one flag of the form before its request. *)
Theorem C2_update_sets_flag_first (s : Tasks.State) (g : Goals.State)
    (id newStatus : string) :
  let task := Async.run (Async.mounted s)
                [Async.Trigger (λ _, Tasks.updateTaskStatus id newStatus)] in
  let subtask := Async.run (Async.mounted s)
                   [Async.Trigger (λ snap, Tasks.updateSubtaskStatus snap id newStatus)] in
  let create := Async.run (Async.mounted g)
                  [Async.Trigger (λ snap, Goals.handleCreateGoal snap)] in
  (Async.log task = [(Async.EvRequest (PUT_task id newStatus), Async.current task)]
   ∧ Async.request <$> Async.outstanding task = [PUT_task id newStatus]
   ∧ Tasks.loadingStates (Async.current task) !! Tasks.task_key id = Some true
   ∧ ∀ k, k ≠ Tasks.task_key id →
       Tasks.loadingStates (Async.current task) !! k = Tasks.loadingStates s !! k)
  ∧ (Async.log subtask
       = [(Async.EvRequest (PUT_subtask id newStatus), Async.current subtask)]
     ∧ Async.request <$> Async.outstanding subtask = [PUT_subtask id newStatus]
     ∧ Tasks.loadingStates (Async.current subtask) !! Tasks.subtask_key id = Some true
     ∧ ∀ k, k ≠ Tasks.subtask_key id →
         Tasks.loadingStates (Async.current subtask) !! k = Tasks.loadingStates s !! k)
  ∧ (∀ a b, Tasks.task_key a = Tasks.task_key b → a = b)
  ∧ (∀ a b, Tasks.subtask_key a = Tasks.subtask_key b → a = b)
  ∧ (∀ a b, Tasks.task_key a ≠ Tasks.subtask_key b)
  ∧ (∀ c t key,
       TasksRuns.reachable c → t ∈ Async.outstanding c →
       TasksRuns.flag_key (Async.request t) = Some key →
       Tasks.loadingStates (Async.current c) !! key = Some true)
  ∧ (Async.log create
       = [(Async.EvRequest (POST_goals (Goals.formData g)), Async.current create)]
     ∧ Goals.formLoading (Async.current create) = true).
Proof.
  intros task subtask create. split_and!; try reflexivity.
  - apply lookup_insert_eq.
  - intros k Hk. cbn. by rewrite lookup_insert_ne.
  - apply lookup_insert_eq.
  - intros k Hk. cbn. by rewrite lookup_insert_ne.
  - apply TasksFacts.task_key_inj.
  - apply TasksFacts.subtask_key_inj.
  - apply TasksFacts.task_key_subtask_key.
  - apply FlagFacts.flag_set_while_outstanding.
Qed.

(** A click on "complete" for a pending task of the freshly mounted page:
    the state is reachable, the update is outstanding and the flag is set. *)
Lemma C2_update_sets_flag_first_t1 :
  let task := Task.mk "t1" "Week 1" 1 "2026-04-01" "pending" in
  let b := Tasks.mkButton "complete" (Tasks.updateTaskStatus "t1" "completed") false in
  let c := Async.step (Async.mounted Tasks.initial) (Async.Trigger (λ _, Tasks.onClick b)) in
  TasksRuns.reachable c
  ∧ Async.request <$> Async.outstanding c = [PUT_task "t1" "completed"]
  ∧ Tasks.loadingStates (Async.current c) !! Tasks.task_key "t1" = Some true.
Proof.
  intros task b c.
  assert (Hr : TasksRuns.reachable c).
  { apply TasksRuns.reachable_step; [apply TasksRuns.reachable_mounted|].
    apply (TasksRuns.possible_task_action _ task b); [|reflexivity].
    apply list_elem_of_here. }
  destruct (C2_update_sets_flag_first Tasks.initial Goals.initial "t1" "completed")
    as (_ & _ & _ & _ & _ & Hinv & _).
  split_and!; [exact Hr|reflexivity|].
  eapply Hinv; [exact Hr|apply list_elem_of_here|reflexivity].
Defined.

(** C3, as stated, fails under rapid toggling: a second click before the
    first response still finds the cache empty and the task collapsed, and
    sends the same request again. *)
Lemma C3_rapid_toggle_fetches_twice :
  let s := Tasks.mkState [] ∅ ∅ false ∅ ∅ in
  let c := Async.run (Async.mounted s)
             [Async.Trigger (λ snap, Tasks.toggleTaskExpansion snap "t1");
              Async.Trigger (λ snap, Tasks.toggleTaskExpansion snap "t1")] in
  Async.requests (Async.log c) = [GET_task_subtasks "t1"; GET_task_subtasks "t1"]
  ∧ Async.request <$> Async.outstanding c
    = [GET_task_subtasks "t1"; GET_task_subtasks "t1"]
  ∧ length (Async.requests (Async.log c)) ≠ 1.
Proof. by vm_compute. Qed.

Module CacheFacts.
Import Async Tasks TasksRuns.

(** With the entry cached, a call returns at once: no request, and only the
    set of expanded tasks may change. *)
Lemma cached_call (c : Component State) (taskId : string) (i : Input State) :
  is_Some (subtasks (current c) !! taskId) → loads taskId i →
  subtasks (current (step c i)) = subtasks (current c)
  ∧ outstanding (step c i) = outstanding c
  ∧ log (step c i) = log c.
Proof.
  intros [l Hl] [->| ->]; cbn; unfold absorb.
  - unfold fetchSubtasks. rewrite Hl. cbn. by rewrite !app_nil_r.
  - unfold toggleTaskExpansion, fetchSubtasks. rewrite Hl.
    case_decide; cbn; by rewrite !app_nil_r.
Qed.

Lemma cached_calls (c : Component State) (taskId : string) (later : list (Input State)) :
  is_Some (subtasks (current c) !! taskId) → Forall (loads taskId) later →
  subtasks (current (run c later)) = subtasks (current c)
  ∧ outstanding (run c later) = outstanding c
  ∧ log (run c later) = log c.
Proof.
  intros Hc Hl. revert c Hc.
  induction Hl as [|i later Hi _ IH]; intros c Hc; [done|].
  destruct (cached_call c taskId i Hc Hi) as (Hs & Ho & Hg).
  cbn [run foldl]. destruct (IH (step c i)) as (Hs' & Ho' & Hg').
  - by rewrite Hs.
  - unfold run in *. by rewrite Hs', Ho', Hg', Hs, Ho, Hg.
Qed.

End CacheFacts.

(** C3, amended.  For a [taskId] that is not the name of a member of
    [Object.prototype]: when the first call for [taskId] (a direct call, or
    the expansion of the collapsed task) is answered before the next call
    is made, it fetches once and stores the answer under [taskId], and
    every later call, from a direct call or from a toggle, returns without
    a request: one fetch in total. *)
Theorem C3_fetch_once_when_sequential (s : Tasks.State) (taskId : string)
    (data : list Subtask.t) (backend : Async.Backend)
    (first : Async.Input Tasks.State) (later : list (Async.Input Tasks.State)) :
  taskId ∉ Object_prototype →
  Tasks.subtasks s !! taskId = None →
  backend (GET_task_subtasks taskId) = Fulfilled data →
  first = Async.Trigger (λ snap, Tasks.fetchSubtasks snap taskId)
  ∨ (first = Async.Trigger (λ snap, Tasks.toggleTaskExpansion snap taskId)
     ∧ taskId ∉ Tasks.expandedTasks s) →
  Forall (TasksRuns.loads taskId) later →
  let loaded := Async.run (Async.mounted s) [first; Async.Settle 0 backend] in
  let c := Async.run loaded later in
  Async.requests (Async.log loaded) = [GET_task_subtasks taskId]
  ∧ Tasks.subtasks (Async.current loaded) = <[taskId := data]> (Tasks.subtasks s)
  ∧ Async.requests (Async.log c) = [GET_task_subtasks taskId]
  ∧ Tasks.subtasks (Async.current c) = <[taskId := data]> (Tasks.subtasks s)
  ∧ Async.outstanding c = [].
Proof.
  intros Hown Hmiss Hb Hfirst Hlater loaded c.
  assert (Hloaded : Async.requests (Async.log loaded) = [GET_task_subtasks taskId]
    ∧ Tasks.subtasks (Async.current loaded) = <[taskId := data]> (Tasks.subtasks s)
    ∧ Async.outstanding loaded = []).
  { subst loaded. destruct Hfirst as [->|[-> Hcollapsed]]; cbn.
    - unfold Tasks.fetchSubtasks. rewrite Hmiss, bool_decide_eq_false_2 by done.
      cbn. rewrite Hb. by cbn.
    - unfold Tasks.toggleTaskExpansion. case_decide; [done|].
      unfold Tasks.fetchSubtasks. rewrite Hmiss, bool_decide_eq_false_2 by done.
      cbn. rewrite Hb. by cbn. }
  destruct Hloaded as (Hreq & Hsub & Hout).
  destruct (CacheFacts.cached_calls loaded taskId later) as (Hs' & Ho' & Hg'); [|done|].
  { rewrite Hsub, lookup_insert_eq. by eexists. }
  subst c. by rewrite Hg', Hs', Ho'.
Qed.

Lemma C3_fetch_once_when_sequential_t1 :
  let s := Tasks.mkState [] ∅ ∅ false ∅ ∅ in
  let data := [Subtask.mk "s1" "Read chapter 1" "2026-04-01" "pending"] in
  let backend : Async.Backend := λ req,
    match req with
    | GET_task_subtasks _ => Fulfilled data
    | GET_goals => Fulfilled []
    | GET_goal_tasks _ => Fulfilled []
    | _ => Fulfilled ()
    end in
  let toggle := Async.Trigger (λ snap, Tasks.toggleTaskExpansion snap "t1") in
  let c := Async.run (Async.run (Async.mounted s) [toggle; Async.Settle 0 backend])
             [toggle; toggle; Async.Trigger (λ snap, Tasks.fetchSubtasks snap "t1")] in
  Async.requests (Async.log c) = [GET_task_subtasks "t1"]
  ∧ Tasks.subtasks (Async.current c) !! "t1" = Some data.
Proof.
  intros s data backend toggle c.
  destruct (C3_fetch_once_when_sequential s "t1" data backend toggle
              [toggle; toggle; Async.Trigger (λ snap, Tasks.fetchSubtasks snap "t1")])
    as (_ & _ & Hreq & Hsub & _).
  - apply (bool_decide_eq_false_1 ("t1" ∈ Object_prototype)). vm_compute. reflexivity.
  - reflexivity.
  - reflexivity.
  - right. split; [reflexivity|]. by vm_compute.
  - repeat constructor; by (left + right).
  - split; [exact Hreq|]. subst c. rewrite Hsub. by vm_compute.
Defined.

(** C4.  A click on a button of a task or of a subtask changes nothing of
    the page but the flag of the entity, which it sets: no status is
    written ahead of the answer.  When the request is rejected, the goals,
    the tasks and the cached subtasks (hence every status in them) are what
    they were when the response came, and so, when nothing else has
    happened, what they were before the click; the failure notice is
    shown, and the flag of the entity is cleared.  When the request
    succeeds the flag is cleared too: at once for a task, and for a subtask
    when the refresh of the parent task has been answered, whatever the
    answer, or at once when there is no refresh. *)
Theorem C4_update_failure_and_flag (s : Tasks.State) (id newStatus error : string)
    (meanwhile : Tasks.State → Tasks.State) (b1 b2 : Async.Backend) :
  let flagged key :=
    Tasks.mkState (Tasks.goals s) (Tasks.tasks s) (Tasks.subtasks s) (Tasks.loading s)
                  (Tasks.expandedTasks s) (<[key := true]> (Tasks.loadingStates s)) in
  let taskClicked := Async.run (Async.mounted s)
                       [Async.Trigger (λ _, Tasks.updateTaskStatus id newStatus)] in
  let subtaskClicked := Async.run (Async.mounted s)
      [Async.Trigger (λ snap, Tasks.updateSubtaskStatus snap id newStatus)] in
  let task := Async.run (Async.mounted s)
                [Async.Trigger (λ _, Tasks.updateTaskStatus id newStatus);
                 Async.Meanwhile meanwhile] in
  let subtask := Async.run (Async.mounted s)
                   [Async.Trigger (λ snap, Tasks.updateSubtaskStatus snap id newStatus);
                    Async.Meanwhile meanwhile] in
  let failed c := Async.step c (Async.Settle 0 (Async.failing error)) in
  (Async.current taskClicked = flagged (Tasks.task_key id)
   ∧ Async.requests (Async.log taskClicked) = [PUT_task id newStatus]
   ∧ Async.current task = meanwhile (flagged (Tasks.task_key id))
   ∧ Async.current subtaskClicked = flagged (Tasks.subtask_key id)
   ∧ Async.requests (Async.log subtaskClicked) = [PUT_subtask id newStatus]
   ∧ Async.current subtask = meanwhile (flagged (Tasks.subtask_key id)))
  ∧ (Tasks.goals (Async.current (failed task)) = Tasks.goals (Async.current task)
   ∧ Tasks.tasks (Async.current (failed task)) = Tasks.tasks (Async.current task)
   ∧ Tasks.subtasks (Async.current (failed task)) = Tasks.subtasks (Async.current task)
   ∧ Async.alerts (Async.log (failed task))
     = ["Failed to update task status. Please try again."]
   ∧ Tasks.loadingStates (Async.current (failed task)) !! Tasks.task_key id = Some false
   ∧ Async.outstanding (failed task) = [])
  ∧ (Tasks.goals (Async.current (failed subtask)) = Tasks.goals (Async.current subtask)
     ∧ Tasks.tasks (Async.current (failed subtask)) = Tasks.tasks (Async.current subtask)
     ∧ Tasks.subtasks (Async.current (failed subtask))
       = Tasks.subtasks (Async.current subtask)
     ∧ Async.alerts (Async.log (failed subtask))
       = ["Failed to update subtask status. Please try again."]
     ∧ Tasks.loadingStates (Async.current (failed subtask)) !! Tasks.subtask_key id
       = Some false
     ∧ Async.outstanding (failed subtask) = [])
  ∧ Tasks.loadingStates (Async.current (Async.step task (Async.Settle 0 b1)))
      !! Tasks.task_key id = Some false
  ∧ (let c := Async.run subtask [Async.Settle 0 b1; Async.Settle 0 b2] in
     Tasks.loadingStates (Async.current c) !! Tasks.subtask_key id = Some false
     ∧ Async.outstanding c = [])
  ∧ ((∀ st, meanwhile st = st) →
     (Tasks.goals (Async.current (failed task)) = Tasks.goals s
      ∧ Tasks.tasks (Async.current (failed task)) = Tasks.tasks s
      ∧ Tasks.subtasks (Async.current (failed task)) = Tasks.subtasks s
      ∧ Tasks.expandedTasks (Async.current (failed task)) = Tasks.expandedTasks s)
     ∧ (Tasks.goals (Async.current (failed subtask)) = Tasks.goals s
        ∧ Tasks.tasks (Async.current (failed subtask)) = Tasks.tasks s
        ∧ Tasks.subtasks (Async.current (failed subtask)) = Tasks.subtasks s
        ∧ Tasks.expandedTasks (Async.current (failed subtask)) = Tasks.expandedTasks s)).
Proof.
  intros flagged taskClicked subtaskClicked task subtask failed.
  split_and!; try reflexivity.
  - apply lookup_insert_eq.
  - apply lookup_insert_eq.
  - cbn. destruct (b1 (PUT_task id newStatus)); cbn; apply lookup_insert_eq.
  - cbn. destruct (b1 (PUT_subtask id newStatus)) as [[]|e]; cbn.
    + destruct (find _ _) as [parentTaskId|]; cbn; [|by rewrite lookup_insert_eq].
      case_bool_decide; cbn; [by rewrite lookup_insert_eq|].
      destruct (b2 (GET_task_subtasks parentTaskId)); cbn; by rewrite lookup_insert_eq.
    + by rewrite lookup_insert_eq.
  - intros Hquiet. subst failed task subtask flagged. cbn. rewrite !Hquiet. by cbn.
Qed.

Module ParentFacts.
Import Async Tasks.

Lemma holds_subtask_spec cache subtaskId taskId :
  holds_subtask cache subtaskId taskId = true ↔
  ∃ l st, cache !! taskId = Some l ∧ st ∈ l ∧ Subtask.id st = subtaskId.
Proof.
  unfold holds_subtask. destruct (cache !! taskId) as [l|];
    [|split; [done|by intros (? & ? & ? & _)]].
  rewrite existsb_exists. split.
  - intros (st & Hin & Hid). exists l, st.
    apply list_elem_of_In in Hin. by apply bool_decide_eq_true in Hid.
  - intros (l' & st & [= <-] & Hin & Hid). exists st.
    by rewrite <- list_elem_of_In, bool_decide_eq_true.
Qed.

(** The search finds the task that holds the subtask when there is exactly
    one. *)
Lemma find_parent cache subtaskId parentTaskId :
  holds_subtask cache subtaskId parentTaskId = true →
  (∀ taskId, holds_subtask cache subtaskId taskId = true → taskId = parentTaskId) →
  find (holds_subtask cache subtaskId) (Object_keys cache) = Some parentTaskId.
Proof.
  intros Hp Huniq. destruct (find _ _) as [k|] eqn:E.
  - apply find_some in E as [_ Hk]. f_equal. by apply Huniq.
  - pose proof Hp as Hp'. apply holds_subtask_spec in Hp' as (l & _ & Hl & _).
    eapply find_none in E; [by rewrite Hp in E|].
    apply list_elem_of_In, list_elem_of_fmap. exists (parentTaskId, l).
    split; [done|]. by apply elem_of_map_to_list.
Qed.

(** The search finds nothing when no cached collection has the subtask. *)
Lemma find_no_parent cache subtaskId :
  (∀ taskId l st, cache !! taskId = Some l → st ∈ l → Subtask.id st ≠ subtaskId) →
  find (holds_subtask cache subtaskId) (Object_keys cache) = None.
Proof.
  intros Hnone. destruct (find _ _) as [k|] eqn:E; [|done].
  apply find_some in E as [_ Hk].
  apply holds_subtask_spec in Hk as (l & st & Hl & Hin & Hid).
  by destruct (Hnone k l st).
Qed.

End ParentFacts.

(** C8.  An update of the status of a subtask, step by step.  The click
    changes nothing of the page but the flag of the subtask and sends the
    update.  The answer to the update leaves the goals, the tasks and every
    cached entry as they were.  Whatever the backend answers, the handler
    sends at most one more request, the fetch of the subtasks of a task
    whose cached collection holds the subtask; the cached entry of every
    task that does not hold it, the goals and the tasks are left as they
    were, and neither the goals nor the tasks are fetched.  When the update
    succeeds for a subtask held by exactly one cached collection, the one
    of [parentTaskId], the subtasks of that task are fetched and the answer
    replaces its entry.  With nothing else happening in between, all of this
    holds against the state before the click. *)
Theorem C8_subtask_update_refetches_parent_only (s : Tasks.State)
    (subtaskId newStatus : string) (b1 b2 : Async.Backend)
    (meanwhile1 meanwhile2 : Tasks.State → Tasks.State) :
  let holds taskId :=
    ∃ l st, Tasks.subtasks s !! taskId = Some l ∧ st ∈ l ∧ Subtask.id st = subtaskId in
  let clicked := Async.run (Async.mounted s)
      [Async.Trigger (λ snap, Tasks.updateSubtaskStatus snap subtaskId newStatus)] in
  let waiting := Async.step clicked (Async.Meanwhile meanwhile1) in
  let answered := Async.step waiting (Async.Settle 0 b1) in
  let before := Async.step answered (Async.Meanwhile meanwhile2) in
  let c := Async.step before (Async.Settle 0 b2) in
  (Async.current clicked
   = Tasks.mkState (Tasks.goals s) (Tasks.tasks s) (Tasks.subtasks s) (Tasks.loading s)
       (Tasks.expandedTasks s)
       (<[Tasks.subtask_key subtaskId := true]> (Tasks.loadingStates s))
   ∧ Async.requests (Async.log clicked) = [PUT_subtask subtaskId newStatus])
  ∧ (Tasks.goals (Async.current answered) = Tasks.goals (Async.current waiting)
     ∧ Tasks.tasks (Async.current answered) = Tasks.tasks (Async.current waiting)
     ∧ Tasks.subtasks (Async.current answered) = Tasks.subtasks (Async.current waiting))
  ∧ (∀ taskId, ¬ holds taskId →
       Tasks.subtasks (Async.current c) !! taskId
       = Tasks.subtasks (Async.current before) !! taskId)
  ∧ Tasks.goals (Async.current c) = Tasks.goals (Async.current before)
  ∧ Tasks.tasks (Async.current c) = Tasks.tasks (Async.current before)
  ∧ (∀ req, req ∈ Async.requests (Async.log c) →
       req = PUT_subtask subtaskId newStatus
       ∨ ∃ taskId, holds taskId ∧ req = GET_task_subtasks taskId)
  ∧ (∀ parentTaskId data,
       holds parentTaskId →
       (∀ taskId, holds taskId → taskId = parentTaskId) →
       parentTaskId ≠ "" →
       b1 (PUT_subtask subtaskId newStatus) = Fulfilled () →
       b2 (GET_task_subtasks parentTaskId) = Fulfilled data →
       Async.request <$> Async.outstanding before = [GET_task_subtasks parentTaskId]
       ∧ Async.requests (Async.log c)
         = [PUT_subtask subtaskId newStatus; GET_task_subtasks parentTaskId]
       ∧ Async.outstanding c = []
       ∧ Tasks.subtasks (Async.current c)
         = <[parentTaskId := data]> (Tasks.subtasks (Async.current before))
       ∧ ((∀ st, meanwhile1 st = st) → (∀ st, meanwhile2 st = st) →
          Tasks.subtasks (Async.current c)
          = <[parentTaskId := data]> (Tasks.subtasks s)))
  ∧ ((∀ st, meanwhile1 st = st) → (∀ st, meanwhile2 st = st) →
     Tasks.goals (Async.current c) = Tasks.goals s
     ∧ Tasks.tasks (Async.current c) = Tasks.tasks s
     ∧ Tasks.expandedTasks (Async.current c) = Tasks.expandedTasks s
     ∧ ∀ taskId, ¬ holds taskId →
         Tasks.subtasks (Async.current c) !! taskId = Tasks.subtasks s !! taskId).
Proof.
  intros holds clicked waiting answered before c.
  set (found := find (Tasks.holds_subtask (Tasks.subtasks s) subtaskId)
                     (Object_keys (Tasks.subtasks s))).
  assert (Hfound : ∀ taskId, found = Some taskId → holds taskId).
  { intros taskId Hf. apply find_some in Hf as [_ Hf].
    by apply ParentFacts.holds_subtask_spec in Hf. }
  assert (Hframe :
    (∀ taskId, found ≠ Some taskId →
       Tasks.subtasks (Async.current c) !! taskId
       = Tasks.subtasks (Async.current before) !! taskId)
    ∧ Tasks.goals (Async.current c) = Tasks.goals (Async.current before)
    ∧ Tasks.tasks (Async.current c) = Tasks.tasks (Async.current before)
    ∧ Tasks.expandedTasks (Async.current c) = Tasks.expandedTasks (Async.current before)
    ∧ (∀ req, req ∈ Async.requests (Async.log c) →
         req = PUT_subtask subtaskId newStatus
         ∨ ∃ taskId, found = Some taskId ∧ req = GET_task_subtasks taskId)).
  { subst c before answered waiting clicked. cbn.
    destruct (b1 (PUT_subtask subtaskId newStatus)) as [[]|e]; cbn.
    - fold found. destruct found as [parentTaskId|]; cbn.
      + case_bool_decide; cbn.
        * split_and!; try done. intros req ->%list_elem_of_singleton. by left.
        * destruct (b2 (GET_task_subtasks parentTaskId)) as [data|e]; cbn.
          -- split_and!; try done.
             ++ intros taskId Hne. rewrite lookup_insert_ne; [done|congruence].
             ++ intros req [->|[->|[]%elem_of_nil]%elem_of_cons]%elem_of_cons;
                  [by left|right; by eexists].
          -- split_and!; try done.
             intros req [->|[->|[]%elem_of_nil]%elem_of_cons]%elem_of_cons;
               [by left|right; by eexists].
      + split_and!; try done. intros req ->%list_elem_of_singleton. by left.
    - split_and!; try done. intros req ->%list_elem_of_singleton. by left. }
  destruct Hframe as (Hother & Hg & Ht & He & Hreq).
  assert (Hanswered :
    Tasks.goals (Async.current answered) = Tasks.goals (Async.current waiting)
    ∧ Tasks.tasks (Async.current answered) = Tasks.tasks (Async.current waiting)
    ∧ Tasks.subtasks (Async.current answered) = Tasks.subtasks (Async.current waiting)
    ∧ Tasks.expandedTasks (Async.current answered)
      = Tasks.expandedTasks (Async.current waiting)).
  { subst answered waiting clicked. cbn.
    destruct (b1 (PUT_subtask subtaskId newStatus)) as [[]|e]; cbn; [|done].
    fold found. destruct found as [parentTaskId|]; cbn; [|done].
    by case_bool_decide. }
  destruct Hanswered as (Hag & Hat & Has & Hae).
  assert (Hother' : ∀ taskId, ¬ holds taskId →
    Tasks.subtasks (Async.current c) !! taskId
    = Tasks.subtasks (Async.current before) !! taskId).
  { intros taskId Hno. apply Hother. intros Hf. by apply Hno, Hfound. }
  assert (Hquiet : (∀ st, meanwhile1 st = st) → (∀ st, meanwhile2 st = st) →
    Tasks.goals (Async.current before) = Tasks.goals s
    ∧ Tasks.tasks (Async.current before) = Tasks.tasks s
    ∧ Tasks.subtasks (Async.current before) = Tasks.subtasks s
    ∧ Tasks.expandedTasks (Async.current before) = Tasks.expandedTasks s).
  { intros H1 H2.
    assert (Hb : Async.current before = Async.current answered)
      by (subst before; cbn; apply H2).
    assert (Hw : Async.current waiting = Async.current clicked)
      by (subst waiting; cbn; apply H1).
    rewrite Hb, Hag, Hat, Has, Hae, Hw. by subst clicked. }
  split_and!; try done.
  - intros req Hin. destruct (Hreq req Hin) as [->|(taskId & Hf & ->)]; [by left|].
    right. exists taskId. split; [by apply Hfound|done].
  - intros parentTaskId data Hp Huniq Hne Hb1 Hb2.
    assert (Hfind : found = Some parentTaskId).
    { apply ParentFacts.find_parent.
      - by apply ParentFacts.holds_subtask_spec.
      - intros taskId Hh. apply Huniq. by apply ParentFacts.holds_subtask_spec in Hh. }
    assert (Hsub : Tasks.subtasks (Async.current c)
                   = <[parentTaskId := data]> (Tasks.subtasks (Async.current before))).
    { subst c before answered waiting clicked. cbn. rewrite Hb1. cbn.
      fold found. rewrite Hfind. cbn.
      rewrite bool_decide_eq_false_2 by done. cbn. rewrite Hb2. by cbn. }
    split_and!.
    + subst c before answered waiting clicked. cbn. rewrite Hb1. cbn.
      fold found. rewrite Hfind. cbn. by rewrite bool_decide_eq_false_2.
    + subst c before answered waiting clicked. cbn. rewrite Hb1. cbn.
      fold found. rewrite Hfind. cbn.
      rewrite bool_decide_eq_false_2 by done. cbn. rewrite Hb2. by cbn.
    + subst c before answered waiting clicked. cbn. rewrite Hb1. cbn.
      fold found. rewrite Hfind. cbn.
      rewrite bool_decide_eq_false_2 by done. cbn. rewrite Hb2. by cbn.
    + exact Hsub.
    + intros H1 H2. destruct (Hquiet H1 H2) as (_ & _ & Hs & _). by rewrite Hsub, Hs.
  - intros H1 H2. destruct (Hquiet H1 H2) as (Hg' & Ht' & Hs' & He').
    rewrite Hg, Ht, He, Hg', Ht', He'. split_and!; try done.
    intros taskId Hno. by rewrite Hother', Hs'.
Qed.

Lemma C8_subtask_update_refetches_parent_only_t1 :
  let s1 := Subtask.mk "s1" "Read chapter 1" "2026-04-01" "pending" in
  let s2 := Subtask.mk "s2" "Exercises" "2026-04-08" "pending" in
  let s := Tasks.mkState [] ∅ {["t1" := [s1]; "t2" := [s2]]} false {["t1"]} ∅ in
  let data := [Subtask.mk "s1" "Read chapter 1" "2026-04-01" "completed"] in
  let backend : Async.Backend := λ req,
    match req with
    | GET_task_subtasks _ => Fulfilled data
    | GET_goals => Fulfilled []
    | GET_goal_tasks _ => Fulfilled []
    | _ => Fulfilled ()
    end in
  let c := Async.run (Async.mounted s)
      [Async.Trigger (λ snap, Tasks.updateSubtaskStatus snap "s1" "completed");
       Async.Meanwhile id; Async.Settle 0 backend; Async.Meanwhile id;
       Async.Settle 0 backend] in
  Tasks.subtasks (Async.current c) !! "t1" = Some data
  ∧ Tasks.subtasks (Async.current c) !! "t2" = Some [s2]
  ∧ Async.requests (Async.log c) = [PUT_subtask "s1" "completed"; GET_task_subtasks "t1"].
Proof.
  intros s1 s2 s data backend c.
  destruct (C8_subtask_update_refetches_parent_only s "s1" "completed"
              backend backend id id) as (_ & _ & _ & _ & _ & _ & Hparent & Hquiet).
  assert (Huniq : ∀ taskId l st, Tasks.subtasks s !! taskId = Some l → st ∈ l →
                                 Subtask.id st = "s1" → taskId = "t1").
  { intros taskId l st Hl Hin Hid.
    destruct (decide (taskId = "t1")) as [|Hne1]; [done|].
    destruct (decide (taskId = "t2")) as [->|Hne2].
    - vm_compute in Hl. injection Hl as <-.
      apply list_elem_of_singleton in Hin as ->. discriminate Hid.
    - cbn in Hl. by rewrite lookup_insert_ne, lookup_singleton_ne in Hl. }
  destruct (Hparent "t1" data) as (_ & Hreq & _ & _ & Hsub).
  - exists [s1], s1. split; [by vm_compute|]. split; [apply list_elem_of_here|done].
  - intros taskId (l & st & Hl & Hin & Hid). by apply (Huniq taskId l st).
  - discriminate.
  - reflexivity.
  - reflexivity.
  - destruct Hquiet as (_ & _ & _ & Hother); [done|done|].
    split_and!.
    + subst c. cbn [Async.run foldl] in *. rewrite Hsub by done. apply lookup_insert_eq.
    + subst c. cbn [Async.run foldl] in *. rewrite Hother; [by vm_compute|].
      intros (l & st & Hl & Hin & Hid). by pose proof (Huniq "t2" l st Hl Hin Hid).
    + exact Hreq.
Defined.

(** C10.  For a subtask that no cached collection holds, the click changes
    nothing of the page but the flag of the subtask, and the update request
    is sent all the same; once it is answered nothing is fetched, the cache
    is as it was when the answer came, and so, when nothing else has
    happened, as it was before the click; the flag is cleared; after a
    success no notice is shown either, so nothing on the page has changed. *)
Theorem C10_unknown_subtask_no_refetch (s : Tasks.State) (subtaskId newStatus : string)
    (b : Async.Backend) (meanwhile : Tasks.State → Tasks.State) :
  (∀ taskId l st, Tasks.subtasks s !! taskId = Some l → st ∈ l →
                  Subtask.id st ≠ subtaskId) →
  let clicked := Async.run (Async.mounted s)
      [Async.Trigger (λ snap, Tasks.updateSubtaskStatus snap subtaskId newStatus)] in
  let before := Async.run (Async.mounted s)
      [Async.Trigger (λ snap, Tasks.updateSubtaskStatus snap subtaskId newStatus);
       Async.Meanwhile meanwhile] in
  let c := Async.step before (Async.Settle 0 b) in
  Async.current clicked
  = Tasks.mkState (Tasks.goals s) (Tasks.tasks s) (Tasks.subtasks s) (Tasks.loading s)
      (Tasks.expandedTasks s)
      (<[Tasks.subtask_key subtaskId := true]> (Tasks.loadingStates s))
  ∧ Async.current before = meanwhile (Async.current clicked)
  ∧ Async.request <$> Async.outstanding before = [PUT_subtask subtaskId newStatus]
  ∧ Async.requests (Async.log c) = [PUT_subtask subtaskId newStatus]
  ∧ Async.outstanding c = []
  ∧ Tasks.subtasks (Async.current c) = Tasks.subtasks (Async.current before)
  ∧ Tasks.tasks (Async.current c) = Tasks.tasks (Async.current before)
  ∧ Tasks.loadingStates (Async.current c) !! Tasks.subtask_key subtaskId = Some false
  ∧ (b (PUT_subtask subtaskId newStatus) = Fulfilled () → Async.alerts (Async.log c) = [])
  ∧ ((∀ st, meanwhile st = st) →
     Tasks.subtasks (Async.current c) = Tasks.subtasks s
     ∧ Tasks.tasks (Async.current c) = Tasks.tasks s
     ∧ Tasks.goals (Async.current c) = Tasks.goals s
     ∧ Tasks.expandedTasks (Async.current c) = Tasks.expandedTasks s).
Proof.
  intros Hnone clicked before c.
  pose proof (ParentFacts.find_no_parent _ _ Hnone) as Hfind.
  subst c before clicked. cbn. destruct (b (PUT_subtask subtaskId newStatus)) as [[]|e]; cbn.
  - rewrite Hfind. cbn. split_and!; try done; [apply lookup_insert_eq|].
    intros Hquiet. by rewrite !Hquiet.
  - split_and!; try done; [apply lookup_insert_eq|].
    intros Hquiet. by rewrite !Hquiet.
Qed.

Lemma C10_unknown_subtask_no_refetch_s9 :
  let s1 := Subtask.mk "s1" "Read chapter 1" "2026-04-01" "pending" in
  let s := Tasks.mkState [] ∅ {["t1" := [s1]]} false {["t1"]} ∅ in
  let backend : Async.Backend := λ req,
    match req with
    | GET_task_subtasks _ => Fulfilled []
    | GET_goals => Fulfilled []
    | GET_goal_tasks _ => Fulfilled []
    | _ => Fulfilled ()
    end in
  let c := Async.run (Async.mounted s)
      [Async.Trigger (λ snap, Tasks.updateSubtaskStatus snap "s9" "completed");
       Async.Meanwhile id; Async.Settle 0 backend] in
  Async.requests (Async.log c) = [PUT_subtask "s9" "completed"]
  ∧ Tasks.subtasks (Async.current c) !! "t1" = Some [s1].
Proof.
  intros s1 s backend c.
  destruct (C10_unknown_subtask_no_refetch s "s9" "completed" backend id)
    as (_ & _ & _ & Hreq & _ & _ & _ & _ & _ & Hquiet).
  - intros taskId l st Hl Hin.
    destruct (decide (taskId = "t1")) as [->|Hne].
    + vm_compute in Hl. injection Hl as <-.
      apply list_elem_of_singleton in Hin as ->. discriminate.
    + cbn in Hl. by rewrite lookup_singleton_ne in Hl.
  - split; [exact Hreq|]. destruct Hquiet as (Hsub & _); [done|].
    subst c. cbn [Async.run foldl] in *. rewrite Hsub. by vm_compute.
Defined.

Module ReadFacts.
Import Async Tasks TasksRuns.

Lemma looping_settle st lg goal rest tasksData (b : Backend) :
  step (looping st lg (goal :: rest) tasksData) (Settle 0 b)
  = match b (GET_goal_tasks (Goal.id goal)) with
    | Fulfilled a =>
        looping st (lg ++ [(EvRequest (GET_goal_tasks (Goal.id goal)), st)]) rest
                (<[Goal.id goal := a]> tasksData)
    | Rejected error =>
        component
          (mkState (goals st) (tasks st) (subtasks st) false
                   (expandedTasks st) (loadingStates st))
          []
          (lg ++ [(EvRequest (GET_goal_tasks (Goal.id goal)), st);
                  (EvConsoleError "Error fetching tasks data:" error, st)])
    end.
Proof.
  unfold looping. cbn. destruct (b (GET_goal_tasks (Goal.id goal))); cbn.
  - unfold absorb. cbn. by rewrite <- !app_assoc.
  - unfold absorb. cbn. by rewrite <- !app_assoc.
Qed.

(** A rejection inside the loop: the tasks collected so far are dropped. *)
Lemma looping_rejected st lg fetched goal rest tasksData (b : Backend) error :
  Forall (λ g, ∃ a, b (GET_goal_tasks (Goal.id g)) = Fulfilled a) fetched →
  b (GET_goal_tasks (Goal.id goal)) = Rejected error →
  let c := run (looping st lg (fetched ++ goal :: rest) tasksData)
               (replicate (S (length fetched)) (Settle 0 b)) in
  goals (current c) = goals st
  ∧ tasks (current c) = tasks st
  ∧ subtasks (current c) = subtasks st
  ∧ loading (current c) = false
  ∧ alerts (log c) = alerts lg
  ∧ console_errors (log c) = console_errors lg ++ ["Error fetching tasks data:"]
  ∧ outstanding c = [].
Proof.
  intros Hok Hrej. revert lg tasksData.
  assert (Hrun : ∀ (c : Component State) n i,
             run c (replicate (S n) i) = run (step c i) (replicate n i)) by done.
  induction Hok as [|g fetched [a Ha] _ IH]; intros lg tasksData c; subst c;
    cbn [app length]; rewrite Hrun, looping_settle.
  - rewrite Hrej. cbn.
    unfold alerts, console_errors. rewrite !omap_app. cbn. by rewrite app_nil_r.
  - rewrite Ha.
    destruct (IH (lg ++ [(EvRequest (GET_goal_tasks (Goal.id g)), st)])
                 (<[Goal.id g := a]> tasksData)) as (Hg & Ht & Hs & Hl & Hal & Hce & Ho).
    rewrite Hg, Ht, Hs, Hl, Hal, Hce, Ho.
    unfold alerts, console_errors. rewrite !omap_app. cbn. by rewrite !app_nil_r.
Qed.

End ReadFacts.

Module CalendarReadFacts.
Import Async Calendar CalendarRuns.

Lemma calendar_loop_settle st lg goal rest tasksData (b : Backend) :
  step (looping st lg (goal :: rest) tasksData) (Settle 0 b)
  = match b (GET_goal_tasks (Goal.id goal)) with
    | Fulfilled a =>
        looping st (lg ++ [(EvRequest (GET_goal_tasks (Goal.id goal)), st)]) rest
                (<[Goal.id goal := a]> tasksData)
    | Rejected error =>
        component
          (mkState (currentDate st) (goals st) (tasks st) (selectedDate st) false)
          []
          (lg ++ [(EvRequest (GET_goal_tasks (Goal.id goal)), st);
                  (EvConsoleError "Error fetching calendar data:" error, st)])
    end.
Proof.
  unfold looping. cbn. destruct (b (GET_goal_tasks (Goal.id goal))); cbn.
  - unfold absorb. cbn. by rewrite <- !app_assoc.
  - unfold absorb. cbn. by rewrite <- !app_assoc.
Qed.

(** A rejection inside the loop of the Calendar page: the tasks collected
    so far are dropped. *)
Lemma calendar_loop_rejected st lg fetched goal rest tasksData (b : Backend) error :
  Forall (λ g, ∃ a, b (GET_goal_tasks (Goal.id g)) = Fulfilled a) fetched →
  b (GET_goal_tasks (Goal.id goal)) = Rejected error →
  let c := run (looping st lg (fetched ++ goal :: rest) tasksData)
               (replicate (S (length fetched)) (Settle 0 b)) in
  goals (current c) = goals st
  ∧ tasks (current c) = tasks st
  ∧ currentDate (current c) = currentDate st
  ∧ selectedDate (current c) = selectedDate st
  ∧ loading (current c) = false
  ∧ alerts (log c) = alerts lg
  ∧ console_errors (log c) = console_errors lg ++ ["Error fetching calendar data:"]
  ∧ outstanding c = [].
Proof.
  intros Hok Hrej. revert lg tasksData.
  assert (Hrun : ∀ (c : Component State) n i,
             run c (replicate (S n) i) = run (step c i) (replicate n i)) by done.
  induction Hok as [|g fetched [a Ha] _ IH]; intros lg tasksData c; subst c;
    cbn [app length]; rewrite Hrun, calendar_loop_settle.
  - rewrite Hrej. cbn.
    unfold alerts, console_errors. rewrite !omap_app. cbn. by rewrite app_nil_r.
  - rewrite Ha.
    destruct (IH (lg ++ [(EvRequest (GET_goal_tasks (Goal.id g)), st)])
                 (<[Goal.id g := a]> tasksData))
      as (Hg & Ht & Hd & Hsd & Hl & Hal & Hce & Ho).
    rewrite Hg, Ht, Hd, Hsd, Hl, Hal, Hce, Ho.
    unfold alerts, console_errors. rewrite !omap_app. cbn. by rewrite !app_nil_r.
Qed.

End CalendarReadFacts.

(** C9, as stated, fails on the read paths.  With a goal and its task
    loaded, a rejected refresh leaves the state of the page, and so what it
    shows, exactly as it was; a rejected fetch of the subtasks of the task
    being expanded leaves the cache empty and only marks the task expanded.
    Neither shows a notice: the only trace of the failure is a line on the
    console. *)
Lemma C9_failed_read_is_silent :
  let task := Task.mk "t1" "Week 1" 1 "2026-04-01" "pending" in
  let s := Tasks.mkState [Goal.mk "g1" "Rocq" "" 4 "active"] {["g1" := [task]]}
                         ∅ false ∅ ∅ in
  let rejected := Async.Settle 0 (Async.failing "Network Error") in
  let refresh := Async.run (Async.mounted s)
                   [Async.Trigger (λ _, Tasks.fetchTasksData); rejected] in
  let expand := Async.run (Async.mounted s)
                  [Async.Trigger (λ snap, Tasks.toggleTaskExpansion snap "t1"); rejected] in
  (Async.current refresh = s
   ∧ Async.alerts (Async.log refresh) = []
   ∧ Async.console_errors (Async.log refresh) = ["Error fetching tasks data:"])
  ∧ (Async.current expand
     = Tasks.mkState (Tasks.goals s) (Tasks.tasks s) ∅ false {["t1"]} ∅
     ∧ Async.alerts (Async.log expand) = []
     ∧ Async.console_errors (Async.log expand) = ["Error fetching subtasks:"]).
Proof. by split_and!. Qed.

(** C9, amended.  A rejected mutation (task or subtask status, create or
    delete goal) shows a notice.  A rejected read made by [fetchSubtasks],
    [fetchTasksData], [fetchGoals] or [fetchCalendarData] is written to the
    console and nothing more: no notice, no second request, and the
    collection it was to replace stays as it was (the subtasks for a
    subtask fetch; the goals and the tasks for a rejected fetch of the
    goals; the tasks when a fetch of the tasks of some goal is rejected, the
    goals having been replaced by then, on the Tasks and on the Calendar
    page).  [fetchSubtasks] sends its request
    when the task has no cached entry and its id names no member of
    [Object.prototype], and none otherwise.  One read does show a notice:
    the fetch of the parent's subtasks that follows a successful update of
    a subtask; when it is rejected the notice of a failed update is shown,
    and the cache keeps the old status. *)
Theorem C9_failures_by_path (s : Tasks.State) (g : Goals.State) (cal : Calendar.State)
    (id newStatus error : string) :
  let rejected {S} : Async.Input S := Async.Settle 0 (Async.failing error) in
  let mutation {S} (s : S) (handler : S → Async.Prog S) :=
    Async.alerts (Async.log (Async.run (Async.mounted s)
                               [Async.Trigger handler; rejected])) in
  let subtasksRead := Async.run (Async.mounted s)
      [Async.Trigger (λ snap, Tasks.fetchSubtasks snap id); rejected] in
  let goalsRead := Async.run (Async.mounted s)
      [Async.Trigger (λ _, Tasks.fetchTasksData); rejected] in
  let goalsPageRead := Async.run (Async.mounted g)
      [Async.Trigger (λ _, Goals.fetchGoals); rejected] in
  let calendarRead := Async.run (Async.mounted cal)
      [Async.Trigger (λ _, Calendar.fetchCalendarData); rejected] in
  (mutation s (λ _, Tasks.updateTaskStatus id newStatus)
     = ["Failed to update task status. Please try again."]
   ∧ mutation s (λ snap, Tasks.updateSubtaskStatus snap id newStatus)
     = ["Failed to update subtask status. Please try again."]
   ∧ mutation g Goals.handleCreateGoal = ["Failed to create goal. Please try again."]
   ∧ mutation g (λ _, Goals.handleDeleteGoal true id)
     = ["Failed to delete goal. Please try again."])
  ∧ (Async.current subtasksRead = s
     ∧ Async.alerts (Async.log subtasksRead) = []
     ∧ Async.outstanding subtasksRead = []
     ∧ Async.requests (Async.log subtasksRead)
       = match Tasks.subtasks s !! id with
         | Some _ => []
         | None => if bool_decide (id ∈ Object_prototype) then []
                   else [GET_task_subtasks id]
         end
     ∧ Async.console_errors (Async.log subtasksRead)
       = match Tasks.subtasks s !! id with
         | Some _ => []
         | None => if bool_decide (id ∈ Object_prototype) then []
                   else ["Error fetching subtasks:"]
         end)
  ∧ (Tasks.goals (Async.current goalsRead) = Tasks.goals s
     ∧ Tasks.tasks (Async.current goalsRead) = Tasks.tasks s
     ∧ Tasks.subtasks (Async.current goalsRead) = Tasks.subtasks s
     ∧ Tasks.loading (Async.current goalsRead) = false
     ∧ Async.alerts (Async.log goalsRead) = []
     ∧ Async.console_errors (Async.log goalsRead) = ["Error fetching tasks data:"]
     ∧ Async.requests (Async.log goalsRead) = [GET_goals]
     ∧ Async.outstanding goalsRead = [])
  ∧ (Goals.goals (Async.current goalsPageRead) = Goals.goals g
     ∧ Async.alerts (Async.log goalsPageRead) = []
     ∧ Async.console_errors (Async.log goalsPageRead) = ["Error fetching goals:"]
     ∧ Async.requests (Async.log goalsPageRead) = [GET_goals]
     ∧ Async.outstanding goalsPageRead = [])
  ∧ (Calendar.goals (Async.current calendarRead) = Calendar.goals cal
     ∧ Calendar.tasks (Async.current calendarRead) = Calendar.tasks cal
     ∧ Async.alerts (Async.log calendarRead) = []
     ∧ Async.console_errors (Async.log calendarRead) = ["Error fetching calendar data:"]
     ∧ Async.requests (Async.log calendarRead) = [GET_goals]
     ∧ Async.outstanding calendarRead = [])
  ∧ (∀ (b : Async.Backend) goalsData fetched goal rest,
       b GET_goals = Fulfilled goalsData →
       goalsData = fetched ++ goal :: rest →
       Forall (λ g, ∃ a, b (GET_goal_tasks (Goal.id g)) = Fulfilled a) fetched →
       b (GET_goal_tasks (Goal.id goal)) = Rejected error →
       let c := Async.run (Async.mounted s)
           (Async.Trigger (λ _, Tasks.fetchTasksData)
            :: replicate (S (S (length fetched))) (Async.Settle 0 b)) in
       Tasks.goals (Async.current c) = goalsData
       ∧ Tasks.tasks (Async.current c) = Tasks.tasks s
       ∧ Tasks.subtasks (Async.current c) = Tasks.subtasks s
       ∧ Async.alerts (Async.log c) = []
       ∧ Async.console_errors (Async.log c) = ["Error fetching tasks data:"]
       ∧ Async.outstanding c = [])
  ∧ (∀ (b : Async.Backend) goalsData fetched goal rest,
       b GET_goals = Fulfilled goalsData →
       goalsData = fetched ++ goal :: rest →
       Forall (λ g, ∃ a, b (GET_goal_tasks (Goal.id g)) = Fulfilled a) fetched →
       b (GET_goal_tasks (Goal.id goal)) = Rejected error →
       let c := Async.run (Async.mounted cal)
           (Async.Trigger (λ _, Calendar.fetchCalendarData)
            :: replicate (S (S (length fetched))) (Async.Settle 0 b)) in
       Calendar.goals (Async.current c) = goalsData
       ∧ Calendar.tasks (Async.current c) = Calendar.tasks cal
       ∧ Calendar.currentDate (Async.current c) = Calendar.currentDate cal
       ∧ Async.alerts (Async.log c) = []
       ∧ Async.console_errors (Async.log c) = ["Error fetching calendar data:"]
       ∧ Async.outstanding c = [])
  ∧ (∀ (b : Async.Backend) parentTaskId,
       let holds taskId :=
         ∃ l st, Tasks.subtasks s !! taskId = Some l ∧ st ∈ l ∧ Subtask.id st = id in
       holds parentTaskId →
       (∀ taskId, holds taskId → taskId = parentTaskId) →
       parentTaskId ≠ "" →
       b (PUT_subtask id newStatus) = Fulfilled () →
       b (GET_task_subtasks parentTaskId) = Rejected error →
       let c := Async.run (Async.mounted s)
           [Async.Trigger (λ snap, Tasks.updateSubtaskStatus snap id newStatus);
            Async.Settle 0 b; Async.Settle 0 b] in
       Async.requests (Async.log c)
       = [PUT_subtask id newStatus; GET_task_subtasks parentTaskId]
       ∧ Async.alerts (Async.log c)
         = ["Failed to update subtask status. Please try again."]
       ∧ Async.console_errors (Async.log c) = ["Error updating subtask status:"]
       ∧ Tasks.subtasks (Async.current c) = Tasks.subtasks s
       ∧ Tasks.loadingStates (Async.current c) !! Tasks.subtask_key id = Some false
       ∧ Async.outstanding c = []).
Proof.
  intros rejected mutation subtasksRead goalsRead goalsPageRead calendarRead.
  split_and!; try reflexivity.
  - subst subtasksRead. cbn. unfold Tasks.fetchSubtasks.
    destruct (Tasks.subtasks s !! id); [by destruct s|].
    case_bool_decide; by destruct s.
  - subst subtasksRead. cbn. unfold Tasks.fetchSubtasks.
    destruct (Tasks.subtasks s !! id); [done|]. by case_bool_decide.
  - subst subtasksRead. cbn. unfold Tasks.fetchSubtasks.
    destruct (Tasks.subtasks s !! id); [done|]. by case_bool_decide.
  - subst subtasksRead. cbn. unfold Tasks.fetchSubtasks.
    destruct (Tasks.subtasks s !! id); [done|]. by case_bool_decide.
  - subst subtasksRead. cbn. unfold Tasks.fetchSubtasks.
    destruct (Tasks.subtasks s !! id); [done|]. by case_bool_decide.
  - intros b goalsData fetched goal rest Hgoals -> Hok Hrej c.
    pose (st := Tasks.mkState (fetched ++ goal :: rest) (Tasks.tasks s) (Tasks.subtasks s)
                  (Tasks.loading s) (Tasks.expandedTasks s) (Tasks.loadingStates s)).
    destruct (ReadFacts.looping_rejected st [(Async.EvRequest GET_goals, s)]
                fetched goal rest ∅ b error Hok Hrej)
      as (Hg & Ht & Hs & _ & Hal & Hce & Ho).
    assert (Hc : c = Async.run
      (TasksRuns.looping st [(Async.EvRequest GET_goals, s)] (fetched ++ goal :: rest) ∅)
      (replicate (S (length fetched)) (Async.Settle 0 b))).
    { subst c. cbn [replicate Async.run foldl]. f_equal.
      cbn. rewrite Hgoals. reflexivity. }
    rewrite Hc, Hg, Ht, Hs, Hal, Hce, Ho. done.
  - intros b goalsData fetched goal rest Hgoals -> Hok Hrej c.
    pose (st := Calendar.mkState (Calendar.currentDate cal) (fetched ++ goal :: rest)
                  (Calendar.tasks cal) (Calendar.selectedDate cal) (Calendar.loading cal)).
    destruct (CalendarReadFacts.calendar_loop_rejected st
                [(Async.EvRequest GET_goals, cal)] fetched goal rest ∅ b error Hok Hrej)
      as (Hg & Ht & Hd & _ & _ & Hal & Hce & Ho).
    assert (Hc : c = Async.run
      (CalendarRuns.looping st [(Async.EvRequest GET_goals, cal)]
         (fetched ++ goal :: rest) ∅)
      (replicate (S (length fetched)) (Async.Settle 0 b))).
    { subst c. cbn [replicate Async.run foldl]. f_equal.
      cbn. rewrite Hgoals. reflexivity. }
    rewrite Hc, Hg, Ht, Hd, Hal, Hce, Ho. done.
  - intros b parentTaskId holds Hp Huniq Hne Hput Hget c.
    assert (Hfind : find (Tasks.holds_subtask (Tasks.subtasks s) id)
                         (Object_keys (Tasks.subtasks s)) = Some parentTaskId).
    { apply ParentFacts.find_parent.
      - by apply ParentFacts.holds_subtask_spec.
      - intros taskId Hh. apply Huniq. by apply ParentFacts.holds_subtask_spec in Hh. }
    subst c. cbn. rewrite Hput. cbn. rewrite Hfind. cbn.
    rewrite bool_decide_eq_false_2 by done. cbn. rewrite Hget. cbn.
    split_and!; try done. apply lookup_insert_eq.
Qed.

(** Two goals, and the fetch of the tasks of the second one is rejected: the
    goals are the new ones, the tasks are the old ones, no notice. *)
Lemma C9_failures_by_path_second_goal :
  let g1 := Goal.mk "g1" "Rocq" "" 4 "active" in
  let g2 := Goal.mk "g2" "Lean" "" 2 "active" in
  let old := Task.mk "t1" "Week 1" 1 "2026-04-01" "pending" in
  let s := Tasks.mkState [g1] {["g1" := [old]]} ∅ false ∅ ∅ in
  let b : Async.Backend := λ req,
    match req with
    | GET_goals => Fulfilled [g1; g2]
    | GET_goal_tasks goalId =>
        if decide (goalId = "g1") then Fulfilled [] else Rejected "Network Error"
    | GET_task_subtasks _ => Fulfilled []
    | _ => Fulfilled ()
    end in
  let c := Async.run (Async.mounted s)
             [Async.Trigger (λ _, Tasks.fetchTasksData);
              Async.Settle 0 b; Async.Settle 0 b; Async.Settle 0 b] in
  Tasks.goals (Async.current c) = [g1; g2]
  ∧ Tasks.tasks (Async.current c) = {["g1" := [old]]}
  ∧ Async.alerts (Async.log c) = [].
Proof.
  intros g1 g2 old s b c.
  destruct (C9_failures_by_path s Goals.initial
              (Calendar.mkState None [] ∅ None true) "t1" "completed" "Network Error")
    as (_ & _ & _ & _ & _ & Hloop & _ & _).
  destruct (Hloop b [g1; g2] [g1] g2 []) as (Hg & Ht & _ & Ha & _).
  - reflexivity.
  - reflexivity.
  - repeat constructor. by eexists.
  - reflexivity.
  - by split_and!.
Defined.

(* ===================================================================== *)
(** ** The Calendar page: every view date, cells and highlights *)
(* ===================================================================== *)

Module CalendarViewFacts.
Import JSDate JSDateFacts Async Calendar CalendarFacts CalendarView.
Local Open Scope Z_scope.

(** The year the [Date] constructor builds from [y]. *)
Lemma newDate_any y mo dt :
  newDate (Some y) (Some mo) (Some dt)
  = Some (MakeDay (if decide (0 <= y <= 99) then 1900 + y else y) mo dt * msPerDay).
Proof.
  cbn. destruct (Z.leb_spec 0 y), (Z.leb_spec y 99); cbn;
    case_decide; try done; lia.
Qed.

Lemma getFirstDayOfMonth_any t :
  let y := YearFromDay (Day t) in
  getFirstDayOfMonth (Some t)
  = Some (WeekDay (MakeDay (if decide (0 <= y <= 99) then 1900 + y else y)
                           (MonthFromDay (Day t)) 1)).
Proof.
  intros y. unfold getFirstDayOfMonth.
  cbn [getFullYear getMonth fmap option_fmap option_map]. fold y.
  rewrite newDate_any. cbn [getDay fmap option_fmap option_map].
  by rewrite Day_of_day.
Qed.

Lemma getDaysInMonth_any t :
  let y := YearFromDay (Day t) in
  getDaysInMonth (Some t)
  = Some (DaysInMonth (if decide (0 <= y <= 99) then 1900 + y else y)
                      (MonthFromDay (Day t))).
Proof.
  intros y. unfold getDaysInMonth.
  cbn [getFullYear getMonth fmap option_fmap option_map]. fold y.
  rewrite newDate_any. cbn [getDate fmap option_fmap option_map].
  rewrite Day_of_day.
  destruct (fields_MakeDay (Day t)) as (Hm & _ & _).
  set (yr := if decide (0 <= y <= 99) then 1900 + y else y).
  set (m := MonthFromDay (Day t)) in *.
  rewrite MakeDay_last by done.
  pose proof (DaysInMonth_range yr m).
  by destruct (MakeDay_fields yr m (DaysInMonth yr m)) as (_ & _ & ->); [|lia|].
Qed.

(** The bucket of a valid date, as a filter of the flattened collection. *)
Lemma getTasksForDate_filter parseDate (s : State) (t : Z) :
  getTasksForDate parseDate s (Some t)
  = filter (λ task, Day <$> parseDate (Task.scheduled_date task) = Some (Day t))
           (concat (Object_values (tasks s))).
Proof.
  unfold getTasksForDate.
  rewrite (tasks_loop _
    (λ task, Day <$> parseDate (Task.scheduled_date task) = Some (Day t))); [done|].
  intros task. apply isSameDate_Day.
Qed.

(** A day number is the day [dt] of month [m] of year [y] exactly when
    [MakeDay] builds it from them. *)
Lemma MakeDay_iff y m dt d :
  0 <= m <= 11 → 1 <= dt <= DaysInMonth y m →
  d = MakeDay y m dt ↔ YearFromDay d = y ∧ MonthFromDay d = m ∧ DateFromDay d = dt.
Proof.
  intros Hm Hd. destruct (MakeDay_fields y m dt Hm Hd) as (Hy' & Hm' & Hd').
  split; [by intros ->|]. intros (Hy'' & Hm'' & Hd'').
  apply fields_inj; congruence.
Qed.

(** The day cells of the grid are the days of the month shown. *)
Lemma day_cell_range (t day : Z) :
  let y := YearFromDay (Day t) in
  let m := MonthFromDay (Day t) in
  ¬ (0 <= y <= 99) →
  Some day ∈ calendarDays (Some t) ↔ 1 <= day <= DaysInMonth y m.
Proof.
  intros y m Hy. rewrite calendarDays_shape, getDaysInMonth_any. fold y m.
  rewrite decide_False by done. cbn [iterations from_option].
  pose proof (DaysInMonth_range y m).
  rewrite Z2Nat.id by lia. rewrite elem_of_app. split.
  - intros [Hin|Hin].
    + by apply elem_of_replicate in Hin as [? _].
    + apply list_elem_of_fmap in Hin as (d & [= ->] & Hd).
      apply elem_of_seqZ in Hd. lia.
  - intros Hd. right. apply list_elem_of_fmap. exists day. split; [done|].
    apply elem_of_seqZ. lia.
Qed.

(** A day cell of a view whose year is outside 0..99 matches a valid date
    exactly when that date is the cell's day of the month shown. *)
Lemma cell_matches (t day t' : Z) :
  let y := YearFromDay (Day t) in
  let m := MonthFromDay (Day t) in
  ¬ (0 <= y <= 99) → 1 <= day <= DaysInMonth y m →
  newDate (getFullYear (Some t)) (getMonth (Some t)) (Some day)
  = Some (MakeDay y m day * msPerDay)
  ∧ (Day t' = MakeDay y m day ↔
     YearFromDay (Day t') = y ∧ MonthFromDay (Day t') = m ∧ DateFromDay (Day t') = day).
Proof.
  intros y m Hy Hd. split.
  - cbn [getFullYear getMonth fmap option_fmap option_map]. fold y m.
    by rewrite newDate_any, decide_False.
  - destruct (fields_MakeDay (Day t)) as (Hm & _ & _). by apply MakeDay_iff.
Qed.

(** The parts of a rendered day cell. *)
Lemma renderCell_fields parseDate now (s : State) (d : Z) (c : DayCell) :
  renderCell parseDate now s (Some d) = Some c →
  d ≠ 0
  ∧ CalendarView.day c = d
  ∧ date c = newDate (getFullYear (currentDate s)) (getMonth (currentDate s)) (Some d)
  ∧ dayTasks c = getTasksForDate parseDate s (date c)
  ∧ isToday c = isSameDate (date c) now
  ∧ isSelected c = match selectedDate s with
                   | Some selected => isSameDate (date c) selected
                   | None => false
                   end
  ∧ onClick c = setSelectedDate (Some (date c)).
Proof.
  unfold renderCell. intros Hc.
  destruct d as [|p|p]; [discriminate Hc| |]; injection Hc as <-;
    cbn [CalendarView.day date dayTasks isToday isSelected onClick];
    by split_and!.
Qed.

(** A click on a day cell selects its date and changes nothing else. *)
Lemma click_selects (s : State) (D : Date) :
  current (run (mounted s) [Trigger (λ _, setSelectedDate (Some D))])
  = mkState (currentDate s) (goals s) (tasks s) (Some D) (loading s).
Proof. reflexivity. Qed.

(** The years within the range of [Date]. *)
Lemma year_in_range_years y : year_in_range y ↔ -271820 <= y <= 275759.
Proof.
  unfold year_in_range, daysOfRange, DayFromYear.
  split; [intros [Hlo Hhi]|intros [Hlo Hhi]]; Z.div_mod_to_equations; lia.
Qed.

(** The bucket of a date depends on the tasks of the state only. *)
Lemma getTasksForDate_tasks parseDate (s1 s2 : State) (D : Date) :
  tasks s1 = tasks s2 → getTasksForDate parseDate s1 D = getTasksForDate parseDate s2 D.
Proof. unfold getTasksForDate. by intros ->. Qed.

End CalendarViewFacts.

(** X1.  The grid of every view date in a year within the range of [Date]
    (the years -271820 to 275759): the placeholders and the days are those
    of the month shown in the year the [Date] constructor makes of
    [getFullYear()] (1900 more for the years 0..99, the year itself
    otherwise).  There are at most 6 placeholders, the days run from 1 to
    the length of that month with none left out, and nothing follows them.
    An invalid view date has an empty grid. *)
Theorem calendarDays_of_every_date (t : Z) :
  let y := JSDate.YearFromDay (JSDate.Day t) in
  let m := JSDate.MonthFromDay (JSDate.Day t) in
  let built := if decide (0 ≤ y ≤ 99)%Z then (1900 + y)%Z else y in
  let leadingBlanks := JSDate.WeekDay (JSDate.MakeDay built m 1) in
  let daysInMonth := JSDate.DaysInMonth built m in
  JSDate.year_in_range y →
  Calendar.calendarDays (Some t)
  = replicate (Z.to_nat leadingBlanks) None ++ (Some <$> seqZ 1 daysInMonth)
  ∧ (0 ≤ leadingBlanks ≤ 6)%Z
  ∧ (28 ≤ daysInMonth ≤ 31)%Z
  ∧ Z.of_nat (length (Calendar.calendarDays (Some t))) = (leadingBlanks + daysInMonth)%Z
  ∧ Calendar.calendarDays None = [].
Proof.
  intros y m built leadingBlanks daysInMonth _.
  pose proof (JSDateFacts.WeekDay_range (JSDate.MakeDay built m 1)) as Hw.
  pose proof (JSDateFacts.DaysInMonth_range built m) as Hl.
  fold leadingBlanks in Hw. fold daysInMonth in Hl.
  assert (Hshape : Calendar.calendarDays (Some t)
    = replicate (Z.to_nat leadingBlanks) None ++ (Some <$> seqZ 1 daysInMonth)).
  { rewrite CalendarFacts.calendarDays_shape,
      CalendarViewFacts.getFirstDayOfMonth_any, CalendarViewFacts.getDaysInMonth_any.
    fold y m built leadingBlanks daysInMonth. cbn [Calendar.iterations from_option].
    by rewrite Z2Nat.id by lia. }
  split_and!; [exact Hshape|lia|lia|lia|lia| |reflexivity].
  rewrite Hshape, length_app, length_replicate, length_fmap, length_seqZ. lia.
Qed.

(** X1's example: February 2028, a leap year, starts on a Tuesday: two
    placeholders and 29 days. *)
Lemma calendarDays_of_february_2028 :
  let t := (21224 * 86400000 + 32400000)%Z in
  JSDate.toDateString (Some t) = "Thu Feb 10 2028"
  ∧ Calendar.calendarDays (Some t) = [None; None] ++ (Some <$> seqZ 1 29)
  ∧ length (Calendar.calendarDays (Some t)) = 31%nat.
Proof.
  intros t. split; [vm_compute; reflexivity|].
  destruct (calendarDays_of_every_date t) as (Hcells & _ & _ & _ & _).
  - vm_compute. split; reflexivity.
  - rewrite Hcells. split; vm_compute; reflexivity.
Defined.

Module NavigationFacts.
Import JSDate JSDateFacts Async Calendar CalendarFacts CalendarView.
Local Open Scope Z_scope.

Lemma TimeWithinDay_add_time d t :
  TimeWithinDay (d * msPerDay + TimeWithinDay t) = TimeWithinDay t.
Proof.
  unfold TimeWithinDay, msPerDay.
  rewrite Z.add_comm, Z.mod_add by lia. by rewrite Z.mod_mod by lia.
Qed.

(** Carrying a month index first and moving on from there is moving at
    once. *)
Lemma MakeDay_shift y a b dt :
  MakeDay (y + a / 12) (a mod 12 + b) dt = MakeDay y (a + b) dt.
Proof.
  unfold MakeDay.
  assert (Hq : y + a / 12 + (a mod 12 + b) / 12 = y + (a + b) / 12)
    by (Z.div_mod_to_equations; lia).
  assert (Hr : (a mod 12 + b) mod 12 = (a + b) mod 12)
    by (Z.div_mod_to_equations; lia).
  by rewrite Hq, Hr.
Qed.

(** The time value rebuilt from its day and its time of day. *)
Lemma Day_TimeWithinDay t : Day t * msPerDay + TimeWithinDay t = t.
Proof. unfold Day, TimeWithinDay, msPerDay. Z.div_mod_to_equations. lia. Qed.

Lemma setMonth_moved (t n : Z) :
  setMonth (Some t) ((λ m, m + n) <$> getMonth (Some t)) = Some (moved t n).
Proof.
  unfold setMonth, getMonth, moved.
  cbn [fmap option_fmap option_map mbind option_bind]. reflexivity.
Qed.

Lemma step_navigateMonth (s : State) (t n : Z) :
  currentDate s = Some t →
  step (mounted s) (Trigger (λ snap, navigateMonth snap n))
  = mounted (mkState (Some (moved t n)) (goals s) (tasks s) (selectedDate s) (loading s)).
Proof.
  intros Hs. unfold step, absorb, mounted, navigateMonth, setCurrentDate.
  cbn [current outstanding log sync state events suspended app].
  rewrite Hs, setMonth_moved. reflexivity.
Qed.

(** The fields of the date after a click when the day of the month exists
    in the target month. *)
Lemma moved_fields (t n : Z) :
  let y := YearFromDay (Day t) in
  let m := MonthFromDay (Day t) in
  DateFromDay (Day t) <= DaysInMonth (y + (m + n) / 12) ((m + n) mod 12) →
  YearFromDay (Day (moved t n)) = y + (m + n) / 12
  ∧ MonthFromDay (Day (moved t n)) = (m + n) mod 12
  ∧ DateFromDay (Day (moved t n)) = DateFromDay (Day t)
  ∧ TimeWithinDay (moved t n) = TimeWithinDay t.
Proof.
  intros y m Hd. unfold moved. fold y m.
  rewrite Day_add_time, TimeWithinDay_add_time, MakeDay_carry.
  destruct (fields_MakeDay (Day t)) as (_ & Hdt & _).
  pose proof (Z.mod_pos_bound (m + n) 12).
  destruct (MakeDay_fields (y + (m + n) / 12) ((m + n) mod 12) (DateFromDay (Day t)))
    as (-> & -> & ->); [lia|lia|done].
Qed.

(** Two clicks in a row, the day existing in the month between: one click
    by the sum. *)
Lemma moved_moved (t a b : Z) :
  let y := YearFromDay (Day t) in
  let m := MonthFromDay (Day t) in
  DateFromDay (Day t) <= DaysInMonth (y + (m + a) / 12) ((m + a) mod 12) →
  moved (moved t a) b = moved t (a + b).
Proof.
  intros y m Hd. destruct (moved_fields t a Hd) as (Hy & Hm & Hdt & Htm).
  unfold moved at 1. rewrite Hy, Hm, Hdt, Htm. fold y m.
  rewrite MakeDay_shift. unfold moved. fold y m. by rewrite Z.add_assoc.
Qed.

Lemma moved_0 t : moved t 0 = t.
Proof.
  unfold moved. rewrite Z.add_0_r.
  destruct (fields_MakeDay (Day t)) as (_ & _ & ->). apply Day_TimeWithinDay.
Qed.

Lemma run_navigateMonth (s : State) (t : Z) (clicks : list Z) :
  currentDate s = Some t → DateFromDay (Day t) <= 28 →
  run (mounted s) ((λ n, Trigger (λ snap, navigateMonth snap n)) <$> clicks)
  = mounted (mkState (Some (moved t (foldr Z.add 0 clicks)))
                     (goals s) (tasks s) (selectedDate s) (loading s)).
Proof.
  revert s t. induction clicks as [|n clicks IH]; intros s t Hs Hd.
  - cbn [fmap list_fmap run foldl foldr]. rewrite moved_0, <- Hs. by destruct s.
  - cbn [fmap list_fmap run foldl foldr]. rewrite (step_navigateMonth s t n Hs).
    assert (Hex : DateFromDay (Day t)
                  <= DaysInMonth (YearFromDay (Day t) + (MonthFromDay (Day t) + n) / 12)
                                 ((MonthFromDay (Day t) + n) mod 12)).
    { pose proof (DaysInMonth_range
        (YearFromDay (Day t) + (MonthFromDay (Day t) + n) / 12)
        ((MonthFromDay (Day t) + n) mod 12)). lia. }
    destruct (moved_fields t n Hex) as (_ & _ & Hdt & _).
    unfold run in IH |- *.
    rewrite (IH _ (moved t n)); [|done|by rewrite Hdt].
    cbn [goals tasks selectedDate loading]. by rewrite moved_moved.
Qed.

End NavigationFacts.

(** X2.  In a view whose year is within the range of [Date] and outside
    0..99, the day cells sort the tasks of the month shown by day: the cell of [day] holds exactly the tasks of
    the collection whose parsed [scheduled_date] has the year and the month
    of the view and [day] as its day of the month.  So a task scheduled in
    the month shown is in the cell of its day, which the grid has, and in no
    other cell; a task of another month, or one whose date does not parse, is
    in none. *)
Theorem day_cells_hold_the_tasks_of_the_month (parseDate : string → JSDate.Date)
    (now : JSDate.Date) (s : Calendar.State) (t : Z) :
  let y := JSDate.YearFromDay (JSDate.Day t) in
  let m := JSDate.MonthFromDay (JSDate.Day t) in
  let scheduled task y' m' d' :=
    ∃ t', parseDate (Task.scheduled_date task) = Some t'
          ∧ JSDate.YearFromDay (JSDate.Day t') = y'
          ∧ JSDate.MonthFromDay (JSDate.Day t') = m'
          ∧ JSDate.DateFromDay (JSDate.Day t') = d' in
  Calendar.currentDate s = Some t →
  JSDate.year_in_range y →
  ¬ (0 ≤ y ≤ 99)%Z →
  (∀ day, Some day ∈ Calendar.calendarDays (Calendar.currentDate s) →
     ∃ c, CalendarView.renderCell parseDate now s (Some day) = Some c
          ∧ CalendarView.day c = day
          ∧ ∀ task, task ∈ CalendarView.dayTasks c ↔
                    task ∈ concat (Object_values (Calendar.tasks s))
                    ∧ scheduled task y m day)
  ∧ (∀ task d', task ∈ concat (Object_values (Calendar.tasks s)) →
       scheduled task y m d' →
       Some d' ∈ Calendar.calendarDays (Calendar.currentDate s)).
Proof.
  intros y m scheduled Hs _ Hy. rewrite Hs. split.
  - intros day Hday. apply CalendarViewFacts.day_cell_range in Hday; [|done].
    fold y m in Hday.
    destruct (CalendarViewFacts.cell_matches t day 0 Hy Hday) as [Hdate _].
    fold y m in Hdate.
    unfold CalendarView.renderCell. rewrite Hs, Hdate.
    destruct day as [|p|p]; [lia| |lia].
    eexists. split; [reflexivity|]. cbn [CalendarView.day CalendarView.dayTasks].
    split; [reflexivity|]. intros task.
    rewrite CalendarViewFacts.getTasksForDate_filter, list_elem_of_filter,
      JSDateFacts.Day_of_day.
    split.
    + intros [Hp Hin]. split; [exact Hin|].
      destruct (parseDate (Task.scheduled_date task)) as [t'|] eqn:Hparse;
        [|discriminate Hp].
      injection Hp as Hp. exists t'. split; [exact Hparse|].
      apply (CalendarViewFacts.cell_matches t (Z.pos p) t' Hy Hday). exact Hp.
    + intros [Hin (t' & Hp & Hf)]. split; [|exact Hin]. rewrite Hp.
      cbn [fmap option_fmap option_map]. f_equal.
      apply (CalendarViewFacts.cell_matches t (Z.pos p) t' Hy Hday). exact Hf.
  - intros task d' _ (t' & _ & Hy' & Hm' & Hd').
    apply CalendarViewFacts.day_cell_range; [done|]. fold y m.
    destruct (JSDateFacts.fields_MakeDay (JSDate.Day t')) as (_ & Hr & _).
    by rewrite Hy', Hm', Hd' in Hr.
Qed.

(** April 2026 on the page: the task of the evening of the 1st and the one
    of its noon are in the cell of day 1, and nothing else is. *)
Lemma day_cells_hold_the_tasks_of_april_2026 :
  let parseDate := λ s : string,
    if decide (s = "2026-04-01T23:30") then Some (20544 * 86400000 + 84600000)%Z
    else if decide (s = "2026-04-01T12:00") then Some (20544 * 86400000 + 43200000)%Z
    else if decide (s = "2026-05-01T00:00") then Some (20574 * 86400000)%Z
    else None in
  let evening := Task.mk "t1" "Read" 1 "2026-04-01T23:30" "pending" in
  let noon := Task.mk "t2" "Write" 1 "2026-04-01T12:00" "completed" in
  let may := Task.mk "t3" "Review" 5 "2026-05-01T00:00" "pending" in
  let view := (20560 * 86400000 + 36000000)%Z in
  let s := Calendar.mkState (Some view) [] {["g1" := [evening; noon; may]]} None false in
  JSDate.toDateString (Some view) = "Fri Apr 17 2026"
  ∧ ∃ c, CalendarView.renderCell parseDate (Some view) s (Some 1%Z) = Some c
         ∧ (evening ∈ CalendarView.dayTasks c)
         ∧ (may ∉ CalendarView.dayTasks c).
Proof.
  intros parseDate evening noon may view s.
  split; [by vm_compute|].
  assert (Hy : ¬ (0 ≤ JSDate.YearFromDay (JSDate.Day view) ≤ 99)%Z)
    by (vm_compute; intros [_ H]; by apply H).
  assert (Hrange : JSDate.year_in_range (JSDate.YearFromDay (JSDate.Day view)))
    by (vm_compute; split; reflexivity).
  destruct (day_cells_hold_the_tasks_of_the_month parseDate (Some view) s view
              eq_refl Hrange Hy) as [Hcells _].
  destruct (Hcells 1%Z) as (c & Hc & _ & Htasks).
  { by vm_compute; repeat constructor. }
  exists c. split_and!; [exact Hc| |].
  - apply Htasks. split.
    + vm_compute. apply list_elem_of_here.
    + exists (20544 * 86400000 + 84600000)%Z. by vm_compute.
  - intros [_ (t' & Hp & _ & Hm & _)]%Htasks.
    vm_compute in Hp. injection Hp as <-. by vm_compute in Hm.
Defined.

(** X4.  The two highlights of a day cell, in a view whose year is within
    the range of [Date] and outside 0..99.  The cell of [day] is marked as today exactly when the current
    date falls in the month shown and on [day], and as selected exactly
    when the selected date does; with no date selected no cell is.  A click
    on the cell selects its date: the view date is kept, the side panel
    lists the tasks of the cell, and of the cells of the grid this one alone
    is marked. *)
Theorem day_cell_highlights (parseDate : string → JSDate.Date)
    (s : Calendar.State) (t tnow day : Z) (c : CalendarView.DayCell) :
  let y := JSDate.YearFromDay (JSDate.Day t) in
  let m := JSDate.MonthFromDay (JSDate.Day t) in
  let falls_on t' d :=
    JSDate.YearFromDay (JSDate.Day t') = y ∧ JSDate.MonthFromDay (JSDate.Day t') = m
    ∧ JSDate.DateFromDay (JSDate.Day t') = d in
  Calendar.currentDate s = Some t →
  JSDate.year_in_range y →
  ¬ (0 ≤ y ≤ 99)%Z →
  Some day ∈ Calendar.calendarDays (Calendar.currentDate s) →
  CalendarView.renderCell parseDate (Some tnow) s (Some day) = Some c →
  (CalendarView.isToday c = true ↔ falls_on tnow day)
  ∧ (Calendar.selectedDate s = None → CalendarView.isSelected c = false)
  ∧ (∀ tsel, Calendar.selectedDate s = Some (Some tsel) →
       (CalendarView.isSelected c = true ↔ falls_on tsel day))
  ∧ (let s' := Async.current (Async.run (Async.mounted s)
                 [Async.Trigger (λ _, CalendarView.onClick c)]) in
     Calendar.selectedDate s' = Some (CalendarView.date c)
     ∧ Calendar.currentDate s' = Calendar.currentDate s
     ∧ CalendarView.sidePanel parseDate s' = Some (CalendarView.dayTasks c)
     ∧ ∀ day' c', Some day' ∈ Calendar.calendarDays (Calendar.currentDate s') →
         CalendarView.renderCell parseDate (Some tnow) s' (Some day') = Some c' →
         (CalendarView.isSelected c' = true ↔ day' = day)).
Proof.
  intros y m falls_on Hs _ Hy Hday Hc. rewrite Hs in Hday.
  apply CalendarViewFacts.day_cell_range in Hday; [|exact Hy]. fold y m in Hday.
  assert (Hcell : ∀ d, (1 ≤ d ≤ JSDate.DaysInMonth y m)%Z →
    JSDate.newDate (JSDate.getFullYear (Some t)) (JSDate.getMonth (Some t)) (Some d)
    = Some (JSDate.MakeDay y m d * JSDate.msPerDay)%Z).
  { intros d Hd. by destruct (CalendarViewFacts.cell_matches t d 0 Hy Hd) as [-> _]. }
  assert (Hmatch : ∀ d t', (1 ≤ d ≤ JSDate.DaysInMonth y m)%Z →
    Calendar.isSameDate (Some (JSDate.MakeDay y m d * JSDate.msPerDay)%Z) (Some t') = true
    ↔ falls_on t' d).
  { intros d t' Hd. rewrite CalendarFacts.isSameDate_Day.
    cbn [fmap option_fmap option_map]. rewrite JSDateFacts.Day_of_day.
    destruct (CalendarViewFacts.cell_matches t d t' Hy Hd) as [_ Hiff].
    fold y m in Hiff. unfold falls_on. rewrite <- Hiff.
    split; [intros [= Heq]; by symmetry|intros ->; reflexivity]. }
  apply CalendarViewFacts.renderCell_fields in Hc
    as (_ & _ & Hdate & Htasks & Htoday & Hsel & Hclick).
  rewrite Hs, (Hcell day Hday) in Hdate.
  split_and!.
  - rewrite Htoday, Hdate. by apply Hmatch.
  - intros Hnone. by rewrite Hsel, Hnone.
  - intros tsel Hsome. rewrite Hsel, Hsome, Hdate. by apply Hmatch.
  - intros s'. subst s'. rewrite Hclick, CalendarViewFacts.click_selects.
    cbn [Calendar.currentDate Calendar.selectedDate]. split_and!.
    + reflexivity.
    + reflexivity.
    + unfold CalendarView.sidePanel. cbn [Calendar.selectedDate]. rewrite Htasks.
      apply (f_equal Some), CalendarViewFacts.getTasksForDate_tasks. reflexivity.
    + intros day' c'. rewrite Hs. intros Hday' Hc'.
      apply CalendarViewFacts.day_cell_range in Hday'; [|exact Hy]. fold y m in Hday'.
      apply CalendarViewFacts.renderCell_fields in Hc'
        as (_ & _ & Hdate' & _ & _ & Hsel' & _).
      cbn [Calendar.currentDate Calendar.selectedDate] in Hdate', Hsel'.
      rewrite (Hcell day' Hday') in Hdate'.
      rewrite Hsel', Hdate', Hdate, (Hmatch day' _ Hday').
      unfold falls_on. rewrite JSDateFacts.Day_of_day.
      destruct (JSDateFacts.fields_MakeDay (JSDate.Day t)) as (Hm & _ & _). fold m in Hm.
      destruct (JSDateFacts.MakeDay_fields y m day Hm Hday) as (-> & -> & ->).
      split; [by intros (_ & _ & <-)|by intros ->].
Qed.

(** On 17 April 2026, with April 2026 shown and no date selected, the cell
    of day 17 is the one marked as today, and it is not marked as
    selected. *)
Lemma day_cell_highlights_april_17 :
  let view := (20560 * 86400000 + 36000000)%Z in
  let s := Calendar.mkState (Some view) [] ∅ None false in
  ∃ c, CalendarView.renderCell (λ _, None) (Some view) s (Some 17%Z) = Some c
       ∧ CalendarView.isToday c = true
       ∧ CalendarView.isSelected c = false.
Proof.
  intros view s.
  destruct (CalendarView.renderCell (λ _, None) (Some view) s (Some 17%Z))
    as [c|] eqn:Hc; [|by vm_compute in Hc].
  assert (Hy : ¬ (0 ≤ JSDate.YearFromDay (JSDate.Day view) ≤ 99)%Z)
    by (vm_compute; intros [_ H]; by apply H).
  assert (Hrange : JSDate.year_in_range (JSDate.YearFromDay (JSDate.Day view)))
    by (vm_compute; split; reflexivity).
  destruct (day_cell_highlights (λ _, None) s view view 17 c eq_refl Hrange Hy)
    as (Htoday & Hnone & _).
  - vm_compute. repeat constructor.
  - exact Hc.
  - exists c. split_and!; [reflexivity| |by apply Hnone].
    apply Htoday. by vm_compute.
Defined.





(** X7's example: from 31 December 2026 one step forward shows January
    2027, and from 31 January 2026 one step back shows December 2025. *)
Lemma navigateMonth_year_boundary_2026 :
  let december := (20818 * 86400000)%Z in
  let january := (20484 * 86400000)%Z in
  let after t n :=
    Calendar.currentDate (Async.current (Async.run
      (Async.mounted (Calendar.mkState (Some t) [] ∅ None false))
      [Async.Trigger (λ snap, Calendar.navigateMonth snap n)])) in
  (JSDate.toDateString (Some december) = "Thu Dec 31 2026"
   ∧ JSDate.getFullYear (after december 1%Z) = Some 2027%Z
   ∧ JSDate.getMonth (after december 1%Z) = Some 0%Z)
  ∧ (JSDate.toDateString (Some january) = "Sat Jan 31 2026"
     ∧ JSDate.getFullYear (after january (-1)%Z) = Some 2025%Z
     ∧ JSDate.getMonth (after january (-1)%Z) = Some 11%Z).
Proof.
  intros december january after. split.
  - destruct (navigateMonth_year_boundary
                (Calendar.mkState (Some december) [] ∅ None false) december eq_refl)
      as [Hdec _].
    destruct Hdec as [Hy Hm]; [vm_compute; reflexivity|].
    split; [vm_compute; reflexivity|]. subst after. cbv beta. rewrite Hy, Hm.
    clear. split; vm_compute; reflexivity.
  - destruct (navigateMonth_year_boundary
                (Calendar.mkState (Some january) [] ∅ None false) january eq_refl)
      as [_ Hjan].
    destruct Hjan as [Hy Hm]; [vm_compute; reflexivity|].
    split; [vm_compute; reflexivity|]. subst after. cbv beta. rewrite Hy, Hm.
    clear. split; vm_compute; reflexivity.
Defined.

(* ===================================================================== *)
(** ** The Tasks page: rows, badges and expansion *)
(* ===================================================================== *)

Module TasksViewFacts.
Import Async Tasks TasksView.
Local Open Scope Z_scope.

Lemma insert_by_week_Permutation task l : insert_by_week task l ≡ₚ task :: l.
Proof.
  induction l as [|b l IH]; cbn [insert_by_week]; [done|].
  destruct (Z.leb_spec (Task.week_number task - Task.week_number b) 0); [done|].
  rewrite IH. apply Permutation_swap.
Qed.

Lemma insert_by_week_sorted task l :
  StronglySorted ascending_weeks l →
  StronglySorted ascending_weeks (insert_by_week task l).
Proof.
  induction 1 as [|b l Hl IH Hb]; cbn [insert_by_week].
  - repeat constructor.
  - destruct (Z.leb_spec (Task.week_number task - Task.week_number b) 0) as [Hle|Hgt].
    + constructor; [by constructor|]. constructor; [unfold ascending_weeks; lia|].
      eapply Forall_impl; [exact Hb|]. unfold ascending_weeks. intros c Hc. lia.
    + constructor; [exact IH|].
      rewrite insert_by_week_Permutation.
      constructor; [unfold ascending_weeks; lia|exact Hb].
Qed.

(** Insertion keeps the order of the tasks of every week: the new task goes
    in front of the tasks of its own week. *)
Lemma insert_by_week_filter task l w :
  StronglySorted ascending_weeks l →
  filter (λ a, Task.week_number a = w) (insert_by_week task l)
  = filter (λ a, Task.week_number a = w) (task :: l).
Proof.
  induction 1 as [|b l Hl IH Hb]; cbn [insert_by_week]; [done|].
  destruct (Z.leb_spec (Task.week_number task - Task.week_number b) 0) as [Hle|Hgt]; [done|].
  rewrite filter_cons, IH, !filter_cons.
  unfold ascending_weeks in Hb.
  destruct (decide (Task.week_number b = w)), (decide (Task.week_number task = w)); try done. lia.
Qed.

Lemma sort_by_week_sorted l :
  StronglySorted ascending_weeks (sort_by_week l).
Proof.
  induction l as [|a l IH]; cbn; [constructor|]. by apply insert_by_week_sorted.
Qed.

Lemma sort_by_week_Permutation l : sort_by_week l ≡ₚ l.
Proof.
  induction l as [|a l IH]; cbn; [done|]. by rewrite insert_by_week_Permutation, IH.
Qed.

Lemma sort_by_week_filter l w :
  filter (λ a, Task.week_number a = w) (sort_by_week l) = filter (λ a, Task.week_number a = w) l.
Proof.
  induction l as [|a l IH]; cbn [sort_by_week foldr]; [done|].
  rewrite insert_by_week_filter by apply sort_by_week_sorted.
  fold (sort_by_week l). by rewrite !filter_cons, IH.
Qed.

(** Two arrangements in ascending Task.week_number order that list the tasks of every
    Task.week_number alike are the same list. *)
Lemma sorted_stable_unique (l1 l2 : list Task.t) :
  StronglySorted ascending_weeks l1 →
  StronglySorted ascending_weeks l2 →
  (∀ w, filter (λ a, Task.week_number a = w) l1 = filter (λ a, Task.week_number a = w) l2) →
  l1 = l2.
Proof.
  intros H1. revert l2. induction H1 as [|a l1 Hl1 IH Ha]; intros l2 H2 Hf.
  - destruct l2 as [|b l2]; [done|].
    specialize (Hf (Task.week_number b)). by rewrite filter_nil, filter_cons_True in Hf.
  - destruct H2 as [|b l2 Hl2 Hb].
    { specialize (Hf (Task.week_number a)). by rewrite filter_nil, filter_cons_True in Hf. }
    unfold ascending_weeks in Ha, Hb.
    assert (Hab : Task.week_number a <= Task.week_number b).
    { assert (Hin : b ∈ a :: l1).
      { assert (Hin : b ∈ filter (λ x, Task.week_number x = Task.week_number b) (a :: l1)).
        { rewrite Hf, filter_cons_True by done. apply list_elem_of_here. }
        by apply list_elem_of_filter in Hin as [_ ?]. }
      apply elem_of_cons in Hin as [->|Hin]; [done|].
      by apply (proj1 (Forall_forall _ _) Ha). }
    assert (Hba : Task.week_number b <= Task.week_number a).
    { assert (Hin : a ∈ b :: l2).
      { assert (Hin : a ∈ filter (λ x, Task.week_number x = Task.week_number a) (b :: l2)).
        { rewrite <- Hf, filter_cons_True by done. apply list_elem_of_here. }
        by apply list_elem_of_filter in Hin as [_ ?]. }
      apply elem_of_cons in Hin as [->|Hin]; [done|].
      by apply (proj1 (Forall_forall _ _) Hb). }
    assert (Hw : Task.week_number a = Task.week_number b) by lia.
    pose proof (Hf (Task.week_number a)) as Hfa.
    rewrite filter_cons_True, (filter_cons_True _ b) in Hfa by done.
    injection Hfa as -> Hfa. f_equal. apply IH; [done|]. intros w.
    destruct (decide (Task.week_number b = w)) as [<-|Hne]; [done|].
    specialize (Hf w). by rewrite !filter_cons_False in Hf.
Qed.

End TasksViewFacts.


Module StatusFacts.
Import Async Tasks TasksView.

Lemma offers_spec status target :
  offers status target ↔
  (status ≠ "completed" ∧ target = "completed")
  ∨ (status = "pending" ∧ target = "in_progress")
  ∨ (status = "in_progress" ∧ target = "pending").
Proof.
  unfold offers, getStatusActions. split.
  - intros (b & Hb & <-). repeat case_decide; cbn in Hb.
    all: repeat (apply elem_of_cons in Hb as [->|Hb]); try by apply elem_of_nil in Hb.
    all: cbn; subst; auto.
  - intros [[Hs ->]|[[-> ->]|[-> ->]]].
    + exists (mkButton "complete" "completed" false). split; [|reflexivity].
      repeat case_decide; try done; cbn; apply list_elem_of_here.
    + exists (mkButton "start" "in_progress" false). split; [|reflexivity].
      cbn. apply list_elem_of_further, list_elem_of_here.
    + exists (mkButton "pause" "pending" false). split; [|reflexivity].
      cbn. apply list_elem_of_further, list_elem_of_here.
Qed.

Lemma replace_absent pattern replacement s :
  pattern ∉ String.list_ascii_of_string s → replace pattern replacement s = s.
Proof.
  induction s as [|c s IH]; cbn [replace String.list_ascii_of_string]; [done|].
  rewrite not_elem_of_cons. intros [Hne Hs].
  destruct (Ascii.eqb_spec c pattern); [congruence|]. by rewrite IH.
Qed.

Lemma replace_first pattern replacement before after :
  pattern ∉ String.list_ascii_of_string before →
  replace pattern replacement (before +:+ String pattern after)
  = before +:+ String replacement after.
Proof.
  induction before as [|c s IH]; cbn [String.list_ascii_of_string].
  - intros _. rewrite !StringFacts.append_nil. cbn [replace].
    by rewrite Ascii.eqb_refl.
  - rewrite not_elem_of_cons. intros [Hne Hs].
    rewrite !StringFacts.append_cons. cbn [replace].
    destruct (Ascii.eqb_spec c pattern); [congruence|]. by rewrite IH.
Qed.

Lemma replace_length pattern replacement s :
  String.length (replace pattern replacement s) = String.length s.
Proof.
  induction s as [|c s IH]; cbn [replace String.length]; [done|].
  destruct (Ascii.eqb c pattern); cbn [String.length]; by rewrite ?IH.
Qed.

End StatusFacts.

(** X9.  The text of a status badge is the status with its first underscore
    turned into a space and nothing else changed: a status without an
    underscore is shown as it is, what follows the first underscore is kept,
    later underscores included, and the length is the same.  The four
    statuses read "pending", "in progress", "completed" and "cancelled". *)
Theorem statusText_replaces_the_first_underscore :
  (∀ status, "_"%char ∉ String.list_ascii_of_string status →
             TasksView.statusText status = status)
  ∧ (∀ before after, "_"%char ∉ String.list_ascii_of_string before →
       TasksView.statusText (before +:+ "_" +:+ after) = before +:+ " " +:+ after)
  ∧ (∀ status, String.length (TasksView.statusText status) = String.length status)
  ∧ TasksView.statusText <$> ["pending"; "in_progress"; "completed"; "cancelled"]
    = ["pending"; "in progress"; "completed"; "cancelled"]
  ∧ TasksView.statusText "not_yet_started" = "not yet_started".
Proof.
  split_and!; try reflexivity.
  - intros status. apply StatusFacts.replace_absent.
  - intros before after Hb.
    rewrite !StringFacts.append_cons, !StringFacts.append_nil.
    by apply StatusFacts.replace_first.
  - intros status. apply StatusFacts.replace_length.
Qed.

(** X10.  The statuses the buttons can ask for.  A button never asks for the
    status the entity has, and asks for "completed", "in_progress" or
    "pending" only.  So no sequence of clicks leads to "cancelled" from
    another status, or out of "completed", for which no button is offered;
    "complete" is offered for every other status, and "start" and "pause"
    undo each other. *)
Theorem offered_statuses :
  (∀ status target, TasksView.offers status target →
     target ≠ status ∧ target ∈ ["completed"; "in_progress"; "pending"])
  ∧ (∀ status target, rtc TasksView.offers status target →
       target = status ∨ target ∈ ["completed"; "in_progress"; "pending"])
  ∧ (∀ status, rtc TasksView.offers status "cancelled" → status = "cancelled")
  ∧ (∀ target, rtc TasksView.offers "completed" target → target = "completed")
  ∧ (∀ status, status ≠ "completed" → TasksView.offers status "completed")
  ∧ TasksView.offers "pending" "in_progress"
  ∧ TasksView.offers "in_progress" "pending"
  ∧ (∀ status, TasksView.offers "pending" status →
               TasksView.offers status "pending" → status = "in_progress").
Proof.
  assert (Hstep : ∀ status target, TasksView.offers status target →
    target ≠ status ∧ target ∈ ["completed"; "in_progress"; "pending"]).
  { intros status target [[Hs ->]|[[-> ->]|[-> ->]]]%StatusFacts.offers_spec.
    - split; [congruence|apply list_elem_of_here].
    - split; [discriminate|apply list_elem_of_further, list_elem_of_here].
    - split; [discriminate|]. do 2 apply list_elem_of_further. apply list_elem_of_here. }
  assert (Hrtc : ∀ status target, rtc TasksView.offers status target →
    target = status ∨ target ∈ ["completed"; "in_progress"; "pending"]).
  { intros status target Hr. apply rtc_inv_r in Hr as [->|(mid & _ & Hlast)]; [by left|].
    right. by apply Hstep in Hlast as [_ ?]. }
  split_and!.
  - exact Hstep.
  - exact Hrtc.
  - intros status [Heq|Hin]%Hrtc; [done|].
    repeat (apply elem_of_cons in Hin as [Hin|Hin]; [discriminate Hin|]).
    by apply elem_of_nil in Hin.
  - intros target Hr. apply rtc_inv in Hr as [->|(mid & Hfirst & _)]; [done|].
    apply StatusFacts.offers_spec in Hfirst as [[? _]|[[? _]|[? _]]]; done.
  - intros status Hs. apply StatusFacts.offers_spec. by left.
  - apply StatusFacts.offers_spec. right. by left.
  - apply StatusFacts.offers_spec. right. by right.
  - intros status [[? ->]|[[_ ->]|[? _]]]%StatusFacts.offers_spec; [|done|done].
    intros [[_ ?]|[[? _]|[? _]]]%StatusFacts.offers_spec; done.
Qed.

(* ===================================================================== *)
(** ** The Tasks page: a refresh that succeeds *)
(* ===================================================================== *)

Module RefreshFacts.
Import Async Tasks TasksRuns.

(** The requests of the loop, as they are logged. *)
Lemma requests_of_loop (st : State) (goalsData : list Goal.t) :
  requests ((λ g, (EvRequest (GET_goal_tasks (Goal.id g)), st)) <$> goalsData)
  = (λ g, GET_goal_tasks (Goal.id g)) <$> goalsData.
Proof. induction goalsData as [|g l IH]; [done|]. cbn. by f_equal. Qed.

Lemma alerts_of_loop (st : State) (goalsData : list Goal.t) :
  alerts ((λ g, (EvRequest (GET_goal_tasks (Goal.id g)), st)) <$> goalsData) = [].
Proof. induction goalsData as [|g l IH]; [done|]. by cbn. Qed.

Lemma console_errors_of_loop (st : State) (goalsData : list Goal.t) :
  console_errors ((λ g, (EvRequest (GET_goal_tasks (Goal.id g)), st)) <$> goalsData) = [].
Proof. induction goalsData as [|g l IH]; [done|]. by cbn. Qed.

(** The loop after the answers for [fetched]: it waits for the next goal. *)
Lemma looping_progress st lg fetched rest tasksData (b : Backend)
    (answers : string → list Task.t) :
  Forall (λ g, b (GET_goal_tasks (Goal.id g)) = Fulfilled (answers (Goal.id g))) fetched →
  run (looping st lg (fetched ++ rest) tasksData)
      (replicate (length fetched) (Settle 0 b))
  = looping st
      (lg ++ ((λ g, (EvRequest (GET_goal_tasks (Goal.id g)), st)) <$> fetched))
      rest
      (foldl (λ acc g, <[Goal.id g := answers (Goal.id g)]> acc) tasksData fetched).
Proof.
  intros Hok. revert lg tasksData.
  induction Hok as [|g fetched Hg _ IH]; intros lg tasksData.
  - cbn. by rewrite app_nil_r.
  - cbn [app length replicate run foldl fmap list_fmap].
    rewrite ReadFacts.looping_settle, Hg. unfold run in IH. rewrite IH.
    by rewrite <- app_assoc.
Qed.

Lemma looping_done st lg tasksData :
  looping st lg [] tasksData
  = component (mkState (goals st) tasksData (subtasks st) false
                       (expandedTasks st) (loadingStates st)) [] lg.
Proof. unfold looping, absorb. cbn. by rewrite app_nil_r. Qed.

Lemma looping_waits st lg goal rest tasksData :
  request <$> outstanding (looping st lg (goal :: rest) tasksData)
  = [GET_goal_tasks (Goal.id goal)].
Proof. reflexivity. Qed.

(** The tasks collected by the loop, entry by entry. *)
Lemma collected_lookup (answers : string → list Task.t) (goalsData : list Goal.t)
    (tasksData : gmap string (list Task.t)) (goalId : string) :
  foldl (λ acc g, <[Goal.id g := answers (Goal.id g)]> acc) tasksData goalsData !! goalId
  = if decide (goalId ∈ Goal.id <$> goalsData) then Some (answers goalId)
    else tasksData !! goalId.
Proof.
  revert tasksData. induction goalsData as [|g l IH]; intros tasksData; cbn [foldl].
  - rewrite decide_False; [done|]. cbn. apply not_elem_of_nil.
  - rewrite IH. cbn [fmap list_fmap].
    destruct (decide (goalId ∈ Goal.id <$> l)) as [Hin|Hnotin].
    + rewrite decide_True; [done|]. by apply list_elem_of_further.
    + destruct (decide (goalId = Goal.id g)) as [->|Hne].
      * rewrite lookup_insert_eq, decide_True; [done|]. apply list_elem_of_here.
      * rewrite lookup_insert_ne by done. rewrite decide_False; [done|].
        rewrite not_elem_of_cons. done.
Qed.

(** A refresh whose answer to the goals has arrived is the loop. *)
Lemma refresh_is_looping (c : Component State) (k : nat) (b : Backend) goalsData t :
  outstanding c !! k = Some t →
  suspended (sync fetchTasksData (current c)) = [t] →
  b GET_goals = Fulfilled goalsData →
  delete k (outstanding c) = [] →
  step c (Settle k b)
  = looping (mkState goalsData (tasks (current c)) (subtasks (current c))
                     (loading (current c)) (expandedTasks (current c))
                     (loadingStates (current c)))
            (log c) goalsData ∅.
Proof.
  intros Hk Ht Hb Hrest. cbn [step]. rewrite Hk, Hrest.
  cbn in Ht. injection Ht as <-. cbn [request resume]. rewrite Hb.
  unfold looping, absorb. cbn. reflexivity.
Qed.

End RefreshFacts.

(** X11.  A refresh of the Tasks page that the backend answers in full.  The
    goals are asked for first and the tasks of each goal after them, in the
    order of the goals and one at a time: the request for a goal goes out
    when the answers for the goals before it have arrived.  At the end the
    goals are the ones received, and the page holds tasks for exactly these
    goals: for each of them the tasks received, in an order that is not
    stated (the render sorts the list it is given in place), shown in rows
    by ascending week; entries of goals that are no longer listed are gone.
    The cached subtasks, the expanded rows and the flags are left alone, and
    the page stops showing that it is loading.  No goal received has the id
    [__proto__], under which an assignment stores no entry. *)
Theorem fetchTasksData_replaces_goals_and_tasks (s : Tasks.State) (b : Async.Backend)
    (goalsData : list Goal.t) (answers : string → list Task.t) :
  let after n := Async.run (Async.mounted s)
      (Async.Trigger (λ _, Tasks.fetchTasksData) :: replicate n (Async.Settle 0 b)) in
  let c := after (S (length goalsData)) in
  b GET_goals = Fulfilled goalsData →
  "__proto__" ∉ Goal.id <$> goalsData →
  (∀ g, g ∈ goalsData →
        b (GET_goal_tasks (Goal.id g)) = Fulfilled (answers (Goal.id g))) →
  Tasks.goals (Async.current c) = goalsData
  ∧ (∀ goalId, goalId ∉ Goal.id <$> goalsData →
               Tasks.tasks (Async.current c) !! goalId = None)
  ∧ (∀ goal, goal ∈ goalsData →
       ∃ kept, Tasks.tasks (Async.current c) !! Goal.id goal = Some kept
               ∧ kept ≡ₚ answers (Goal.id goal)
               ∧ TasksView.taskRows (Async.current c) goal
                 = TasksView.sort_by_week (answers (Goal.id goal)))
  ∧ Tasks.loading (Async.current c) = false
  ∧ Tasks.subtasks (Async.current c) = Tasks.subtasks s
  ∧ Tasks.expandedTasks (Async.current c) = Tasks.expandedTasks s
  ∧ Tasks.loadingStates (Async.current c) = Tasks.loadingStates s
  ∧ Async.requests (Async.log c)
    = GET_goals :: ((λ g, GET_goal_tasks (Goal.id g)) <$> goalsData)
  ∧ Async.alerts (Async.log c) = []
  ∧ Async.console_errors (Async.log c) = []
  ∧ Async.outstanding c = []
  ∧ Async.request <$> Async.outstanding (after 0) = [GET_goals]
  ∧ (∀ fetched goal rest, goalsData = fetched ++ goal :: rest →
       Async.request <$> Async.outstanding (after (S (length fetched)))
       = [GET_goal_tasks (Goal.id goal)]).
Proof.
  intros after c Hgoals _ Hanswers.
  pose (st := Tasks.mkState goalsData (Tasks.tasks s) (Tasks.subtasks s)
                (Tasks.loading s) (Tasks.expandedTasks s) (Tasks.loadingStates s)).
  assert (Hstart : ∀ n, after (S n)
    = Async.run (TasksRuns.looping st [(Async.EvRequest GET_goals, s)] goalsData ∅)
                (replicate n (Async.Settle 0 b))).
  { intros n. subst after. cbv beta. cbn [replicate Async.run foldl]. f_equal.
    cbn. rewrite Hgoals. reflexivity. }
  assert (Hpart : ∀ fetched rest, goalsData = fetched ++ rest →
    after (S (length fetched))
    = TasksRuns.looping st
        ([(Async.EvRequest GET_goals, s)]
         ++ ((λ g, (Async.EvRequest (GET_goal_tasks (Goal.id g)), st)) <$> fetched))
        rest
        (foldl (λ acc g, <[Goal.id g := answers (Goal.id g)]> acc) ∅ fetched)).
  { intros fetched rest Heq. rewrite Hstart.
    rewrite Heq. apply RefreshFacts.looping_progress.
    apply Forall_forall. intros g Hg. apply Hanswers. rewrite Heq.
    apply elem_of_app. by left. }
  assert (Hc : c = Async.component
    (Tasks.mkState goalsData
       (foldl (λ acc g, <[Goal.id g := answers (Goal.id g)]> acc) ∅ goalsData)
       (Tasks.subtasks s) false (Tasks.expandedTasks s) (Tasks.loadingStates s))
    []
    ([(Async.EvRequest GET_goals, s)]
     ++ ((λ g, (Async.EvRequest (GET_goal_tasks (Goal.id g)), st)) <$> goalsData))).
  { subst c. rewrite (Hpart goalsData []) by by rewrite app_nil_r.
    by rewrite RefreshFacts.looping_done. }
  rewrite Hc. cbn [Async.current Async.log Async.outstanding Tasks.goals Tasks.tasks
                   Tasks.loading Tasks.subtasks Tasks.expandedTasks Tasks.loadingStates].
  split_and!; try reflexivity.
  - intros goalId Hnot.
    by rewrite RefreshFacts.collected_lookup, lookup_empty, decide_False.
  - intros goal Hgoal. exists (answers (Goal.id goal)).
    assert (Hkept : foldl (λ acc g, <[Goal.id g := answers (Goal.id g)]> acc)
                          (∅ : gmap string (list Task.t)) goalsData !! Goal.id goal
                    = Some (answers (Goal.id goal))).
    { rewrite RefreshFacts.collected_lookup, decide_True; [done|].
      apply list_elem_of_fmap. by exists goal. }
    split; [exact Hkept|]. split; [reflexivity|].
    unfold TasksView.taskRows, TasksView.goalTasks. cbn [Tasks.tasks].
    by rewrite Hkept.
  - cbn. f_equal. apply RefreshFacts.requests_of_loop.
  - cbn. apply RefreshFacts.alerts_of_loop.
  - cbn. apply RefreshFacts.console_errors_of_loop.
  - intros fetched goal rest Heq. rewrite (Hpart fetched (goal :: rest) Heq).
    apply RefreshFacts.looping_waits.
Qed.

(** Two goals, one of them new, and a goal that was deleted: after the
    refresh the deleted goal's tasks are gone and both goals have theirs. *)
Lemma fetchTasksData_replaces_two_goals :
  let g1 := Goal.mk "g1" "Rocq" "" 4 "active" in
  let g2 := Goal.mk "g2" "Lean" "" 2 "active" in
  let old := Task.mk "t0" "Week 1" 1 "2026-03-01" "completed" in
  let t1 := Task.mk "t1" "Week 1" 1 "2026-04-01" "pending" in
  let t2 := Task.mk "t2" "Week 1" 1 "2026-04-02" "pending" in
  let s := Tasks.mkState [Goal.mk "g0" "Old" "" 1 "active"] {["g0" := [old]]}
             ∅ true ∅ ∅ in
  let answers := λ goalId : string, if decide (goalId = "g1") then [t1] else [t2] in
  let b : Async.Backend := λ req,
    match req with
    | GET_goals => Fulfilled [g1; g2]
    | GET_goal_tasks goalId => Fulfilled (answers goalId)
    | GET_task_subtasks _ => Fulfilled []
    | _ => Fulfilled ()
    end in
  let c := Async.run (Async.mounted s)
             [Async.Trigger (λ _, Tasks.fetchTasksData);
              Async.Settle 0 b; Async.Settle 0 b; Async.Settle 0 b] in
  Tasks.goals (Async.current c) = [g1; g2]
  ∧ Tasks.tasks (Async.current c) !! "g0" = None
  ∧ Tasks.tasks (Async.current c) !! "g1" = Some [t1]
  ∧ TasksView.taskRows (Async.current c) g2 = [t2]
  ∧ Async.requests (Async.log c) = [GET_goals; GET_goal_tasks "g1"; GET_goal_tasks "g2"].
Proof.
  intros g1 g2 old t1 t2 s answers b c.
  destruct (fetchTasksData_replaces_goals_and_tasks s b [g1; g2] answers eq_refl)
    as (Hg & Hgone & Ht & _ & _ & _ & _ & Hr & _).
  - apply (bool_decide_eq_false_1 ("__proto__" ∈ Goal.id <$> [g1; g2])).
    vm_compute. reflexivity.
  - intros g _. reflexivity.
  - cbn [length replicate] in Hgone, Ht. split_and!; [exact Hg| | | |exact Hr].
    + subst c. apply Hgone.
      apply (bool_decide_eq_false_1 ("g0" ∈ Goal.id <$> [g1; g2])).
      vm_compute. reflexivity.
    + destruct (Ht g1) as (kept & Hkept & Hperm & _); [apply list_elem_of_here|].
      subst c. etransitivity; [exact Hkept|]. f_equal.
      by apply Permutation_singleton_r.
    + destruct (Ht g2) as (_ & _ & _ & Hrows);
        [apply list_elem_of_further, list_elem_of_here|].
      subst c. rewrite Hrows. reflexivity.
Defined.

(** X12.  An update of a task status that succeeds.  When the answer to the
    update comes, the flag of the task is cleared at once and the refresh is
    started and not waited for: the goals and the tasks on the page are
    still the old ones, with the old status; no notice is shown.  The page
    never writes the new status itself: what it shows once the refresh has
    been answered is what the backend sent, each goal's tasks in rows by
    ascending week (the order in which the page keeps them is not stated).
    The cached subtasks are not refreshed.  No goal received has the id
    [__proto__], under which an assignment stores no entry. *)
Theorem updateTaskStatus_then_refresh (s : Tasks.State) (b : Async.Backend)
    (id newStatus : string) (goalsData : list Goal.t) (answers : string → list Task.t) :
  let answered := Async.run (Async.mounted s)
      [Async.Trigger (λ _, Tasks.updateTaskStatus id newStatus); Async.Settle 0 b] in
  let c := Async.run answered (replicate (S (length goalsData)) (Async.Settle 0 b)) in
  b (PUT_task id newStatus) = Fulfilled () →
  b GET_goals = Fulfilled goalsData →
  "__proto__" ∉ Goal.id <$> goalsData →
  (∀ g, g ∈ goalsData →
        b (GET_goal_tasks (Goal.id g)) = Fulfilled (answers (Goal.id g))) →
  (Tasks.goals (Async.current answered) = Tasks.goals s
   ∧ Tasks.tasks (Async.current answered) = Tasks.tasks s
   ∧ Tasks.loadingStates (Async.current answered) !! Tasks.task_key id = Some false
   ∧ Async.request <$> Async.outstanding answered = [GET_goals]
   ∧ Async.requests (Async.log answered) = [PUT_task id newStatus; GET_goals]
   ∧ Async.alerts (Async.log answered) = [])
  ∧ (Tasks.goals (Async.current c) = goalsData
     ∧ (∀ goalId, goalId ∉ Goal.id <$> goalsData →
                  Tasks.tasks (Async.current c) !! goalId = None)
     ∧ (∀ goal, goal ∈ goalsData →
          ∃ kept, Tasks.tasks (Async.current c) !! Goal.id goal = Some kept
                  ∧ kept ≡ₚ answers (Goal.id goal)
                  ∧ TasksView.taskRows (Async.current c) goal
                    = TasksView.sort_by_week (answers (Goal.id goal)))
     ∧ Tasks.subtasks (Async.current c) = Tasks.subtasks s
     ∧ Tasks.loadingStates (Async.current c) !! Tasks.task_key id = Some false
     ∧ Async.requests (Async.log c)
       = PUT_task id newStatus :: GET_goals
         :: ((λ g, GET_goal_tasks (Goal.id g)) <$> goalsData)
     ∧ Async.alerts (Async.log c) = []
     ∧ Async.outstanding c = []).
Proof.
  intros answered c Hput Hgoals _ Hanswers.
  pose (flags := <[Tasks.task_key id := false]>
                   (<[Tasks.task_key id := true]> (Tasks.loadingStates s))).
  pose (sent := Tasks.mkState (Tasks.goals s) (Tasks.tasks s) (Tasks.subtasks s)
                  (Tasks.loading s) (Tasks.expandedTasks s)
                  (<[Tasks.task_key id := true]> (Tasks.loadingStates s))).
  pose (st := Tasks.mkState goalsData (Tasks.tasks s) (Tasks.subtasks s)
                (Tasks.loading s) (Tasks.expandedTasks s) flags).
  pose (lg := [(Async.EvRequest (PUT_task id newStatus), sent);
               (Async.EvRequest GET_goals, sent)]).
  assert (Hanswered :
    Async.current answered
    = Tasks.mkState (Tasks.goals s) (Tasks.tasks s) (Tasks.subtasks s)
        (Tasks.loading s) (Tasks.expandedTasks s) flags
    ∧ Async.log answered = lg
    ∧ Async.request <$> Async.outstanding answered = [GET_goals]).
  { subst answered. cbn. rewrite Hput. by cbn. }
  destruct Hanswered as (Hcur & Hlog & Hout).
  assert (Hc : c = Async.component
    (Tasks.mkState goalsData
       (foldl (λ acc g, <[Goal.id g := answers (Goal.id g)]> acc) ∅ goalsData)
       (Tasks.subtasks s) false (Tasks.expandedTasks s) flags)
    []
    (lg ++ ((λ g, (Async.EvRequest (GET_goal_tasks (Goal.id g)), st)) <$> goalsData))).
  { subst c. cbn [replicate Async.run foldl].
    assert (Hfirst : Async.step answered (Async.Settle 0 b)
                     = TasksRuns.looping st lg goalsData ∅).
    { subst answered. cbn. rewrite Hput. cbn. rewrite Hgoals. reflexivity. }
    rewrite Hfirst.
    pose proof (RefreshFacts.looping_progress st lg goalsData [] ∅ b answers) as Hrun.
    rewrite app_nil_r in Hrun. unfold Async.run in Hrun. rewrite Hrun.
    - by rewrite RefreshFacts.looping_done.
    - apply Forall_forall. intros g Hg. by apply Hanswers. }
  split.
  - rewrite Hcur, Hlog, Hout. cbn [Tasks.goals Tasks.tasks Tasks.loadingStates].
    split_and!; try reflexivity. subst flags. apply lookup_insert_eq.
  - rewrite Hc. cbn [Async.current Async.log Async.outstanding Tasks.goals Tasks.tasks
                     Tasks.subtasks Tasks.loadingStates].
    split_and!; try reflexivity.
    + intros goalId Hnot.
      by rewrite RefreshFacts.collected_lookup, lookup_empty, decide_False.
    + intros goal Hgoal. exists (answers (Goal.id goal)).
      assert (Hkept : foldl (λ acc g, <[Goal.id g := answers (Goal.id g)]> acc)
                            (∅ : gmap string (list Task.t)) goalsData !! Goal.id goal
                      = Some (answers (Goal.id goal))).
      { rewrite RefreshFacts.collected_lookup, decide_True; [done|].
        apply list_elem_of_fmap. by exists goal. }
      split; [exact Hkept|]. split; [reflexivity|].
      unfold TasksView.taskRows, TasksView.goalTasks. cbn [Tasks.tasks].
      by rewrite Hkept.
    + subst flags. apply lookup_insert_eq.
    + unfold Async.requests. rewrite omap_app. cbn. do 2 f_equal.
      apply RefreshFacts.requests_of_loop.
    + unfold Async.alerts. rewrite omap_app. cbn. apply RefreshFacts.alerts_of_loop.
Qed.

(** The task "t1" of the goal "g1" is completed: after the answer to the
    update the page still shows it as pending, and after the refresh it
    shows what the backend sent. *)
Lemma updateTaskStatus_then_refresh_t1 :
  let g1 := Goal.mk "g1" "Rocq" "" 4 "active" in
  let before := Task.mk "t1" "Week 1" 1 "2026-04-01" "pending" in
  let after := Task.mk "t1" "Week 1" 1 "2026-04-01" "completed" in
  let s := Tasks.mkState [g1] {["g1" := [before]]} ∅ false ∅ ∅ in
  let b : Async.Backend := λ req,
    match req with
    | GET_goals => Fulfilled [g1]
    | GET_goal_tasks _ => Fulfilled [after]
    | GET_task_subtasks _ => Fulfilled []
    | _ => Fulfilled ()
    end in
  let answered := Async.run (Async.mounted s)
      [Async.Trigger (λ _, Tasks.updateTaskStatus "t1" "completed"); Async.Settle 0 b] in
  let c := Async.run answered [Async.Settle 0 b; Async.Settle 0 b] in
  Tasks.tasks (Async.current answered) !! "g1" = Some [before]
  ∧ Tasks.tasks (Async.current c) !! "g1" = Some [after].
Proof.
  intros g1 before after s b answered c.
  destruct (updateTaskStatus_then_refresh s b "t1" "completed" [g1] (λ _, [after])
              eq_refl eq_refl) as ((_ & Hold & _) & (_ & _ & Hnew & _)).
  - apply (bool_decide_eq_false_1 ("__proto__" ∈ Goal.id <$> [g1])).
    vm_compute. reflexivity.
  - intros g _. reflexivity.
  - split.
    + subst answered. rewrite Hold. reflexivity.
    + cbn [length replicate] in Hnew.
      destruct (Hnew g1) as (kept & Hkept & Hperm & _); [apply list_elem_of_here|].
      subst c answered. etransitivity; [exact Hkept|]. f_equal.
      by apply Permutation_singleton_r.
Defined.

Module ExpansionFacts.
Import Async Tasks TasksView.

(** What the expansion of a collapsed row without cached subtasks does: it
    sends the fetch, and on the answer it stores the subtasks, if any came,
    in the latest cache, and writes the expanded rows of its render plus
    the row. *)
Lemma toggle_suspends (snap : State) (taskId : string) :
  taskId ∉ Object_prototype →
  taskId ∉ expandedTasks snap → subtasks snap !! taskId = None →
  ∃ k, toggleTaskExpansion snap taskId = Await (GET_task_subtasks taskId) k
       ∧ ∀ r s',
           sync (k r) s'
           = outcome
               (mkState (goals s') (tasks s')
                  (match r with
                   | Fulfilled data => <[taskId := data]> (subtasks s')
                   | Rejected _ => subtasks s'
                   end)
                  (loading s') (expandedTasks snap ∪ {[taskId]}) (loadingStates s'))
               (match r with
                | Fulfilled _ => []
                | Rejected error =>
                    [(EvConsoleError "Error fetching subtasks:" error, s')]
                end)
               [].
Proof.
  intros Hown Hcollapsed Hmiss. unfold toggleTaskExpansion, fetchSubtasks.
  rewrite decide_False by done. rewrite Hmiss, bool_decide_eq_false_2 by done.
  eexists. split; [reflexivity|]. intros [data|error] s'; reflexivity.
Qed.

(** The expansion of a row whose subtasks are cached, and every collapse:
    no request, only the set of expanded rows changes. *)
Lemma toggle_at_once (snap : State) (taskId : string) :
  taskId ∈ expandedTasks snap ∨ is_Some (subtasks snap !! taskId) →
  sync (toggleTaskExpansion snap taskId) snap
  = outcome
      (mkState (goals snap) (tasks snap) (subtasks snap) (loading snap)
         (if decide (taskId ∈ expandedTasks snap)
          then expandedTasks snap ∖ {[taskId]}
          else expandedTasks snap ∪ {[taskId]})
         (loadingStates snap))
      [] [].
Proof.
  unfold toggleTaskExpansion, fetchSubtasks. intros [Hin|[l Hl]].
  - rewrite !decide_True by done. reflexivity.
  - rewrite Hl. destruct (decide (taskId ∈ expandedTasks snap)); reflexivity.
Qed.

(** The expansion of a row whose id names a member that the cache
    inherits: the member is taken for the row's subtasks. *)
Lemma toggle_inherited (snap : State) (taskId : string) :
  taskId ∈ Object_prototype →
  taskId ∉ expandedTasks snap → subtasks snap !! taskId = None →
  sync (toggleTaskExpansion snap taskId) snap
  = outcome
      (mkState (goals snap) (tasks snap) (subtasks snap) (loading snap)
         (expandedTasks snap ∪ {[taskId]}) (loadingStates snap))
      [] [].
Proof.
  intros Hmember Hcollapsed Hmiss. unfold toggleTaskExpansion, fetchSubtasks.
  rewrite decide_False by done. rewrite Hmiss, bool_decide_eq_true_2 by done.
  reflexivity.
Qed.

End ExpansionFacts.

(** X13.  Two rows, whose ids name no member of [Object.prototype],
    expanded one after the other, each before the subtasks of the other
    have arrived: both fetches go out, and whichever is answered
    last decides the expanded rows.  Its handler writes the expanded rows of
    the render of its own click plus its row, so the row answered first is
    collapsed again, although its subtasks have been fetched and cached.
    The cache is built on the latest state and keeps both answers. *)
Theorem expansions_in_flight_overwrite (s : Tasks.State) (A B : string)
    (bA bB : Async.Backend) :
  let toggle taskId := Async.Trigger (λ snap, Tasks.toggleTaskExpansion snap taskId) in
  let clicked := Async.run (Async.mounted s) [toggle A; toggle B] in
  let c := Async.run clicked [Async.Settle 0 bA; Async.Settle 0 bB] in
  let c' := Async.run clicked [Async.Settle 1 bB; Async.Settle 0 bA] in
  A ≠ B →
  A ∉ Object_prototype → B ∉ Object_prototype →
  A ∉ Tasks.expandedTasks s → B ∉ Tasks.expandedTasks s →
  Tasks.subtasks s !! A = None → Tasks.subtasks s !! B = None →
  Async.request <$> Async.outstanding clicked
  = [GET_task_subtasks A; GET_task_subtasks B]
  ∧ Tasks.expandedTasks (Async.current c) = Tasks.expandedTasks s ∪ {[B]}
  ∧ Tasks.expandedTasks (Async.current c') = Tasks.expandedTasks s ∪ {[A]}
  ∧ TasksView.chevronDown (Async.current c) A = false
  ∧ TasksView.chevronDown (Async.current c') B = false
  ∧ Async.outstanding c = [] ∧ Async.outstanding c' = []
  ∧ (∀ dataA dataB,
       bA (GET_task_subtasks A) = Fulfilled dataA →
       bB (GET_task_subtasks B) = Fulfilled dataB →
       Tasks.subtasks (Async.current c) = <[B := dataB]> (<[A := dataA]> (Tasks.subtasks s))
       ∧ Tasks.subtasks (Async.current c')
         = <[A := dataA]> (<[B := dataB]> (Tasks.subtasks s))
       ∧ Tasks.subtasks (Async.current c) !! A = Some dataA
       ∧ TasksView.subtasksPanel (Async.current c) A = TasksView.NoPanel
       ∧ TasksView.subtasksPanel (Async.current c) B = TasksView.Lists dataB).
Proof.
  intros toggle clicked c c' Hne HoA HoB HA HB HcA HcB.
  assert (HnotA : A ∉ Tasks.expandedTasks s ∪ {[B]})
    by (rewrite elem_of_union, elem_of_singleton; intros [?|?]; done).
  assert (HnotB : B ∉ Tasks.expandedTasks s ∪ {[A]})
    by (rewrite elem_of_union, elem_of_singleton; intros [?|?]; done).
  assert (HinB : B ∈ Tasks.expandedTasks s ∪ {[B]})
    by (apply elem_of_union; right; by apply elem_of_singleton).
  destruct (ExpansionFacts.toggle_suspends s A HoA HA HcA) as (kA & HtA & HkA).
  destruct (ExpansionFacts.toggle_suspends s B HoB HB HcB) as (kB & HtB & HkB).
  assert (Hclicked : clicked = Async.component s
    [Async.suspend (GET_task_subtasks A) kA; Async.suspend (GET_task_subtasks B) kB]
    [(Async.EvRequest (GET_task_subtasks A), s);
     (Async.EvRequest (GET_task_subtasks B), s)]).
  { subst clicked toggle.
    cbn [Async.run foldl Async.step Async.mounted Async.current Async.outstanding
         Async.log].
    rewrite HtA. cbn [Async.sync Async.absorb Async.state Async.events Async.suspended
                      Async.current Async.outstanding Async.log app].
    rewrite HtB. reflexivity. }
  subst c c'. rewrite Hclicked.
  cbn [Async.run foldl Async.step Async.outstanding Async.current Async.log
       lookup list_lookup delete list_delete Async.request Async.resume].
  rewrite !HkA.
  cbn [Async.absorb Async.state Async.events Async.suspended app Async.outstanding
       Async.current Async.log lookup list_lookup delete list_delete
       Async.request Async.resume].
  rewrite !HkB.
  cbn [Async.absorb Async.state Async.events Async.suspended app Async.outstanding
       Async.current Async.log lookup list_lookup delete list_delete
       Async.request Async.resume].
  rewrite !HkA.
  cbn [Async.absorb Async.state Async.events Async.suspended app Async.outstanding
       Async.current Async.log Tasks.expandedTasks Tasks.subtasks fmap list_fmap].
  unfold TasksView.chevronDown, TasksView.subtasksPanel.
  cbn [Tasks.expandedTasks Tasks.subtasks].
  rewrite !bool_decide_eq_false_2 by done. rewrite bool_decide_eq_true_2 by done.
  split_and!; try reflexivity.
  intros dataA dataB -> ->. split_and!; try reflexivity.
  - rewrite lookup_insert_ne by done. apply lookup_insert_eq.
  - by rewrite lookup_insert_eq.
Qed.

Lemma expansions_in_flight_overwrite_t1_t2 :
  let s := Tasks.mkState [] ∅ ∅ false ∅ ∅ in
  let data := [Subtask.mk "s1" "Read chapter 1" "2026-04-01" "pending"] in
  let b : Async.Backend := λ req,
    match req with
    | GET_task_subtasks _ => Fulfilled data
    | GET_goals => Fulfilled []
    | GET_goal_tasks _ => Fulfilled []
    | _ => Fulfilled ()
    end in
  let toggle taskId := Async.Trigger (λ snap, Tasks.toggleTaskExpansion snap taskId) in
  let c := Async.run (Async.mounted s)
             [toggle "t1"; toggle "t2"; Async.Settle 0 b; Async.Settle 0 b] in
  Tasks.expandedTasks (Async.current c) = ∅ ∪ {["t2"]}
  ∧ Tasks.subtasks (Async.current c) !! "t1" = Some data.
Proof.
  intros s data b toggle c.
  destruct (expansions_in_flight_overwrite s "t1" "t2" b b)
    as (_ & Hexp & _ & _ & _ & _ & _ & Hdata);
    [done
    |apply (bool_decide_eq_false_1 ("t1" ∈ Object_prototype)); vm_compute; reflexivity
    |apply (bool_decide_eq_false_1 ("t2" ∈ Object_prototype)); vm_compute; reflexivity
    |apply not_elem_of_empty|apply not_elem_of_empty|done|done|].
  destruct (Hdata data data eq_refl eq_refl) as (_ & _ & Hsub & _).
  split; [exact Hexp|exact Hsub].
Defined.

(** X14.  The life of a row's panel, for a row whose id names no member of
    [Object.prototype].  Expanding a collapsed row whose subtasks are not
    cached turns its chevron down whatever the backend answers.  With an answer the panel lists the subtasks; collapsing the row
    hides the panel and keeps the cache, and expanding it again shows the
    same subtasks without a request.  With a rejection the row is expanded
    and has no panel and no notice; collapsing it and expanding it again
    sends the fetch again, the row staying collapsed until the answer, which
    then fills the panel.  A row whose id does name such a member is
    expanded without a request, and the render of its panel throws. *)
Theorem subtasks_panel_lifecycle (s : Tasks.State) (taskId : string) (b : Async.Backend) :
  let toggle := Async.Trigger (λ snap, Tasks.toggleTaskExpansion snap taskId) in
  let opened := Async.run (Async.mounted s) [toggle; Async.Settle 0 b] in
  let closed := Async.run opened [toggle] in
  let reopened := Async.run closed [toggle] in
  taskId ∉ Object_prototype →
  taskId ∉ Tasks.expandedTasks s →
  Tasks.subtasks s !! taskId = None →
  TasksView.chevronDown (Async.current opened) taskId = true
  ∧ TasksView.chevronDown (Async.current closed) taskId = false
  ∧ TasksView.subtasksPanel (Async.current closed) taskId = TasksView.NoPanel
  ∧ Tasks.subtasks (Async.current closed) = Tasks.subtasks (Async.current opened)
  ∧ (∀ data, b (GET_task_subtasks taskId) = Fulfilled data →
       TasksView.subtasksPanel (Async.current opened) taskId = TasksView.Lists data
       ∧ Tasks.subtasks (Async.current closed) !! taskId = Some data
       ∧ TasksView.chevronDown (Async.current reopened) taskId = true
       ∧ TasksView.subtasksPanel (Async.current reopened) taskId = TasksView.Lists data
       ∧ Async.requests (Async.log reopened) = [GET_task_subtasks taskId]
       ∧ Async.outstanding reopened = [])
  ∧ (∀ error, b (GET_task_subtasks taskId) = Rejected error →
       TasksView.subtasksPanel (Async.current opened) taskId = TasksView.NoPanel
       ∧ Async.alerts (Async.log opened) = []
       ∧ Async.console_errors (Async.log opened) = ["Error fetching subtasks:"]
       ∧ Async.requests (Async.log reopened)
         = [GET_task_subtasks taskId; GET_task_subtasks taskId]
       ∧ Async.request <$> Async.outstanding reopened = [GET_task_subtasks taskId]
       ∧ TasksView.chevronDown (Async.current reopened) taskId = false
       ∧ ∀ (b' : Async.Backend) data,
           b' (GET_task_subtasks taskId) = Fulfilled data →
           TasksView.subtasksPanel
             (Async.current (Async.step reopened (Async.Settle 0 b'))) taskId
           = TasksView.Lists data)
  ∧ (∀ (s' : Tasks.State) member,
       member ∈ Object_prototype →
       member ∉ Tasks.expandedTasks s' →
       Tasks.subtasks s' !! member = None →
       let c := Async.run (Async.mounted s')
                  [Async.Trigger (λ snap, Tasks.toggleTaskExpansion snap member)] in
       Async.requests (Async.log c) = []
       ∧ Async.outstanding c = []
       ∧ Tasks.subtasks (Async.current c) = Tasks.subtasks s'
       ∧ TasksView.chevronDown (Async.current c) member = true
       ∧ TasksView.subtasksPanel (Async.current c) member = TasksView.RenderThrows).
Proof.
  intros toggle opened closed reopened Hown Hcollapsed Hmiss.
  assert (Hin : taskId ∈ Tasks.expandedTasks s ∪ {[taskId]})
    by (apply elem_of_union; right; by apply elem_of_singleton).
  assert (Hout : taskId ∉ (Tasks.expandedTasks s ∪ {[taskId]}) ∖ {[taskId]})
    by (rewrite elem_of_difference, elem_of_singleton; intros [_ ?]; done).
  assert (Hback : taskId ∈ (Tasks.expandedTasks s ∪ {[taskId]}) ∖ {[taskId]} ∪ {[taskId]})
    by (apply elem_of_union; right; by apply elem_of_singleton).
  destruct (ExpansionFacts.toggle_suspends s taskId Hown Hcollapsed Hmiss)
    as (k & Ht & Hk).
  pose (cache := match b (GET_task_subtasks taskId) with
                 | Fulfilled data => <[taskId := data]> (Tasks.subtasks s)
                 | Rejected _ => Tasks.subtasks s
                 end).
  pose (lg := (Async.EvRequest (GET_task_subtasks taskId), s)
              :: match b (GET_task_subtasks taskId) with
                 | Fulfilled _ => []
                 | Rejected error =>
                     [(Async.EvConsoleError "Error fetching subtasks:" error, s)]
                 end).
  pose (st := λ expanded, Tasks.mkState (Tasks.goals s) (Tasks.tasks s) cache
                (Tasks.loading s) expanded (Tasks.loadingStates s)).
  assert (Hopened : opened
    = Async.component (st (Tasks.expandedTasks s ∪ {[taskId]})) [] lg).
  { subst opened toggle.
    cbn [Async.run foldl Async.step Async.mounted Async.current Async.outstanding
         Async.log].
    rewrite Ht.
    cbn [Async.sync Async.absorb Async.state Async.events Async.suspended app
         Async.current Async.outstanding Async.log lookup list_lookup delete list_delete
         Async.request Async.resume].
    rewrite Hk. subst st cache lg. cbv beta.
    by destruct (b (GET_task_subtasks taskId)). }
  assert (Hclosed : closed
    = Async.component (st ((Tasks.expandedTasks s ∪ {[taskId]}) ∖ {[taskId]})) [] lg).
  { subst closed toggle. rewrite Hopened.
    cbn [Async.run foldl Async.step Async.current Async.outstanding Async.log].
    rewrite ExpansionFacts.toggle_at_once by by left.
    cbn [Tasks.expandedTasks st]. rewrite decide_True by done.
    unfold Async.absorb. cbn. by rewrite app_nil_r. }
  split_and!.
  - rewrite Hopened. unfold TasksView.chevronDown. cbn. by apply bool_decide_eq_true_2.
  - rewrite Hclosed. unfold TasksView.chevronDown. cbn. by apply bool_decide_eq_false_2.
  - rewrite Hclosed. unfold TasksView.subtasksPanel. cbn.
    by rewrite bool_decide_eq_false_2.
  - by rewrite Hclosed, Hopened.
  - intros data Hb.
    assert (Hcache : cache = <[taskId := data]> (Tasks.subtasks s))
      by (subst cache; by rewrite Hb).
    assert (Hlg : lg = [(Async.EvRequest (GET_task_subtasks taskId), s)])
      by (subst lg; by rewrite Hb).
    clearbody cache lg.
    assert (Hreopened : reopened
      = Async.component
          (st ((Tasks.expandedTasks s ∪ {[taskId]}) ∖ {[taskId]} ∪ {[taskId]})) [] lg).
    { subst reopened toggle. rewrite Hclosed.
      cbn [Async.run foldl Async.step Async.current Async.outstanding Async.log].
      rewrite ExpansionFacts.toggle_at_once.
      - cbn [Tasks.expandedTasks st]. rewrite decide_False by done.
        unfold Async.absorb. cbn. by rewrite app_nil_r.
      - right. cbn. rewrite Hcache, lookup_insert_eq. by eexists. }
    rewrite Hopened, Hclosed, Hreopened.
    unfold TasksView.subtasksPanel, TasksView.chevronDown. cbn.
    rewrite !(bool_decide_eq_true_2 _ Hin), !(bool_decide_eq_true_2 _ Hback).
    rewrite Hcache, Hlg, lookup_insert_eq.
    by split_and!.
  - intros error Hb.
    assert (Hcache : cache = Tasks.subtasks s) by (subst cache; by rewrite Hb).
    assert (Hlg : lg = [(Async.EvRequest (GET_task_subtasks taskId), s);
                        (Async.EvConsoleError "Error fetching subtasks:" error, s)])
      by (subst lg; by rewrite Hb).
    clearbody cache lg.
    destruct (ExpansionFacts.toggle_suspends
                (st ((Tasks.expandedTasks s ∪ {[taskId]}) ∖ {[taskId]})) taskId)
      as (k' & Ht' & Hk'); [done|done|by cbn; rewrite Hcache|].
    assert (Hreopened : reopened
      = Async.component (st ((Tasks.expandedTasks s ∪ {[taskId]}) ∖ {[taskId]}))
          [Async.suspend (GET_task_subtasks taskId) k']
          (lg ++ [(Async.EvRequest (GET_task_subtasks taskId),
                   st ((Tasks.expandedTasks s ∪ {[taskId]}) ∖ {[taskId]}))])).
    { subst reopened toggle. rewrite Hclosed.
      cbn [Async.run foldl Async.step Async.current Async.outstanding Async.log].
      rewrite Ht'. reflexivity. }
    rewrite Hopened, Hreopened. unfold TasksView.subtasksPanel, TasksView.chevronDown.
    cbn [Async.current Async.log Async.outstanding Tasks.expandedTasks Tasks.subtasks st].
    rewrite ?(bool_decide_eq_true_2 _ Hin), ?(bool_decide_eq_false_2 _ Hout).
    rewrite Hcache, Hlg, Hmiss, ?(bool_decide_eq_false_2 _ Hown).
    split_and!; try reflexivity.
    intros b' data Hb'.
    cbn [Async.step Async.outstanding lookup list_lookup Async.request Async.resume].
    rewrite Hk', Hb'. cbn. rewrite (bool_decide_eq_true_2 _ Hback).
    by rewrite lookup_insert_eq.
  - intros s' member Hmember Hcollapsed' Hmiss' c. subst c.
    cbn [Async.run foldl Async.step Async.mounted Async.current Async.outstanding
         Async.log].
    rewrite (ExpansionFacts.toggle_inherited s' member Hmember Hcollapsed' Hmiss').
    unfold Async.absorb, TasksView.chevronDown, TasksView.subtasksPanel. cbn.
    assert (Hin' : member ∈ Tasks.expandedTasks s' ∪ {[member]})
      by (apply elem_of_union; right; by apply elem_of_singleton).
    rewrite !bool_decide_eq_true_2 by done. by rewrite Hmiss'.
Qed.

Lemma subtasks_panel_lifecycle_t1 :
  let s := Tasks.mkState [] ∅ ∅ false ∅ ∅ in
  let data := [Subtask.mk "s1" "Read chapter 1" "2026-04-01" "pending"] in
  let b : Async.Backend := λ req,
    match req with
    | GET_task_subtasks _ => Fulfilled data
    | GET_goals => Fulfilled []
    | GET_goal_tasks _ => Fulfilled []
    | _ => Fulfilled ()
    end in
  let toggle := Async.Trigger (λ snap, Tasks.toggleTaskExpansion snap "t1") in
  let c := Async.run (Async.mounted s) [toggle; Async.Settle 0 b; toggle; toggle] in
  TasksView.subtasksPanel (Async.current c) "t1" = TasksView.Lists data
  ∧ Async.requests (Async.log c) = [GET_task_subtasks "t1"].
Proof.
  intros s data b toggle c.
  destruct (subtasks_panel_lifecycle s "t1" b) as (_ & _ & _ & _ & Hok & _);
    [apply (bool_decide_eq_false_1 ("t1" ∈ Object_prototype)); vm_compute; reflexivity
    |apply not_elem_of_empty|done|].
  destruct (Hok data eq_refl) as (_ & _ & _ & Hpanel & Hreq & _).
  split; [exact Hpanel|exact Hreq].
Defined.

Module ExclusionFacts.
Import Async Tasks TasksRuns.

(** A flag that is held has one holder. *)
Lemma held_once (held : list (option string)) (i j : nat) (key : string) :
  NoDup (omap id held) →
  held !! i = Some (Some key) → held !! j = Some (Some key) → i = j.
Proof.
  revert i j. induction held as [|h held IH]; intros i j Hnd Hi Hj; [done|].
  assert (Hmem : ∀ n, held !! n = Some (Some key) → key ∈ omap id held).
  { intros n Hn. apply list_elem_of_omap. exists (Some key). split; [|done].
    apply list_elem_of_lookup. by exists n. }
  assert (Htail : NoDup (omap id held)).
  { destruct h; cbn in Hnd; [by apply NoDup_cons in Hnd as [_ ?]|done]. }
  destruct i as [|i], j as [|j]; cbn in Hi, Hj.
  - done.
  - injection Hi as ->. cbn in Hnd. apply NoDup_cons in Hnd as [Hnotin _].
    destruct Hnotin. by apply (Hmem j).
  - injection Hj as ->. cbn in Hnd. apply NoDup_cons in Hnd as [Hnotin _].
    destruct Hnotin. by apply (Hmem i).
  - f_equal. by apply IH.
Qed.

(** The holder of the flag of an update that is outstanding. *)
Lemma update_label ts held (n : nat) (t : Suspended State) (key : string) :
  labelled ts held → ts !! n = Some t → flag_key (request t) = Some key →
  held !! n = Some (Some key).
Proof.
  intros Hl Ht Hkey.
  destruct (Forall2_lookup_l _ _ _ _ _ Hl Ht) as (h & Hh & Hth).
  rewrite Hh. do 2 f_equal. destruct h as [k|].
  - destruct Hth as [[Hread|Hk] _]; [|congruence].
    destruct (request t); cbn in *; done.
  - destruct Hth as [Hread _]. destruct (request t); cbn in *; done.
Qed.

End ExclusionFacts.

(** X15.  On the Tasks page, as long as the user can only click buttons
    that are not disabled, no entity has two updates in flight: two
    outstanding update requests never carry the same flag.  While the update
    of a task or of a subtask is outstanding every button of its row is
    disabled. *)
Theorem one_update_per_entity (c : Async.Component Tasks.State) :
  TasksRuns.reachable c →
  (∀ i j t1 t2 key,
     Async.outstanding c !! i = Some t1 → Async.outstanding c !! j = Some t2 →
     TasksRuns.flag_key (Async.request t1) = Some key →
     TasksRuns.flag_key (Async.request t2) = Some key →
     i = j)
  ∧ (∀ task newStatus button,
       PUT_task (Task.id task) newStatus ∈ Async.request <$> Async.outstanding c →
       button ∈ Tasks.taskActions (Async.current c) task →
       Tasks.disabled button = true)
  ∧ (∀ subtask newStatus button,
       PUT_subtask (Subtask.id subtask) newStatus
         ∈ Async.request <$> Async.outstanding c →
       button ∈ Tasks.subtaskActions (Async.current c) subtask →
       Tasks.disabled button = true).
Proof.
  intros Hr. split_and!.
  - intros i j t1 t2 key Hi Hj Hk1 Hk2.
    destruct (FlagFacts.reachable_flags_held c Hr) as (held & Hl & Hnd & _).
    apply (ExclusionFacts.held_once held i j key Hnd).
    + by apply (ExclusionFacts.update_label _ _ _ t1 _ Hl).
    + by apply (ExclusionFacts.update_label _ _ _ t2 _ Hl).
  - intros task newStatus button Hout Hb.
    apply list_elem_of_fmap in Hout as (t & Hreq & Ht).
    assert (Hflag : Tasks.loadingStates (Async.current c)
                      !! Tasks.task_key (Task.id task) = Some true).
    { apply (FlagFacts.flag_set_while_outstanding c t); [done|done|].
      by rewrite <- Hreq. }
    apply FlagFacts.getStatusActions_button in Hb as [-> _]. by rewrite Hflag.
  - intros subtask newStatus button Hout Hb.
    apply list_elem_of_fmap in Hout as (t & Hreq & Ht).
    assert (Hflag : Tasks.loadingStates (Async.current c)
                      !! Tasks.subtask_key (Subtask.id subtask) = Some true).
    { apply (FlagFacts.flag_set_while_outstanding c t); [done|done|].
      by rewrite <- Hreq. }
    apply FlagFacts.getStatusActions_button in Hb as [-> _]. by rewrite Hflag.
Qed.

(** After a click on "complete" for the pending task "t1", both buttons of
    its row are disabled. *)
Lemma one_update_per_entity_t1 :
  let task := Task.mk "t1" "Week 1" 1 "2026-04-01" "pending" in
  let b := Tasks.mkButton "complete" (Tasks.updateTaskStatus "t1" "completed") false in
  let c := Async.step (Async.mounted Tasks.initial) (Async.Trigger (λ _, Tasks.onClick b)) in
  Tasks.disabled <$> Tasks.taskActions (Async.current c) task = [true; true]
  ∧ Forall (λ button, Tasks.disabled button = true)
           (Tasks.taskActions (Async.current c) task).
Proof.
  intros task b c.
  assert (Hr : TasksRuns.reachable c).
  { apply TasksRuns.reachable_step; [apply TasksRuns.reachable_mounted|].
    apply (TasksRuns.possible_task_action _ task b); [|reflexivity].
    apply list_elem_of_here. }
  destruct (one_update_per_entity c Hr) as (_ & Htask & _).
  split; [reflexivity|]. apply Forall_forall. intros button Hb.
  apply (Htask task "completed"); [|exact Hb]. apply list_elem_of_here.
Defined.

(* ===================================================================== *)
(** ** The Goals page: create and delete *)
(* ===================================================================== *)

(** X16.  Creating a goal.  The click changes nothing of the page but the
    flag of the form, which it sets, and posts the form data of the render
    of the click.  When the backend accepts it, the form is emptied and
    hidden, whatever was typed in the meantime, the flag of the form is
    cleared and the goals are fetched again; the list on the page is the old
    one until that answer, which replaces it.  When the backend rejects it,
    the form stays open with its content as it is, the list is untouched,
    the flag is cleared and nothing is fetched.  With nothing else happening
    in between, the old list and the old form are those before the
    click. *)
Theorem handleCreateGoal_outcomes (g : Goals.State) (b b' : Async.Backend)
    (meanwhile : Goals.State → Goals.State) :
  let clicked := Async.run (Async.mounted g) [Async.Trigger Goals.handleCreateGoal] in
  let posted := Async.run (Async.mounted g)
      [Async.Trigger Goals.handleCreateGoal; Async.Meanwhile meanwhile] in
  let answered := Async.step posted (Async.Settle 0 b) in
  let refreshed := Async.step answered (Async.Settle 0 b') in
  (Async.current clicked
   = Goals.mkState (Goals.goals g) (Goals.loading g) (Goals.showCreateForm g)
       (Goals.selectedGoal g) (Goals.formData g) true
   ∧ Async.current posted = meanwhile (Async.current clicked)
   ∧ Async.requests (Async.log posted) = [POST_goals (Goals.formData g)])
  ∧ (b (POST_goals (Goals.formData g)) = Fulfilled () →
       Goals.formData (Async.current answered) = Goals.emptyForm
       ∧ Goals.showCreateForm (Async.current answered) = false
       ∧ Goals.formLoading (Async.current answered) = false
       ∧ Goals.goals (Async.current answered) = Goals.goals (Async.current posted)
       ∧ Goals.selectedGoal (Async.current answered)
         = Goals.selectedGoal (Async.current posted)
       ∧ Async.request <$> Async.outstanding answered = [GET_goals]
       ∧ Async.alerts (Async.log answered) = []
       ∧ ((∀ st, meanwhile st = st) →
          Goals.goals (Async.current answered) = Goals.goals g)
       ∧ (∀ data, b' GET_goals = Fulfilled data →
            Goals.goals (Async.current refreshed) = data
            ∧ Goals.loading (Async.current refreshed) = false
            ∧ Goals.formData (Async.current refreshed) = Goals.emptyForm
            ∧ Async.outstanding refreshed = []))
  ∧ (∀ error, b (POST_goals (Goals.formData g)) = Rejected error →
       Goals.formData (Async.current answered) = Goals.formData (Async.current posted)
       ∧ Goals.showCreateForm (Async.current answered)
         = Goals.showCreateForm (Async.current posted)
       ∧ Goals.goals (Async.current answered) = Goals.goals (Async.current posted)
       ∧ Goals.selectedGoal (Async.current answered)
         = Goals.selectedGoal (Async.current posted)
       ∧ Goals.formLoading (Async.current answered) = false
       ∧ Async.requests (Async.log answered) = [POST_goals (Goals.formData g)]
       ∧ Async.alerts (Async.log answered) = ["Failed to create goal. Please try again."]
       ∧ Async.outstanding answered = []
       ∧ ((∀ st, meanwhile st = st) →
          Async.current answered
          = Goals.mkState (Goals.goals g) (Goals.loading g) (Goals.showCreateForm g)
              (Goals.selectedGoal g) (Goals.formData g) false)).
Proof.
  intros clicked posted answered refreshed. split; [by split_and!|]. split.
  - intros Hb. subst refreshed answered posted. cbn. rewrite Hb. cbn.
    split_and!; try reflexivity.
    + intros Hquiet. by rewrite Hquiet.
    + intros data Hb'. rewrite Hb'. by cbn.
  - intros error Hb. subst answered posted. cbn. rewrite Hb. cbn.
    split_and!; try reflexivity. intros Hquiet. by rewrite Hquiet.
Qed.

(** X17.  Deleting a goal.  When the user declines the confirmation nothing
    happens at all: no request, no change.  When the user confirms, the
    delete request goes out and the page is as it was; the goal leaves the
    list only if the goals fetched after a successful delete no longer have
    it.  If that fetch is rejected the deleted goal stays on the page and no
    notice is shown; if the delete is rejected the list is untouched, the
    notice is shown and nothing is fetched. *)
Theorem handleDeleteGoal_outcomes (g : Goals.State) (goalId : string)
    (b b' : Async.Backend) :
  let declined := Async.run (Async.mounted g)
      [Async.Trigger (λ _, Goals.handleDeleteGoal false goalId)] in
  let confirmed := Async.run (Async.mounted g)
      [Async.Trigger (λ _, Goals.handleDeleteGoal true goalId)] in
  let answered := Async.step confirmed (Async.Settle 0 b) in
  let refreshed := Async.step answered (Async.Settle 0 b') in
  declined = Async.mounted g
  ∧ Async.current confirmed = g
  ∧ Async.requests (Async.log confirmed) = [DELETE_goal goalId]
  ∧ (b (DELETE_goal goalId) = Fulfilled () →
       Async.current answered = g
       ∧ Async.request <$> Async.outstanding answered = [GET_goals]
       ∧ Async.alerts (Async.log answered) = []
       ∧ (∀ data, b' GET_goals = Fulfilled data →
            Goals.goals (Async.current refreshed) = data
            ∧ Async.alerts (Async.log refreshed) = []
            ∧ Async.outstanding refreshed = [])
       ∧ (∀ error, b' GET_goals = Rejected error →
            Goals.goals (Async.current refreshed) = Goals.goals g
            ∧ Async.alerts (Async.log refreshed) = []
            ∧ Async.console_errors (Async.log refreshed) = ["Error fetching goals:"]
            ∧ Async.outstanding refreshed = []))
  ∧ (∀ error, b (DELETE_goal goalId) = Rejected error →
       Goals.goals (Async.current answered) = Goals.goals g
       ∧ Async.alerts (Async.log answered) = ["Failed to delete goal. Please try again."]
       ∧ Async.requests (Async.log answered) = [DELETE_goal goalId]
       ∧ Async.outstanding answered = []).
Proof.
  intros declined confirmed answered refreshed.
  split_and!; try reflexivity.
  - intros Hb. subst refreshed answered confirmed. cbn. rewrite Hb. cbn.
    split_and!; try reflexivity.
    + intros data Hb'. rewrite Hb'. by cbn.
    + intros error Hb'. rewrite Hb'. by cbn.
  - intros error Hb. subst answered confirmed. cbn. rewrite Hb. by cbn.
Qed.

(* ===================================================================== *)
(** ** Pages that wait for several answers at once *)
(* ===================================================================== *)

Module AllFacts.

(** The orders in which three answers can arrive. *)
Lemma orders_of_three (order : list nat) :
  order ≡ₚ [0; 1; 2] →
  order ∈ [[0; 1; 2]; [1; 0; 2]; [1; 2; 0]; [0; 2; 1]; [2; 0; 1]; [2; 1; 0]].
Proof.
  intros H. symmetry in H. apply permutations_Permutation in H. exact H.
Qed.

Lemma orders_of_two (order : list nat) :
  order ≡ₚ [0; 1] → order ∈ [[0; 1]; [1; 0]].
Proof.
  intros H. symmetry in H. apply permutations_Permutation in H. exact H.
Qed.

Section Run.
Import AsyncAll.
Context {S : Type}.

Lemma run_cons (c : Component S) i l : run c (i :: l) = run (step c i) l.
Proof. reflexivity. Qed.

Lemma run_nil (c : Component S) : run c [] = c.
Proof. reflexivity. Qed.

Lemma run_app (c : Component S) l1 l2 : run c (l1 ++ l2) = run (run c l1) l2.
Proof. apply foldl_app. Qed.

(** With nothing outstanding an answer changes nothing. *)
Lemma settle_nothing (c : Component S) l :
  outstanding c = [] → Forall (λ i, ∃ j n b, i = Settle j n b) l → run c l = c.
Proof.
  intros Hout Hl. induction Hl as [|i l (j & n & b & ->) _ IH]; [done|].
  rewrite run_cons. cbn [step]. by rewrite Hout.
Qed.

End Run.

(** One input at a time, on a component that has been computed: the
    equation [H] of a run is moved one step on, and the answers of the
    backend that the context knows are used. *)
Ltac step_in H :=
  rewrite run_cons in H; unfold AsyncAll.step at 1 in H;
  cbn [AsyncAll.current AsyncAll.outstanding AsyncAll.log lookup list_lookup
       AsyncAll.endpoints AsyncAll.arrived AsyncAll.resume AsyncAll.arrive
       AsyncAll.no_answers fst snd AsyncAll.absorb AsyncAll.sync AsyncAll.state
       AsyncAll.events AsyncAll.suspended app AsyncAll.mounted
       AsyncAll.try_finally AsyncAll.try_catch AsyncAll.andThen AsyncAll.await_all
       fmap list_fmap
       Dashboard.fetchDashboardData Dashboard.setStats Dashboard.setLoading
       Dashboard.setRecentGoals Dashboard.setTodayTasks
       Analytics.fetchAnalyticsData Analytics.setStats Analytics.setGoals
       Analytics.setLoading
       GoalDetails.viewGoalDetails GoalDetails.setSelectedGoal GoalDetails.closeDetails]
    in H;
  repeat match goal with
         | E : _ = Fulfilled _ |- _ => rewrite E in H
         | E : _ = Rejected _ |- _ => rewrite E in H
         end;
  cbn [AsyncAll.current AsyncAll.outstanding AsyncAll.log lookup list_lookup
       AsyncAll.endpoints AsyncAll.arrived AsyncAll.resume AsyncAll.collect
       AsyncAll.mounted fst snd mbind option_bind AsyncAll.absorb AsyncAll.sync AsyncAll.state
       AsyncAll.events AsyncAll.suspended app delete list_delete insert list_insert
       AsyncAll.try_finally AsyncAll.try_catch AsyncAll.andThen
       Dashboard.stats Dashboard.loading Dashboard.recentGoals Dashboard.todayTasks
       Dashboard.setStats Dashboard.setLoading
       Dashboard.setRecentGoals Dashboard.setTodayTasks
       Analytics.stats Analytics.goals Analytics.loading
       Analytics.setStats Analytics.setGoals Analytics.setLoading
       GoalDetails.setSelectedGoal
       Goals.goals Goals.loading Goals.showCreateForm Goals.selectedGoal
       Goals.formData Goals.formLoading]
    in H.

(** Every run of the goal, computed. *)
Ltac compute_runs :=
  repeat match goal with
         | |- context [AsyncAll.run ?c ?l] =>
             lazymatch c with
             | context [AsyncAll.run] => fail
             | _ => idtac
             end;
             let r := fresh "r" in
             let H := fresh "H" in
             remember (AsyncAll.run c l) as r eqn:H;
             repeat step_in H;
             rewrite run_nil in H; subst r
         end.

End AllFacts.

(** X18.  The Dashboard's data.  Its three requests (statistics, goals,
    today's tasks) go out together when the page is mounted.  In whatever
    order the answers arrive, nothing is shown before the last one: then the
    statistics, the first five goals received and today's tasks are set at
    once.  If any of the three is rejected none of them is set: what the
    page had stays, the failure is written to the console, and the answers
    that come later are ignored.  Either way the page stops showing that it
    is loading. *)
Theorem fetchDashboardData_all_or_nothing (s : Dashboard.State) (b : AsyncAll.Backend)
    (order : list nat) :
  let sent := AsyncAll.run (AsyncAll.mounted s)
                [AsyncAll.Trigger (λ _, Dashboard.fetchDashboardData)] in
  let arrivals := (λ i, AsyncAll.Settle 0 i b) <$> order in
  let c := AsyncAll.run sent arrivals in
  order ≡ₚ [0; 1; 2] →
  AsyncAll.requests (AsyncAll.log sent)
  = [AsyncAll.GET_dashboard; AsyncAll.Sent GET_goals; AsyncAll.GET_tasks_today]
  ∧ AsyncAll.current sent = s
  ∧ AsyncAll.outstanding c = []
  ∧ Dashboard.loading (AsyncAll.current c) = false
  ∧ match b AsyncAll.GET_dashboard, b (AsyncAll.Sent GET_goals),
          b AsyncAll.GET_tasks_today with
    | Fulfilled statsData, Fulfilled goalsData, Fulfilled tasksData =>
        AsyncAll.current c
        = Dashboard.mkState (Some statsData) false (take 5 goalsData) tasksData
        ∧ AsyncAll.console_errors (AsyncAll.log c) = []
        ∧ AsyncAll.current (AsyncAll.run sent (take 2 arrivals)) = s
    | _, _, _ =>
        Dashboard.stats (AsyncAll.current c) = Dashboard.stats s
        ∧ Dashboard.recentGoals (AsyncAll.current c) = Dashboard.recentGoals s
        ∧ Dashboard.todayTasks (AsyncAll.current c) = Dashboard.todayTasks s
        ∧ AsyncAll.console_errors (AsyncAll.log c) = ["Error fetching dashboard data:"]
    end.
Proof.
  intros sent arrivals c Horder. apply AllFacts.orders_of_three in Horder.
  subst c arrivals sent.
  repeat (apply elem_of_cons in Horder as [->|Horder]);
    [..|by apply elem_of_nil in Horder].
  all: destruct (b AsyncAll.GET_dashboard) as [statsData|e1] eqn:E1,
         (b (AsyncAll.Sent GET_goals)) as [goalsData|e2] eqn:E2,
         (b AsyncAll.GET_tasks_today) as [tasksData|e3] eqn:E3.
  all: cbn [fmap list_fmap take].
  all: AllFacts.compute_runs.
  all: unfold AsyncAll.absorb; cbn.
  all: by split_and!.
Qed.

(** The goals arrive first, then today's tasks, then the statistics. *)
Lemma fetchDashboardData_goals_first :
  let statsData := Stats.mk 7 3 1 20 8 10 2 40 in
  let goal n := Goal.mk n "Goal" "" 4 "active" in
  let goalsData := goal <$> ["g1"; "g2"; "g3"; "g4"; "g5"; "g6"] in
  let b : AsyncAll.Backend := λ e,
    match e with
    | AsyncAll.GET_dashboard => Fulfilled statsData
    | AsyncAll.GET_tasks_today => Fulfilled []
    | AsyncAll.GET_goal _ => Rejected "Not Found"
    | AsyncAll.Sent GET_goals => Fulfilled goalsData
    | AsyncAll.Sent _ => Rejected "Not Found"
    end in
  let c := AsyncAll.run (AsyncAll.mounted Dashboard.initial)
             [AsyncAll.Trigger (λ _, Dashboard.fetchDashboardData);
              AsyncAll.Settle 0 1 b; AsyncAll.Settle 0 2 b; AsyncAll.Settle 0 0 b] in
  AsyncAll.current c
  = Dashboard.mkState (Some statsData) false
      (goal <$> ["g1"; "g2"; "g3"; "g4"; "g5"]) [].
Proof.
  intros statsData goal goalsData b c.
  destruct (fetchDashboardData_all_or_nothing Dashboard.initial b [1; 2; 0])
    as (_ & _ & _ & _ & Hdone).
  - symmetry. apply (Permutation_cons_append [1; 2] 0).
  - destruct Hdone as (Hc & _). exact Hc.
Defined.

(** X19.  The Analytics page's data: the statistics and the goals are asked
    for together, and they are set together when both have arrived, in
    either order; if either request is rejected neither is set, the failure
    is written to the console and the page stops showing that it is
    loading. *)
Theorem fetchAnalyticsData_all_or_nothing (s : Analytics.State) (b : AsyncAll.Backend)
    (order : list nat) :
  let sent := AsyncAll.run (AsyncAll.mounted s)
                [AsyncAll.Trigger (λ _, Analytics.fetchAnalyticsData)] in
  let arrivals := (λ i, AsyncAll.Settle 0 i b) <$> order in
  let c := AsyncAll.run sent arrivals in
  order ≡ₚ [0; 1] →
  AsyncAll.requests (AsyncAll.log sent) = [AsyncAll.GET_dashboard; AsyncAll.Sent GET_goals]
  ∧ AsyncAll.current sent = s
  ∧ AsyncAll.outstanding c = []
  ∧ Analytics.loading (AsyncAll.current c) = false
  ∧ match b AsyncAll.GET_dashboard, b (AsyncAll.Sent GET_goals) with
    | Fulfilled statsData, Fulfilled goalsData =>
        AsyncAll.current c = Analytics.mkState (Some statsData) goalsData false
        ∧ AsyncAll.console_errors (AsyncAll.log c) = []
        ∧ AsyncAll.current (AsyncAll.run sent (take 1 arrivals)) = s
    | _, _ =>
        Analytics.stats (AsyncAll.current c) = Analytics.stats s
        ∧ Analytics.goals (AsyncAll.current c) = Analytics.goals s
        ∧ AsyncAll.console_errors (AsyncAll.log c) = ["Error fetching analytics data:"]
    end.
Proof.
  intros sent arrivals c Horder. apply AllFacts.orders_of_two in Horder.
  subst c arrivals sent.
  repeat (apply elem_of_cons in Horder as [->|Horder]);
    [..|by apply elem_of_nil in Horder].
  all: destruct (b AsyncAll.GET_dashboard) as [statsData|e1] eqn:E1,
         (b (AsyncAll.Sent GET_goals)) as [goalsData|e2] eqn:E2.
  all: cbn [fmap list_fmap take].
  all: AllFacts.compute_runs.
  all: unfold AsyncAll.absorb; cbn.
  all: by split_and!.
Qed.

(** The goals arrive, and the statistics are refused. *)
Lemma fetchAnalyticsData_no_statistics :
  let goalsData := [Goal.mk "g1" "Rocq" "" 4 "active"] in
  let b : AsyncAll.Backend := λ e,
    match e with
    | AsyncAll.Sent GET_goals => Fulfilled goalsData
    | _ => Rejected "Internal Server Error"
    end in
  let c := AsyncAll.run (AsyncAll.mounted Analytics.initial)
             [AsyncAll.Trigger (λ _, Analytics.fetchAnalyticsData);
              AsyncAll.Settle 0 1 b; AsyncAll.Settle 0 0 b] in
  Analytics.goals (AsyncAll.current c) = []
  ∧ Analytics.loading (AsyncAll.current c) = false.
Proof.
  intros goalsData b c.
  destruct (fetchAnalyticsData_all_or_nothing Analytics.initial b [1; 0])
    as (_ & _ & _ & Hloading & Hdone).
  - apply Permutation_swap.
  - destruct Hdone as (_ & Hgoals & _). split; [exact Hgoals|exact Hloading].
Defined.

(** X20.  The details of a goal.  A click on "View" asks for the goal and
    for its tasks together; the modal opens, with both, when the second of
    the two answers has arrived, in either order.  If either request is
    rejected the page stays exactly as it is: the modal does not open and
    no notice is shown, the only trace being a line on the console. *)
Theorem viewGoalDetails_outcomes (g : Goals.State) (goalId : string)
    (b : AsyncAll.Backend) (order : list nat) :
  let sent := AsyncAll.run (AsyncAll.mounted g)
                [AsyncAll.Trigger (λ _, GoalDetails.viewGoalDetails goalId)] in
  let arrivals := (λ i, AsyncAll.Settle 0 i b) <$> order in
  let c := AsyncAll.run sent arrivals in
  order ≡ₚ [0; 1] →
  AsyncAll.requests (AsyncAll.log sent)
  = [AsyncAll.GET_goal goalId; AsyncAll.Sent (GET_goal_tasks goalId)]
  ∧ AsyncAll.current sent = g
  ∧ AsyncAll.outstanding c = []
  ∧ match b (AsyncAll.GET_goal goalId), b (AsyncAll.Sent (GET_goal_tasks goalId)) with
    | Fulfilled goal, Fulfilled tasks =>
        AsyncAll.current c
        = Goals.mkState (Goals.goals g) (Goals.loading g) (Goals.showCreateForm g)
            (Some (goal, tasks)) (Goals.formData g) (Goals.formLoading g)
        ∧ AsyncAll.console_errors (AsyncAll.log c) = []
        ∧ AsyncAll.current (AsyncAll.run sent (take 1 arrivals)) = g
    | _, _ =>
        AsyncAll.current c = g
        ∧ AsyncAll.console_errors (AsyncAll.log c) = ["Error fetching goal details:"]
    end.
Proof.
  intros sent arrivals c Horder. apply AllFacts.orders_of_two in Horder.
  subst c arrivals sent.
  repeat (apply elem_of_cons in Horder as [->|Horder]);
    [..|by apply elem_of_nil in Horder].
  all: destruct (b (AsyncAll.GET_goal goalId)) as [goal|e1] eqn:E1,
         (b (AsyncAll.Sent (GET_goal_tasks goalId))) as [tasks|e2] eqn:E2.
  all: cbn [fmap list_fmap take].
  all: AllFacts.compute_runs.
  all: unfold AsyncAll.absorb; cbn.
  all: by split_and!.
Qed.

Lemma viewGoalDetails_opens_the_modal :
  let goal := Goal.mk "g1" "Rocq" "" 4 "active" in
  let tasks := [Task.mk "t1" "Week 1" 1 "2026-04-01" "pending"] in
  let b : AsyncAll.Backend := λ e,
    match e with
    | AsyncAll.GET_goal _ => Fulfilled goal
    | AsyncAll.Sent (GET_goal_tasks _) => Fulfilled tasks
    | _ => Rejected "Not Found"
    end in
  let c := AsyncAll.run (AsyncAll.mounted Goals.initial)
             [AsyncAll.Trigger (λ _, GoalDetails.viewGoalDetails "g1");
              AsyncAll.Settle 0 1 b; AsyncAll.Settle 0 0 b] in
  Goals.selectedGoal (AsyncAll.current c) = Some (goal, tasks).
Proof.
  intros goal tasks b c.
  destruct (viewGoalDetails_outcomes Goals.initial "g1" b [1; 0])
    as (_ & _ & _ & Hdone).
  - apply Permutation_swap.
  - destruct Hdone as (Hc & _). exact (f_equal Goals.selectedGoal Hc).
Defined.

(** X21.  Answers that come late.  When the details of a goal [A] and then
    those of a goal [B] are asked for, and the answers for [A] arrive after
    those for [B], the modal ends up showing [A], the goal clicked first.
    And a modal closed while the answers are on their way opens when they
    arrive. *)
Theorem viewGoalDetails_late_answers (g : Goals.State) (A B : string)
    (b : AsyncAll.Backend) (goalA goalB : Goal.t) (tasksA tasksB : list Task.t) :
  let view goalId := AsyncAll.Trigger (λ _, GoalDetails.viewGoalDetails goalId) in
  let close := AsyncAll.Trigger (λ _, GoalDetails.closeDetails) in
  let overtaken := AsyncAll.run (AsyncAll.mounted g)
      [view A; view B;
       AsyncAll.Settle 1 0 b; AsyncAll.Settle 1 1 b;
       AsyncAll.Settle 0 0 b; AsyncAll.Settle 0 1 b] in
  let closed := AsyncAll.run (AsyncAll.mounted g)
      [view A; AsyncAll.Settle 0 0 b; close; AsyncAll.Settle 0 1 b] in
  b (AsyncAll.GET_goal A) = Fulfilled goalA →
  b (AsyncAll.Sent (GET_goal_tasks A)) = Fulfilled tasksA →
  b (AsyncAll.GET_goal B) = Fulfilled goalB →
  b (AsyncAll.Sent (GET_goal_tasks B)) = Fulfilled tasksB →
  Goals.selectedGoal (AsyncAll.current overtaken) = Some (goalA, tasksA)
  ∧ AsyncAll.outstanding overtaken = []
  ∧ Goals.selectedGoal (AsyncAll.current closed) = Some (goalA, tasksA)
  ∧ AsyncAll.outstanding closed = [].
Proof.
  intros view close overtaken closed HA HtA HB HtB.
  subst overtaken closed view close.
  AllFacts.compute_runs. unfold AsyncAll.absorb; cbn. by split_and!.
Qed.

Lemma viewGoalDetails_late_answers_g1_g2 :
  let g1 := Goal.mk "g1" "Rocq" "" 4 "active" in
  let g2 := Goal.mk "g2" "Lean" "" 2 "active" in
  let b : AsyncAll.Backend := λ e,
    match e with
    | AsyncAll.GET_goal goalId => Fulfilled (if decide (goalId = "g1") then g1 else g2)
    | AsyncAll.Sent (GET_goal_tasks _) => Fulfilled []
    | _ => Rejected "Not Found"
    end in
  let view goalId := AsyncAll.Trigger (λ _, GoalDetails.viewGoalDetails goalId) in
  let c := AsyncAll.run (AsyncAll.mounted Goals.initial)
      [view "g1"; view "g2";
       AsyncAll.Settle 1 0 b; AsyncAll.Settle 1 1 b;
       AsyncAll.Settle 0 0 b; AsyncAll.Settle 0 1 b] in
  Goals.selectedGoal (AsyncAll.current c) = Some (g1, []).
Proof.
  intros g1 g2 b view c.
  destruct (viewGoalDetails_late_answers Goals.initial "g1" "g2" b g1 g2 [] []
              eq_refl eq_refl eq_refl eq_refl) as (Hshown & _).
  exact Hshown.
Defined.

(* ===================================================================== *)
(** ** The Tasks page: the progress of a goal *)
(* ===================================================================== *)

Module ProgressFacts.
Import Tasks TasksView TasksProgress.
Local Open Scope Z_scope.

(** The percentages of all counts below 200, computed. *)
Lemma percentage_table :
  forallb (λ t : nat, forallb (λ c : nat,
    match percentage c t with
    | Some p =>
        (0 <=? p) && (p <=? 100)
        && (Z.abs (2 * Z.of_nat t * p - 200 * Z.of_nat c) <=? Z.of_nat t)
        && Bool.eqb (p =? 100) ((0 <? Z.of_nat t) && (Z.of_nat c =? Z.of_nat t))
        && Bool.eqb (p =? 0) (Z.of_nat c =? 0)
    | None => false
    end) (seq 0 (S t))) (seq 0 200) = true.
Proof. vm_compute. reflexivity. Qed.

Lemma percentage_small (c t : nat) :
  (t < 200)%nat → (c ≤ t)%nat →
  ∃ p, percentage c t = Some p
       ∧ 0 ≤ p ≤ 100
       ∧ Z.abs (2 * Z.of_nat t * p - 200 * Z.of_nat c) ≤ Z.of_nat t
       ∧ (p = 100 ↔ (0 < t)%nat ∧ c = t)
       ∧ (p = 0 ↔ c = 0%nat).
Proof.
  intros Ht Hc. pose proof percentage_table as Htable.
  rewrite forallb_forall in Htable. specialize (Htable t).
  rewrite forallb_forall in Htable.
  specialize (Htable (proj2 (in_seq 200 0 t) ltac:(lia)) c (proj2 (in_seq (S t) 0 c) ltac:(lia))).
  destruct (percentage c t) as [p|]; [|discriminate Htable].
  exists p. split; [reflexivity|].
  repeat (apply andb_prop in Htable as [Htable ?]).
  repeat match goal with
         | H : Bool.eqb _ _ = true |- _ => apply Bool.eqb_prop in H
         | H : (_ <=? _) = true |- _ => apply Z.leb_le in H
         end.
  split_and!; lia.
Qed.

Lemma completed_le_total (s : State) (goal : Goal.t) :
  (completedTasks s goal ≤ totalTasks s goal)%nat.
Proof. apply length_filter. Qed.

End ProgressFacts.



(* ===================================================================== *)
(** ** The Calendar page: from the backend's answers to the day cells *)
(* ===================================================================== *)

Module CalendarFetchFacts.
Import Async Calendar CalendarRuns.

Lemma calendar_looping_settle st lg goal rest tasksData (b : Backend) a :
  b (GET_goal_tasks (Goal.id goal)) = Fulfilled a →
  step (looping st lg (goal :: rest) tasksData) (Settle 0 b)
  = looping st (lg ++ [(EvRequest (GET_goal_tasks (Goal.id goal)), st)]) rest
            (<[Goal.id goal := a]> tasksData).
Proof.
  intros Ha. unfold looping. cbn. rewrite Ha. cbn.
  unfold absorb. cbn. by rewrite <- !app_assoc.
Qed.

Lemma calendar_looping_progress st lg fetched rest tasksData (b : Backend)
    (answers : string → list Task.t) :
  Forall (λ g, b (GET_goal_tasks (Goal.id g)) = Fulfilled (answers (Goal.id g))) fetched →
  run (looping st lg (fetched ++ rest) tasksData)
      (replicate (length fetched) (Settle 0 b))
  = looping st
      (lg ++ ((λ g, (EvRequest (GET_goal_tasks (Goal.id g)), st)) <$> fetched))
      rest
      (foldl (λ acc g, <[Goal.id g := answers (Goal.id g)]> acc) tasksData fetched).
Proof.
  intros Hok. revert lg tasksData.
  induction Hok as [|g fetched Hg _ IH]; intros lg tasksData.
  - cbn. by rewrite app_nil_r.
  - cbn [app length replicate run foldl fmap list_fmap].
    rewrite (calendar_looping_settle _ _ _ _ _ _ _ Hg). unfold run in IH. rewrite IH.
    by rewrite <- app_assoc.
Qed.

Lemma calendar_requests_of_loop (st : State) (goalsData : list Goal.t) :
  requests ((λ g, (EvRequest (GET_goal_tasks (Goal.id g)), st)) <$> goalsData)
  = (λ g, GET_goal_tasks (Goal.id g)) <$> goalsData.
Proof. induction goalsData as [|g l IH]; [done|]. cbn. by f_equal. Qed.

Lemma calendar_looping_done st lg tasksData :
  looping st lg [] tasksData
  = component (mkState (currentDate st) (goals st) tasksData (selectedDate st) false)
              [] lg.
Proof. unfold looping, absorb. cbn. by rewrite app_nil_r. Qed.

Lemma elem_of_concat {A} (x : A) (ls : list (list A)) :
  x ∈ concat ls ↔ ∃ l, x ∈ l ∧ l ∈ ls.
Proof.
  induction ls as [|a ls IH]; cbn [concat].
  - split; [by intros ?%elem_of_nil|]. by intros (l & _ & ?%elem_of_nil).
  - rewrite elem_of_app, IH. split.
    + intros [Hx|(l & Hx & Hl)].
      * exists a. split; [done|]. apply list_elem_of_here.
      * exists l. split; [done|]. by apply list_elem_of_further.
    + intros (l & Hx & Hl). apply elem_of_cons in Hl as [->|Hl]; [by left|].
      right. by exists l.
Qed.

(** The tasks of the collection are those of its entries. *)
Lemma elem_of_values (tasks : gmap string (list Task.t)) (task : Task.t) :
  task ∈ concat (Object_values tasks)
  ↔ ∃ goalId goalTasks, tasks !! goalId = Some goalTasks ∧ task ∈ goalTasks.
Proof.
  unfold Object_values. rewrite elem_of_concat. split.
  - intros (l & Hin & Hl). apply list_elem_of_fmap in Hl as ([k l'] & -> & Hkl).
    apply elem_of_map_to_list in Hkl. by exists k, l'.
  - intros (k & l & Hk & Hin). exists l. split; [done|].
    apply list_elem_of_fmap. exists (k, l). split; [done|].
    by apply elem_of_map_to_list.
Qed.

End CalendarFetchFacts.

(** X23.  From the backend's answers to the day cells.  When the goals and
    the tasks of every goal received are fetched in full, the view date and
    the selected date are as they were, and, in a view whose year is within
    the range of [Date] and outside 0..99, the cell of each day of the grid holds exactly the tasks received
    for one of the goals received whose parsed [scheduled_date] falls on
    that day of the month shown.  Tasks the page held before, of goals
    that are no longer listed, are in no cell.  No goal received has the id
    [__proto__], under which an assignment stores no entry. *)
Theorem fetched_tasks_fill_the_day_cells (parseDate : string → JSDate.Date)
    (now : JSDate.Date) (s : Calendar.State) (b : Async.Backend)
    (goalsData : list Goal.t) (answers : string → list Task.t) (t : Z) :
  let y := JSDate.YearFromDay (JSDate.Day t) in
  let m := JSDate.MonthFromDay (JSDate.Day t) in
  let scheduled task d :=
    ∃ t', parseDate (Task.scheduled_date task) = Some t'
          ∧ JSDate.YearFromDay (JSDate.Day t') = y
          ∧ JSDate.MonthFromDay (JSDate.Day t') = m
          ∧ JSDate.DateFromDay (JSDate.Day t') = d in
  let received task := ∃ g, g ∈ goalsData ∧ task ∈ answers (Goal.id g) in
  let c := Async.run (Async.mounted s)
             (Async.Trigger (λ _, Calendar.fetchCalendarData)
              :: replicate (S (length goalsData)) (Async.Settle 0 b)) in
  Calendar.currentDate s = Some t →
  JSDate.year_in_range y →
  ¬ (0 ≤ y ≤ 99)%Z →
  b GET_goals = Fulfilled goalsData →
  "__proto__" ∉ Goal.id <$> goalsData →
  (∀ g, g ∈ goalsData →
        b (GET_goal_tasks (Goal.id g)) = Fulfilled (answers (Goal.id g))) →
  Calendar.goals (Async.current c) = goalsData
  ∧ Calendar.loading (Async.current c) = false
  ∧ Calendar.currentDate (Async.current c) = Calendar.currentDate s
  ∧ Calendar.selectedDate (Async.current c) = Calendar.selectedDate s
  ∧ Async.outstanding c = []
  ∧ Async.requests (Async.log c)
    = GET_goals :: ((λ g, GET_goal_tasks (Goal.id g)) <$> goalsData)
  ∧ (∀ task, task ∈ concat (Object_values (Calendar.tasks (Async.current c)))
             ↔ received task)
  ∧ (∀ day, Some day ∈ Calendar.calendarDays (Calendar.currentDate (Async.current c)) →
       ∃ cell, CalendarView.renderCell parseDate now (Async.current c) (Some day)
               = Some cell
               ∧ ∀ task, task ∈ CalendarView.dayTasks cell
                         ↔ received task ∧ scheduled task day).
Proof.
  intros y m scheduled received c Hs _ Hy Hgoals _ Hanswers.
  pose (st := Calendar.mkState (Calendar.currentDate s) goalsData (Calendar.tasks s)
                (Calendar.selectedDate s) (Calendar.loading s)).
  pose (collected := foldl (λ acc g, <[Goal.id g := answers (Goal.id g)]> acc)
                           (∅ : gmap string (list Task.t)) goalsData).
  assert (Hc : c = Async.component
    (Calendar.mkState (Calendar.currentDate s) goalsData collected
       (Calendar.selectedDate s) false)
    []
    ([(Async.EvRequest GET_goals, s)]
     ++ ((λ g, (Async.EvRequest (GET_goal_tasks (Goal.id g)), st)) <$> goalsData))).
  { subst c.
    transitivity (Async.run
      (CalendarRuns.looping st [(Async.EvRequest GET_goals, s)] goalsData ∅)
      (replicate (length goalsData) (Async.Settle 0 b))).
    { unfold Async.run. cbn [replicate foldl]. f_equal. cbn. rewrite Hgoals.
      reflexivity. }
    pose proof (CalendarFetchFacts.calendar_looping_progress st
                  [(Async.EvRequest GET_goals, s)] goalsData [] ∅ b answers) as Hrun.
    rewrite app_nil_r in Hrun. rewrite Hrun.
    - apply CalendarFetchFacts.calendar_looping_done.
    - apply Forall_forall. exact Hanswers. }
  assert (Hreceived : ∀ task, task ∈ concat (Object_values collected) ↔ received task).
  { intros task. rewrite CalendarFetchFacts.elem_of_values. subst received collected.
    split.
    - intros (goalId & l & Hl & Hin).
      rewrite RefreshFacts.collected_lookup, lookup_empty in Hl.
      case_decide as Hid; [|discriminate Hl]. injection Hl as <-.
      apply list_elem_of_fmap in Hid as (g & -> & Hg). by exists g.
    - intros (g & Hg & Hin). exists (Goal.id g), (answers (Goal.id g)).
      split; [|exact Hin]. rewrite RefreshFacts.collected_lookup, decide_True; [done|].
      apply list_elem_of_fmap. by exists g. }
  rewrite Hc.
  cbn [Async.current Async.log Async.outstanding Calendar.goals Calendar.tasks
       Calendar.loading Calendar.currentDate Calendar.selectedDate].
  split_and!; try reflexivity.
  - cbn. f_equal. apply CalendarFetchFacts.calendar_requests_of_loop.
  - exact Hreceived.
  - intros day Hday. rewrite Hs in Hday.
    apply CalendarViewFacts.day_cell_range in Hday; [|exact Hy].
    fold y m in Hday.
    destruct (CalendarViewFacts.cell_matches t day 0 Hy Hday) as [Hdate _].
    fold y m in Hdate.
    unfold CalendarView.renderCell. cbn [Calendar.currentDate]. rewrite Hs, Hdate.
    destruct day as [|p|p]; [lia| |lia].
    eexists. split; [reflexivity|]. cbn [CalendarView.dayTasks].
    intros task.
    rewrite CalendarViewFacts.getTasksForDate_filter, list_elem_of_filter,
      JSDateFacts.Day_of_day. cbn [Calendar.tasks]. rewrite Hreceived.
    split.
    + intros [Hp Hin]. split; [exact Hin|].
      destruct (parseDate (Task.scheduled_date task)) as [t'|] eqn:Hparse;
        [|discriminate Hp].
      injection Hp as Hp. exists t'. split; [exact Hparse|].
      apply (CalendarViewFacts.cell_matches t (Z.pos p) t' Hy Hday). exact Hp.
    + intros [Hin (t' & Hp & Hf)]. split; [|exact Hin]. rewrite Hp.
      cbn [fmap option_fmap option_map]. f_equal.
      apply (CalendarViewFacts.cell_matches t (Z.pos p) t' Hy Hday). exact Hf.
Qed.

(** X23's example: the page shows April 2026 and holds a task of 1 April of
    a goal that has been deleted since.  After the fetch the cell of day 1
    holds the task received for 1 April, and neither the one received for
    1 May nor the one of the deleted goal. *)
Lemma fetched_tasks_fill_the_cells_of_april_2026 :
  let parseDate := λ s : string,
    if decide (s = "2026-04-01T23:30") then Some (20544 * 86400000 + 84600000)%Z
    else if decide (s = "2026-04-01T12:00") then Some (20544 * 86400000 + 43200000)%Z
    else if decide (s = "2026-05-01T00:00") then Some (20574 * 86400000)%Z
    else None in
  let evening := Task.mk "t1" "Read" 1 "2026-04-01T23:30" "pending" in
  let may := Task.mk "t3" "Review" 5 "2026-05-01T00:00" "pending" in
  let old := Task.mk "t0" "Plan" 1 "2026-04-01T12:00" "completed" in
  let g1 := Goal.mk "g1" "Rocq" "" 4 "active" in
  let view := (20560 * 86400000 + 36000000)%Z in
  let s := Calendar.mkState (Some view) [] {["g0" := [old]]} None true in
  let b : Async.Backend := λ req,
    match req with
    | GET_goals => Fulfilled [g1]
    | GET_goal_tasks _ => Fulfilled [evening; may]
    | GET_task_subtasks _ => Fulfilled []
    | _ => Fulfilled ()
    end in
  let c := Async.run (Async.mounted s)
             [Async.Trigger (λ _, Calendar.fetchCalendarData);
              Async.Settle 0 b; Async.Settle 0 b] in
  JSDate.toDateString (Some view) = "Fri Apr 17 2026"
  ∧ Calendar.loading (Async.current c) = false
  ∧ ∃ cell, CalendarView.renderCell parseDate (Some view) (Async.current c) (Some 1%Z)
            = Some cell
            ∧ (evening ∈ CalendarView.dayTasks cell)
            ∧ (may ∉ CalendarView.dayTasks cell)
            ∧ (old ∉ CalendarView.dayTasks cell).
Proof.
  intros parseDate evening may old g1 view s b c.
  split; [vm_compute; reflexivity|].
  assert (Hy : ¬ (0 ≤ JSDate.YearFromDay (JSDate.Day view) ≤ 99)%Z)
    by (vm_compute; intros [_ H]; by apply H).
  assert (Hrange : JSDate.year_in_range (JSDate.YearFromDay (JSDate.Day view)))
    by (vm_compute; split; reflexivity).
  destruct (fetched_tasks_fill_the_day_cells parseDate (Some view) s b [g1]
              (λ _, [evening; may]) view eq_refl Hrange Hy eq_refl)
    as (_ & Hloading & _ & _ & _ & _ & _ & Hcells).
  { apply (bool_decide_eq_false_1 ("__proto__" ∈ Goal.id <$> [g1])).
    vm_compute. reflexivity. }
  { intros g _. reflexivity. }
  split; [exact Hloading|].
  destruct (Hcells 1%Z) as (cell & Hcell & Htasks).
  { vm_compute. repeat constructor. }
  exists cell. split_and!; [exact Hcell| | |].
  - apply Htasks. split.
    + exists g1. split; [apply list_elem_of_here|apply list_elem_of_here].
    + exists (20544 * 86400000 + 84600000)%Z. clear. vm_compute. by split_and!.
  - intros [_ (t' & Hp & _ & Hm & _)]%Htasks.
    vm_compute in Hp. injection Hp as <-. vm_compute in Hm. discriminate Hm.
  - intros Hold. apply Htasks in Hold as [(g & _ & Hin) _]. clear -Hin.
    apply elem_of_cons in Hin as [Heq|Hin]; [discriminate Heq|].
    apply elem_of_cons in Hin as [Heq|Hin]; [discriminate Heq|].
    by apply elem_of_nil in Hin.
Defined.
